(** * Fake Form Filler: the content script, embedded and verified

    A shallow embedding of [content/content.js] (class [FakeFormFiller]):
    field classification, the fillability predicate, value generation with
    its static fallback, constraint enforcement, the fill session and the
    clear session; start-up, the settings and the mutation observer.  Of
    [background/background.js] it embeds the settings store and the message
    handler, of the popup script the settings boxes, the buttons and the
    scan.

    Modelling conventions.
    - A JavaScript string is a [string]: a sequence of code units, here the
      8-bit (Latin-1) range.  [String.length] is [.length], [slice] cuts
      code units.
    - A JavaScript number is a [num]: NaN, the two infinities, or an exact
      rational (every finite double is one).  Only comparison and selection
      are performed on attribute bounds, so no rounding is involved there;
      [Math.round] of a percentage and [Math.floor] of a scaled random draw
      are computed in exact arithmetic.
    - The document is the list of its input, textarea and select elements in
      document order, each a record of the properties the code reads; a
      field record refers to its control by position, so that every reader
      sees the writes of the others.  A written value is stored as written;
      the host rules kept are the exclusivity of radio groups and the
      refusal of a file input to take a non-empty value.
    - The document is passive: no page script reacts to the events that the
      filler dispatches.  Host behaviour the code depends on ([Math.random],
      [Date], [window.faker], [Number], [chrome.runtime.sendMessage]) is
      supplied by a [Host] record; theorems quantify over every host.
    - Exceptions are explicit: effectful code runs in the monad [M], whose
      results are [Ok] or [Throw]; [try_catch] is [try { } catch (e) { }]. *)

From Stdlib Require Import ZArith QArith Qround Ascii String List Bool Lia Sorted.
From stdpp Require Import base option list gmap strings.

Local Open Scope string_scope.
Local Open Scope Z_scope.

(** ** Strings as the code uses them *)

Module Str.

Definition code (c : ascii) : N := N_of_ascii c.

(** [String.prototype.toLowerCase] on Latin-1 code units. *)
Definition lowerChar (c : ascii) : ascii :=
  let n := code c in
  if ((65 <=? n) && (n <=? 90))%N then ascii_of_N (n + 32)
  else if ((192 <=? n) && (n <=? 222) && negb (n =? 215))%N
       then ascii_of_N (n + 32)
  else c.

Fixpoint toLowerCase (s : string) : string :=
  match s with
  | EmptyString => EmptyString
  | String c t => String (lowerChar c) (toLowerCase t)
  end.

(** White space and line terminators stripped by [trim]. *)
Definition isSpace (c : ascii) : bool :=
  let n := code c in
  ((n =? 9) || (n =? 10) || (n =? 11) || (n =? 12) || (n =? 13)
   || (n =? 32) || (n =? 160))%N.

Definition isDigit (c : ascii) : bool :=
  let n := code c in ((48 <=? n) && (n <=? 57))%N.

Definition digitVal (c : ascii) : Z := Z.of_N (code c) - 48.

Fixpoint trimStart (s : string) : string :=
  match s with
  | String c t => if isSpace c then trimStart t else s
  | EmptyString => EmptyString
  end.

Fixpoint allSpace (s : string) : bool :=
  match s with
  | EmptyString => true
  | String c t => isSpace c && allSpace t
  end.

Fixpoint trimEnd (s : string) : string :=
  match s with
  | EmptyString => EmptyString
  | String c t => if allSpace s then EmptyString else String c (trimEnd t)
  end.

Definition trim (s : string) : string := trimEnd (trimStart s).

Definition isEmpty (s : string) : bool :=
  match s with EmptyString => true | _ => false end.

(** [s.trim() === ""] *)
Definition isBlank (s : string) : bool := isEmpty (trim s).

Definition startsWith (p s : string) : bool := String.prefix p s.

(** [hay.includes(needle)] *)
Fixpoint includes (needle hay : string) : bool :=
  startsWith needle hay ||
  match hay with
  | EmptyString => false
  | String _ t => includes needle t
  end.

(** [/k1|k2|.../.test(s)] for literal alternatives. *)
Definition testAny (alts : list string) (s : string) : bool :=
  existsb (fun k => includes k s) alts.

(** [s.slice(0, n)] for [n >= 0]. *)
Definition slice0 (n : Z) (s : string) : string :=
  String.substring 0 (Z.to_nat n) s.

(** [xs.join(sep)] *)
Fixpoint join (sep : string) (xs : list string) : string :=
  match xs with
  | [] => EmptyString
  | [x] => x
  | x :: rest => String.append x (String.append sep (join sep rest))
  end.

(** [s.split(sep)[0]] for a one-character separator. *)
Fixpoint beforeChar (sep : ascii) (s : string) : string :=
  match s with
  | EmptyString => EmptyString
  | String c t => if Ascii.eqb c sep then EmptyString
                  else String c (beforeChar sep t)
  end.

(** Tokens of a class attribute, for [classList.contains]. *)
Fixpoint tokensAux (cur : string) (s : string) : list string :=
  match s with
  | EmptyString => if isEmpty cur then [] else [cur]
  | String c t =>
      if isSpace c
      then (if isEmpty cur then tokensAux EmptyString t
            else cur :: tokensAux EmptyString t)
      else tokensAux (String.append cur (String c EmptyString)) t
  end.

Definition classListContains (cls tok : string) : bool :=
  existsb (String.eqb tok) (tokensAux EmptyString cls).

(** Leading decimal digits of [s], as a value, with the rest. *)
Fixpoint digitsAux (acc : Z) (seen : bool) (s : string) : option Z * string :=
  match s with
  | String c t =>
      if isDigit c then digitsAux (10 * acc + digitVal c) true t
      else ((if seen then Some acc else None), s)
  | EmptyString => ((if seen then Some acc else None), EmptyString)
  end.

(** [parseInt(s, 10)]; [None] is NaN. *)
Definition parseInt10 (s : string) : option Z :=
  match trimStart s with
  | String "-" t => option_map Z.opp (fst (digitsAux 0 false t))
  | String "+" t => fst (digitsAux 0 false t)
  | t => fst (digitsAux 0 false t)
  end.

(** Decimal rendering of an integer, as [String(n)] gives for integers
    of moderate size. *)
Fixpoint posDigits (fuel : nat) (n : Z) (acc : string) : string :=
  match fuel with
  | O => acc
  | S f =>
      let acc' := String (ascii_of_N (Z.to_N (48 + n mod 10))) acc in
      if n <? 10 then acc' else posDigits f (n / 10) acc'
  end.

Definition ofZ (n : Z) : string :=
  if n <? 0 then String "-" (posDigits (Z.to_nat (Z.log2 (- n)) + 1) (- n) EmptyString)
  else posDigits (Z.to_nat (Z.log2 n) + 1) n EmptyString.

(** [String(n).padStart(w, "0")] for [n >= 0]. *)
Fixpoint zeros (k : nat) : string :=
  match k with
  | O => EmptyString
  | S k' => String "0" (zeros k')
  end.

Definition padZeros (w : nat) (s : string) : string :=
  String.append (zeros (w - String.length s)) s.

End Str.

(** ** Numbers and values *)

Inductive num : Type :=
| NaN
| NegInf
| Fin (q : Q)
| PosInf.

Definition numZ (z : Z) : num := Fin (inject_Z z).

(** [a < b] on numbers: false as soon as one side is NaN. *)
Definition num_lt (a b : num) : bool :=
  match a, b with
  | NaN, _ | _, NaN => false
  | _, NegInf => false
  | NegInf, _ => true
  | PosInf, _ => false
  | Fin _, PosInf => true
  | Fin p, Fin q => negb (Qle_bool q p)
  end.

Definition num_gt (a b : num) : bool := num_lt b a.

Definition num_isNaN (a : num) : bool :=
  match a with NaN => true | _ => false end.

(** The order used to state range properties: [a <= b], no NaN involved. *)
Definition num_le (a b : num) : Prop :=
  match a, b with
  | NaN, _ | _, NaN => False
  | NegInf, _ => True
  | _, PosInf => True
  | Fin p, Fin q => (p <= q)%Q
  | _, _ => False
  end.

(** A JavaScript value as it flows from generation to the DOM write. *)
Inductive Value : Type :=
| VNull
| VStr (s : string)
| VNum (n : num)
| VBool (b : bool)
| VArr (xs : list string).

(** ** Controls *)

Inductive InputType : Type :=
| TyText | TyEmail | TyPassword | TyTel | TyUrl | TySearch
| TyDate | TyDatetimeLocal | TyNumber | TyRange
| TyCheckbox | TyRadio | TyHidden
| TyButton | TySubmit | TyReset | TyImage | TyFile
| TyColor | TyMonth | TyWeek | TyTime.

Inductive Tag : Type :=
| INPUT (ty : InputType)
| TEXTAREA
| SELECT (multiple : bool).

Record SelOption : Type := mkOption {
  opt_value : string;
  opt_text : string;          (* textContent *)
  opt_selected : bool
}.

Record Sibling : Type := mkSibling {
  sib_tagName : string;
  sib_text : string
}.

Record Element : Type := mkElement {
  el_tag : Tag;
  el_name : string;
  el_id : string;
  el_placeholder : string;
  el_autocomplete : string;
  el_className : string;
  el_value : string;                  (* input and textarea *)
  el_checked : bool;
  el_disabled : bool;
  el_readOnly : bool;
  el_required : bool;
  el_pattern : string;
  el_maxLength : Z;                   (* the property; -1 when unset *)
  el_attr_maxlength : option string;  (* getAttribute("maxlength") *)
  el_min : string;
  el_max : string;
  el_options : list SelOption;
  el_noAutofill : bool;               (* hasAttribute("data-no-autofill") *)
  el_displayNone : bool;              (* computed style.display === "none" *)
  el_visibilityHidden : bool;         (* computed style.visibility === "hidden" *)
  el_offsetParentNull : bool;
  el_labelFor : option string;        (* text of label[for=id], if any *)
  el_parentLabel : option string;     (* text of closest("label"), if any *)
  el_prevSibling : option Sibling;    (* previousElementSibling *)
  el_parentText : option string;      (* parentElement?.textContent *)
  el_inAntWrapper : bool;             (* closest(".ant-checkbox-wrapper") *)
  el_antBoxChecked : option bool;     (* closest(".ant-checkbox"): has class
                                         "ant-checkbox-checked" *)
  el_reactTracked : bool;
  el_outline : string;
  el_backgroundColor : string;
  el_form : option nat                (* form owner *)
}.

Definition typeName (t : InputType) : string :=
  match t with
  | TyText => "text" | TyEmail => "email" | TyPassword => "password"
  | TyTel => "tel" | TyUrl => "url" | TySearch => "search"
  | TyDate => "date" | TyDatetimeLocal => "datetime-local"
  | TyNumber => "number" | TyRange => "range"
  | TyCheckbox => "checkbox" | TyRadio => "radio" | TyHidden => "hidden"
  | TyButton => "button" | TySubmit => "submit" | TyReset => "reset"
  | TyImage => "image" | TyFile => "file"
  | TyColor => "color" | TyMonth => "month" | TyWeek => "week"
  | TyTime => "time"
  end.

(** [field.type] *)
Definition typeProp (f : Element) : string :=
  match el_tag f with
  | INPUT t => typeName t
  | TEXTAREA => "textarea"
  | SELECT false => "select-one"
  | SELECT true => "select-multiple"
  end.

(** [field.tagName.toLowerCase()] *)
Definition tagLower (f : Element) : string :=
  match el_tag f with
  | INPUT _ => "input"
  | TEXTAREA => "textarea"
  | SELECT _ => "select"
  end.

Fixpoint selectedValue (os : list SelOption) : string :=
  match os with
  | [] => ""
  | o :: rest => if opt_selected o then opt_value o else selectedValue rest
  end.

(** [field.value] *)
Definition fieldValue (f : Element) : string :=
  match el_tag f with
  | SELECT _ => selectedValue (el_options f)
  | _ => el_value f
  end.

(** [field.min], [field.max], [field.maxLength]: [None] is [undefined]. *)
Definition propMin (f : Element) : option string :=
  match el_tag f with INPUT _ => Some (el_min f) | _ => None end.
Definition propMax (f : Element) : option string :=
  match el_tag f with INPUT _ => Some (el_max f) | _ => None end.
Definition propMaxLength (f : Element) : option Z :=
  match el_tag f with SELECT _ => None | _ => Some (el_maxLength f) end.

(** [field.readOnly] in a boolean context; a select has no such property. *)
Definition propReadOnly (f : Element) : bool :=
  match el_tag f with SELECT _ => false | _ => el_readOnly f end.

(** ** isFieldEmpty *)

Definition isFieldEmpty (field : Element) : bool :=
  let tag := tagLower field in
  let type := Str.toLowerCase (typeProp field) in
  if String.eqb type "checkbox" || String.eqb type "radio"
  then negb (el_checked field)
  else if String.eqb tag "select"
  then Str.isEmpty (fieldValue field) || Str.isBlank (fieldValue field)
  else Str.isBlank (fieldValue field).

(** ** getFieldLabels *)

Definition getFieldLabels (field : Element) : list string :=
  let direct :=
    if Str.isEmpty (el_id field) then []
    else match el_labelFor field with
         | Some t => [Str.trim t]
         | None => []
         end in
  let parent :=
    match el_parentLabel field with
    | Some t => [Str.trim t]
    | None => []
    end in
  let prev :=
    match el_prevSibling field with
    | Some sb =>
        if String.eqb (sib_tagName sb) "LABEL" || String.eqb (sib_tagName sb) "SPAN"
        then [Str.trim (sib_text sb)] else []
    | None => []
    end in
  List.filter (fun label => (0 <? String.length label)%nat)
              (direct ++ parent ++ prev).

(** ** detectFieldType *)

Notation "a +++ b" := (String.append a b) (at level 60, right associativity).

(** The combined signal text
    [`${name} ${id} ${placeholder} ${autocomplete} ${className} ${labels}`]. *)
Definition allTextOf (field : Element) : string :=
  let name := Str.toLowerCase (el_name field) in
  let id := Str.toLowerCase (el_id field) in
  let placeholder := Str.toLowerCase (el_placeholder field) in
  let autocomplete := Str.toLowerCase (el_autocomplete field) in
  let className := Str.toLowerCase (el_className field) in
  let labels := Str.toLowerCase (Str.join " " (getFieldLabels field)) in
  name +++ " " +++ id +++ " " +++ placeholder +++ " " +++ autocomplete
       +++ " " +++ className +++ " " +++ labels.

Definition reEmail := ["email"; "e-mail"].
Definition rePassword := ["password"; "pwd"; "pass"].
Definition rePhone := ["phone"; "tel"; "mobile"; "cell"].
Definition reUrl := ["url"; "website"; "homepage"; "link"].
Definition reDate := ["date"; "birth"; "dob"; "birthday"].
Definition reNumber :=
  ["age"; "year"; "amount"; "price"; "quantity"; "count"; "number"].
Definition reName :=
  ["name"; "firstname"; "lastname"; "fullname"; "givenname"; "surname"].
Definition reAddress :=
  ["address"; "street"; "city"; "state"; "zip"; "postal"; "country"].

Definition detectFieldType (field : Element) : string :=
  let type := Str.toLowerCase (typeProp field) in
  let allText := allTextOf field in
  let test := fun alts => Str.testAny alts allText in
  (* Email detection *)
  if String.eqb type "email" || test reEmail then "email"
  (* Password detection *)
  else if String.eqb type "password" || test rePassword then "password"
  (* Phone detection *)
  else if String.eqb type "tel" || test rePhone then "phone"
  (* URL detection *)
  else if String.eqb type "url" || test reUrl then "url"
  (* Date detection *)
  else if String.eqb type "date" || String.eqb type "datetime-local"
          || test reDate then "date"
  (* Number detection *)
  else if String.eqb type "number" || String.eqb type "range"
          || test reNumber then "number"
  (* Name detection *)
  else if test reName then
    if test ["first"; "given"] then "firstName"
    else if test ["last"; "sur"; "family"] then "lastName"
    else if test ["middle"] then "middleName"
    else if test ["full"; "complete"] then "fullName"
    else "firstName"
  (* Address detection *)
  else if test reAddress then
    if test ["street"; "address1"; "addr1"] then "streetAddress"
    else if test ["city"; "town"] then "city"
    else if test ["state"; "province"; "region"] then "state"
    else if test ["zip"; "postal"] then "zipCode"
    else if test ["country"] then "country"
    else "streetAddress"
  (* Company detection *)
  else if test ["company"; "organization"; "employer"; "business"]
  then "company"
  (* Job title detection *)
  else if test ["job"; "title"; "position"; "role"; "occupation"]
  then "jobTitle"
  (* Credit card detection *)
  else if test ["credit"; "card"; "cc"; "cardnumber"] then "creditCard"
  (* Textarea detection *)
  else if String.eqb (tagLower field) "textarea" then
    if test ["comment"; "message"; "description"; "bio"; "about"]
    then "paragraph" else "paragraph"
  (* Select detection *)
  else if String.eqb (tagLower field) "select" then "select"
  (* Checkbox detection *)
  else if String.eqb type "checkbox" then "checkbox"
  (* Radio detection *)
  else if String.eqb type "radio" then "radio"
  (* Default to text *)
  else "text".

Definition getFieldIdentifier (field : Element) : string :=
  if negb (Str.isEmpty (el_name field)) then el_name field
  else if negb (Str.isEmpty (el_id field)) then el_id field
  else if negb (Str.isEmpty (el_placeholder field)) then el_placeholder field
  else "unnamed-field".

(** ** getBaseType *)

Definition semanticToBase : gmap string string :=
  list_to_map
    [("firstName", "text"); ("lastName", "text"); ("middleName", "text");
     ("fullName", "text"); ("streetAddress", "text"); ("city", "text");
     ("state", "text"); ("zipCode", "text"); ("country", "text");
     ("company", "text"); ("jobTitle", "text"); ("creditCard", "text");
     ("paragraph", "textarea"); ("phone", "tel")].

Definition getBaseType (field : Element) (detectedType : string) : string :=
  let tag := tagLower field in
  let type := Str.toLowerCase (typeProp field) in
  if String.eqb tag "textarea" then "textarea"
  else if String.eqb type "email" then "email"
  else if String.eqb type "password" then "password"
  else if String.eqb type "tel" then "tel"
  else if String.eqb type "url" then "url"
  (* Skip date fields entirely *)
  else if String.eqb type "date" || String.eqb type "datetime-local"
  then "date_disabled"
  else if String.eqb type "number" || String.eqb type "range" then "number"
  else if String.eqb type "checkbox" then "checkbox"
  else if String.eqb type "radio" then "radio"
  else if String.eqb tag "select" then "select"
  else default "text" (semanticToBase !! detectedType).

(** ** Settings *)

Record Settings : Type := mkSettings {
  autoFillEnabled : bool;
  visualFeedbackEnabled : bool;
  skipHiddenFields : bool;
  fillDelay : Z;
  enabledFieldTypes : gmap string bool
}.

Definition defaultEnabledFieldTypes : gmap string bool :=
  list_to_map
    [("text", true); ("email", true); ("password", true); ("textarea", true);
     ("select", true); ("checkbox", true); ("radio", true); ("date", true);
     ("number", true); ("url", true); ("tel", true)].

Definition defaultSettings : Settings :=
  {| autoFillEnabled := true;
     visualFeedbackEnabled := true;
     skipHiddenFields := true;
     fillDelay := 100;
     enabledFieldTypes := defaultEnabledFieldTypes |}.

(** ** isFieldFillable *)

Definition isCaptcha (field : Element) : bool :=
  let n := Str.toLowerCase (el_name field) in
  let i := Str.toLowerCase (el_id field) in
  Str.includes "captcha" n || Str.includes "captcha" i
  || Str.includes "recaptcha" n || Str.includes "recaptcha" i.

Definition isHidden (field : Element) : bool :=
  el_displayNone field || el_visibilityHidden field
  || String.eqb (typeProp field) "hidden" || el_offsetParentNull field.

Definition isFieldFillable (settings : Settings) (field : Element) : bool :=
  let detectedType := detectFieldType field in
  let baseType := getBaseType field detectedType in
  (* Never fill date-like fields regardless of underlying input type *)
  if String.eqb detectedType "date" then false
  else
    let enabledMap := enabledFieldTypes settings in
    if negb (default false (enabledMap !! baseType)) then false
    (* Skip hidden fields if setting is enabled *)
    else if skipHiddenFields settings && isHidden field then false
    (* Skip known non-fillable/security fields *)
    else if isCaptcha field then false
    (* Skip disabled or readonly fields *)
    else if el_disabled field || propReadOnly field then false
    (* Skip fields with explicit no-autofill attribute *)
    else if el_noAutofill field then false
    (* Only fill if the field is currently empty *)
    else if negb (isFieldEmpty field) then false
    else true.

(** A blank text input, the base for concrete controls. *)
Definition blankInput (ty : InputType) : Element :=
  {| el_tag := INPUT ty; el_name := ""; el_id := ""; el_placeholder := "";
     el_autocomplete := ""; el_className := ""; el_value := "";
     el_checked := false; el_disabled := false; el_readOnly := false;
     el_required := false; el_pattern := ""; el_maxLength := -1;
     el_attr_maxlength := None; el_min := ""; el_max := "";
     el_options := []; el_noAutofill := false; el_displayNone := false;
     el_visibilityHidden := false; el_offsetParentNull := false;
     el_labelFor := None; el_parentLabel := None; el_prevSibling := None;
     el_parentText := None; el_inAntWrapper := false;
     el_antBoxChecked := None; el_reactTracked := false;
     el_outline := ""; el_backgroundColor := ""; el_form := None |}.

(** The control with its [name] set. *)
Definition withName (n : string) (f : Element) : Element :=
  {| el_tag := el_tag f; el_name := n; el_id := el_id f;
     el_placeholder := el_placeholder f;
     el_autocomplete := el_autocomplete f; el_className := el_className f;
     el_value := el_value f; el_checked := el_checked f;
     el_disabled := el_disabled f; el_readOnly := el_readOnly f;
     el_required := el_required f; el_pattern := el_pattern f;
     el_maxLength := el_maxLength f;
     el_attr_maxlength := el_attr_maxlength f;
     el_min := el_min f; el_max := el_max f; el_options := el_options f;
     el_noAutofill := el_noAutofill f; el_displayNone := el_displayNone f;
     el_visibilityHidden := el_visibilityHidden f;
     el_offsetParentNull := el_offsetParentNull f;
     el_labelFor := el_labelFor f; el_parentLabel := el_parentLabel f;
     el_prevSibling := el_prevSibling f; el_parentText := el_parentText f;
     el_inAntWrapper := el_inAntWrapper f;
     el_antBoxChecked := el_antBoxChecked f;
     el_reactTracked := el_reactTracked f;
     el_outline := el_outline f; el_backgroundColor := el_backgroundColor f;
     el_form := el_form f |}.

(** The control with its [min] and [max] set. *)
Definition withBounds (lo hi : string) (f : Element) : Element :=
  {| el_tag := el_tag f; el_name := el_name f; el_id := el_id f;
     el_placeholder := el_placeholder f;
     el_autocomplete := el_autocomplete f; el_className := el_className f;
     el_value := el_value f; el_checked := el_checked f;
     el_disabled := el_disabled f; el_readOnly := el_readOnly f;
     el_required := el_required f; el_pattern := el_pattern f;
     el_maxLength := el_maxLength f;
     el_attr_maxlength := el_attr_maxlength f;
     el_min := lo; el_max := hi; el_options := el_options f;
     el_noAutofill := el_noAutofill f; el_displayNone := el_displayNone f;
     el_visibilityHidden := el_visibilityHidden f;
     el_offsetParentNull := el_offsetParentNull f;
     el_labelFor := el_labelFor f; el_parentLabel := el_parentLabel f;
     el_prevSibling := el_prevSibling f; el_parentText := el_parentText f;
     el_inAntWrapper := el_inAntWrapper f;
     el_antBoxChecked := el_antBoxChecked f;
     el_reactTracked := el_reactTracked f;
     el_outline := el_outline f; el_backgroundColor := el_backgroundColor f;
     el_form := el_form f |}.

(** ** Arithmetic on numbers, as far as the code needs it *)

Definition num_map2 (f : Q -> Q -> Q) (a b : num) : num :=
  match a, b with
  | Fin p, Fin q => Fin (f p q)
  | NaN, _ | _, NaN => NaN
  | PosInf, NegInf | NegInf, PosInf => NaN
  | PosInf, _ | _, PosInf => PosInf
  | NegInf, _ | _, NegInf => NegInf
  end.

Definition num_add : num -> num -> num := num_map2 Qplus.

(** [Math.min(a, b)] *)
Definition num_min (a b : num) : num :=
  match a, b with
  | NaN, _ | _, NaN => NaN
  | _, _ => if num_lt b a then b else a
  end.

(** [Math.floor] *)
Definition num_floor (a : num) : num :=
  match a with
  | Fin q => numZ (Qfloor q)
  | other => other
  end.

(** A value in a boolean context. *)
Definition truthy (v : Value) : bool :=
  match v with
  | VNull => false
  | VStr s => negb (Str.isEmpty s)
  | VNum NaN => false
  | VNum (Fin q) => negb (Qeq_bool q 0)
  | VNum _ => true
  | VBool b => b
  | VArr _ => true
  end.

(** ** The host *)

(** Result of [faker.lorem.words]: an array in old releases, a string in
    current ones. *)
Inductive WordsOut : Type :=
| WArr (ws : list string)
| WStr (s : string).

(** [window.faker], duck-typed: a method that is missing is [None].  The
    [nat] argument is the instant of the call, which makes each call an
    independent draw. *)
Record Faker : Type := mkFaker {
  fk_internet_email : option (nat -> string);
  fk_internet_password : option (nat -> string);
  fk_internet_url : option (nat -> string);
  fk_internet_userName : option (nat -> string);
  fk_phone_number : option (nat -> string);
  fk_person_firstName : option (nat -> string);
  fk_person_lastName : option (nat -> string);
  fk_person_middleName : option (nat -> string);
  fk_person_fullName : option (nat -> string);
  fk_person_jobTitle : option (nat -> string);
  fk_name_firstName : option (nat -> string);
  fk_name_lastName : option (nat -> string);
  fk_name_middleName : option (nat -> string);
  fk_location_streetAddress : option (nat -> string);
  fk_location_city : option (nat -> string);
  fk_location_state : option (nat -> string);
  fk_location_zipCode : option (nat -> string);
  fk_location_country : option (nat -> string);
  fk_address_streetAddress : option (nat -> string);
  fk_address_city : option (nat -> string);
  fk_address_state : option (nat -> string);
  fk_address_zipCode : option (nat -> string);
  fk_address_country : option (nat -> string);
  fk_company_name : option (nat -> string);
  fk_finance_creditCardNumber : option (nat -> string);
  fk_string_numeric : option (nat -> Z -> string);
  (* faker.number.int({min, max}); [None] as a result is a throw *)
  fk_number_int : option (nat -> num -> num -> option num);
  fk_lorem_paragraph : option (nat -> string);
  fk_lorem_words : option (nat -> num -> WordsOut);
  fk_lorem_sentence : option (nat -> num -> string)
}.

Record Host : Type := mkHost {
  faker : option Faker;                (* window.faker *)
  rand53 : nat -> Z;                   (* Math.random() is
                                          (rand53 t mod 2^53) / 2^53 *)
  now : nat -> Z;                      (* clock, ms since the epoch *)
  sendFault : nat -> option string;    (* chrome.runtime.sendMessage raising *)
  toNumber : string -> num;            (* Number(s) *)
  numToString : num -> string;         (* String(n) *)
  toString36 : num -> string;          (* n.toString(36) *)
  dateParse : string -> num            (* new Date(s).getTime() *)
}.

(** ** The document and the filler object *)

Record FormNode : Type := mkForm {
  form_id : string;
  form_action : string;
  form_method : string;
  form_controls : list nat    (* querySelectorAll("input, textarea, select") *)
}.

Record FieldData : Type := mkFieldData {
  fd_element : nat;           (* reference to the control *)
  fd_type : string;
  fd_detectedType : string;
  fd_name : string;
  fd_id : string;
  fd_placeholder : string;
  fd_required : bool;
  fd_readonly : bool;
  fd_disabled : bool;
  fd_maxLength : Value;
  fd_pattern : Value;
  fd_autocomplete : string;
  fd_labels : list string
}.

Inductive FormRef : Type :=
| BodyRef
| FormAt (i : nat).

Record FormData : Type := mkFormData {
  fm_id : string;
  fm_element : FormRef;
  fm_action : string;
  fm_method : string;
  fm_fields : list FieldData
}.

Record FieldError : Type := mkFieldError {
  fe_field : string;
  fe_error : string
}.

Record FillSession : Type := mkFillSession {
  fs_startTime : Z;
  fs_fieldsProcessed : Z;
  fs_fieldsSkipped : Z;
  fs_errors : list FieldError
}.

(** What the session does to its surroundings, in order. *)
Inductive Effect : Type :=
| EProgress (progress : Z)            (* FILL_PROGRESS message *)
| EClearComplete (fieldsCleared : Z)  (* CLEAR_COMPLETE message *)
| EDomEvent (target : nat) (type : string)
| ETimer (target : nat) (ms : Z)      (* setTimeout: remove the highlight *)
| ESleep (ms : Z).                    (* await this.delay(ms) *)

Record World : Type := mkWorld {
  w_doc : list Element;       (* every input, textarea, select; document order *)
  w_forms : list FormNode;    (* every form; document order *)
  w_tick : nat;
  w_trace : list Effect;      (* most recent first *)
  w_settings : Settings;
  w_detectedForms : list FormData;
  w_detectedFields : list FieldData;
  w_fillSession : option FillSession;
  w_processedFields : Z       (* the local counter of fillForms; it lives in
                                 the state because its updates survive a
                                 throw inside the per-field try *)
}.

(** ** The monad of effectful code *)

Inductive Res (A : Type) : Type :=
| Ok (a : A)
| Throw (message : string).
Arguments Ok {A} a.
Arguments Throw {A} message.

Definition M (A : Type) : Type := World -> Res A * World.

Definition ret {A} (a : A) : M A := fun w => (Ok a, w).

Definition bind {A B} (m : M A) (k : A -> M B) : M B :=
  fun w => match m w with
           | (Ok a, w') => k a w'
           | (Throw e, w') => (Throw e, w')
           end.

Definition throw {A} (e : string) : M A := fun w => (Throw e, w).

(** [try { m } catch (e) { h e }] *)
Definition try_catch {A} (m : M A) (h : string -> M A) : M A :=
  fun w => match m w with
           | (Ok a, w') => (Ok a, w')
           | (Throw e, w') => h e w'
           end.

Notation "x <- m ;; k" := (bind m (fun x => k))
  (at level 90, m at level 89, right associativity).
Notation "m ;;; k" := (bind m (fun _ => k))
  (at level 90, right associativity).

Definition get : M World := fun w => (Ok w, w).
Definition put (w : World) : M unit := fun _ => (Ok tt, w).
Definition modify (f : World -> World) : M unit := fun w => (Ok tt, f w).

Definition setDoc (d : list Element) (w : World) : World :=
  {| w_doc := d; w_forms := w_forms w; w_tick := w_tick w;
     w_trace := w_trace w; w_settings := w_settings w;
     w_detectedForms := w_detectedForms w;
     w_detectedFields := w_detectedFields w;
     w_fillSession := w_fillSession w;
     w_processedFields := w_processedFields w |}.

Definition setTick (t : nat) (w : World) : World :=
  {| w_doc := w_doc w; w_forms := w_forms w; w_tick := t;
     w_trace := w_trace w; w_settings := w_settings w;
     w_detectedForms := w_detectedForms w;
     w_detectedFields := w_detectedFields w;
     w_fillSession := w_fillSession w;
     w_processedFields := w_processedFields w |}.

Definition setTrace (tr : list Effect) (w : World) : World :=
  {| w_doc := w_doc w; w_forms := w_forms w; w_tick := w_tick w;
     w_trace := tr; w_settings := w_settings w;
     w_detectedForms := w_detectedForms w;
     w_detectedFields := w_detectedFields w;
     w_fillSession := w_fillSession w;
     w_processedFields := w_processedFields w |}.

Definition setInventory (fs : list FormData) (fl : list FieldData)
    (w : World) : World :=
  {| w_doc := w_doc w; w_forms := w_forms w; w_tick := w_tick w;
     w_trace := w_trace w; w_settings := w_settings w;
     w_detectedForms := fs;
     w_detectedFields := fl;
     w_fillSession := w_fillSession w;
     w_processedFields := w_processedFields w |}.

Definition setSession (s : option FillSession) (w : World) : World :=
  {| w_doc := w_doc w; w_forms := w_forms w; w_tick := w_tick w;
     w_trace := w_trace w; w_settings := w_settings w;
     w_detectedForms := w_detectedForms w;
     w_detectedFields := w_detectedFields w;
     w_fillSession := s;
     w_processedFields := w_processedFields w |}.

Definition setProcessed (n : Z) (w : World) : World :=
  {| w_doc := w_doc w; w_forms := w_forms w; w_tick := w_tick w;
     w_trace := w_trace w; w_settings := w_settings w;
     w_detectedForms := w_detectedForms w;
     w_detectedFields := w_detectedFields w;
     w_fillSession := w_fillSession w;
     w_processedFields := n |}.

(** The instant of a host call; every call gets its own. *)
Definition fresh : M nat :=
  fun w => (Ok (w_tick w), setTick (S (w_tick w)) w).

Definition emit (e : Effect) : M unit :=
  modify (fun w => setTrace (e :: w_trace w) w).

(** ** Calendar dates: [new Date(ms).toISOString()] *)

Module IsoDate.

Definition msPerDay : Z := 86400000.

(** Proleptic Gregorian date of a day count since 1970-01-01. *)
Definition civil (days : Z) : Z * Z * Z :=
  let z := days + 719468 in
  let era := z / 146097 in
  let doe := z - era * 146097 in
  let yoe := (doe - doe / 1460 + doe / 36524 - doe / 146096) / 365 in
  let y := yoe + era * 400 in
  let doy := doe - (365 * yoe + yoe / 4 - yoe / 100) in
  let mp := (5 * doy + 2) / 153 in
  let d := doy - (153 * mp + 2) / 5 + 1 in
  let m := if mp <? 10 then mp + 3 else mp - 9 in
  ((if m <=? 2 then y + 1 else y), m, d).

Definition pad (w : nat) (n : Z) : string := Str.padZeros w (Str.ofZ n).

Definition yearString (y : Z) : string :=
  if (0 <=? y) && (y <=? 9999) then pad 4 y
  else if y <? 0 then String "-" (pad 6 (- y))
  else String "+" (pad 6 y).

Definition toISOString (ms : Z) : string :=
  let '(y, m, d) := civil (ms / msPerDay) in
  let t := ms mod msPerDay in
  yearString y +++ "-" +++ pad 2 m +++ "-" +++ pad 2 d +++ "T"
    +++ pad 2 (t / 3600000) +++ ":" +++ pad 2 (t / 60000 mod 60) +++ ":"
    +++ pad 2 (t / 1000 mod 60) +++ "." +++ pad 3 (t mod 1000) +++ "Z".

End IsoDate.

(** ** The hint "max N characters" in the surrounding text:
       [/max\s+(\d+)\s+characters?/i] *)

Module CharLimit.

Definition spaces1 (s : string) : option string :=
  match s with
  | String c t => if Str.isSpace c then Some (Str.trimStart t) else None
  | EmptyString => None
  end.

Fixpoint digits1 (s : string) : string * string :=
  match s with
  | String c t =>
      if Str.isDigit c
      then let '(ds, rest) := digits1 t in (String c ds, rest)
      else (EmptyString, s)
  | EmptyString => (EmptyString, EmptyString)
  end.

Definition matchHere (s : string) : option string :=
  if Str.startsWith "max" (Str.toLowerCase s) then
    match spaces1 (String.substring 3 (String.length s) s) with
    | Some s1 =>
        let '(ds, s2) := digits1 s1 in
        if Str.isEmpty ds then None
        else match spaces1 s2 with
             | Some s3 =>
                 if Str.startsWith "character" (Str.toLowerCase s3)
                 then Some ds else None
             | None => None
             end
    | None => None
    end
  else None.

(** The first capture group of the leftmost match. *)
Fixpoint firstMatch (s : string) : option string :=
  match matchHere s with
  | Some ds => Some ds
  | None => match s with
            | String _ t => firstMatch t
            | EmptyString => None
            end
  end.

End CharLimit.

(** ** Value generation *)

Section Engine.

Variable H : Host.

Definition two53 : positive := (2 ^ 53)%positive.

(** [Math.random()], drawn at instant [t]: a rational in [0, 1). *)
Definition randomAt (t : nat) : Q :=
  Qmake (rand53 H t mod Zpos two53) two53.

Definition mathRandom : M Q := t <- fresh ;; ret (randomAt t).

(** [Math.floor(Math.random() * n)] *)
Definition floorRandom (n : Z) : M Z :=
  u <- mathRandom ;; ret (Qfloor (u * inject_Z n)).

(** [Math.random() > 0.5] *)
Definition coin : M bool :=
  u <- mathRandom ;; ret (negb (Qle_bool u (1 # 2))).

(** [Array.from({ length: n }, () => Math.floor(Math.random() * 10)).join("")] *)
Fixpoint randomDigits (n : nat) : M string :=
  match n with
  | O => ret EmptyString
  | S n' => d <- floorRandom 10 ;;
            rest <- randomDigits n' ;;
            ret (Str.ofZ d +++ rest)
  end.

(** [String(v)] *)
Definition valueToString (v : Value) : string :=
  match v with
  | VNull => "null"
  | VStr s => s
  | VNum n => numToString H n
  | VBool true => "true"
  | VBool false => "false"
  | VArr xs => Str.join "," xs
  end.

(** A value coerced to a number. *)
Definition valueToNumber (v : Value) : num :=
  match v with
  | VNull => numZ 0
  | VStr s => toNumber H s
  | VNum n => n
  | VBool true => numZ 1
  | VBool false => numZ 0
  | VArr xs => toNumber H (Str.join "," xs)
  end.

(** [parseInt(v, 10)] as a number. *)
Definition parseIntNum (v : Value) : num :=
  match Str.parseInt10 (valueToString v) with
  | Some z => numZ z
  | None => NaN
  end.

Definition getFallbackData (fieldType : string) (field : option Element)
  : M Value :=
  t <- fresh ;;
  n <- floorRandom 100 ;;
  let fallbacks : gmap string Value :=
    list_to_map
      [("email", VStr "test@example.com");
       ("password", VStr "TempPass123!");
       ("phone", VStr "+1 555 123 4567");
       ("url", VStr "https://example.com");
       ("firstName", VStr "Alex");
       ("lastName", VStr "Smith");
       ("middleName", VStr "Lee");
       ("fullName", VStr "Alex Smith");
       ("streetAddress", VStr "123 Main St");
       ("city", VStr "Springfield");
       ("state", VStr "CA");
       ("zipCode", VStr "90210");
       ("country", VStr "United States");
       ("company", VStr "Acme Corp");
       ("jobTitle", VStr "Engineer");
       ("creditCard", VStr "4111111111111111");
       ("date", VStr (Str.beforeChar "T" (IsoDate.toISOString (now H t))));
       ("number", VNum (numZ (n + 1)));
       ("paragraph",
        VStr "Lorem ipsum dolor sit amet, consectetur adipiscing elit.");
       ("text", VStr "Sample Text")] in
  ret (match fallbacks !! fieldType with
       | Some v => if truthy v then v else VStr "Sample Data"
       | None => VStr "Sample Data"
       end).

(** [field.options]: only a select has them. *)
Definition propOptions (f : Element) : option (list SelOption) :=
  match el_tag f with SELECT _ => Some (el_options f) | _ => None end.

Definition validOption (o : SelOption) : bool :=
  negb (Str.isEmpty (opt_value o))
  && negb (Str.isBlank (opt_value o))
  && negb (Str.isBlank (opt_text o)).

Definition handleSelectField (field : option Element) : M Value :=
  match field with
  | None => ret (VStr "")
  | Some f =>
      match propOptions f with
      | None | Some [] => ret (VStr "")
      | Some options =>
          let validOptions := List.filter validOption options in
          match validOptions with
          | [] => ret (VStr "")
          | _ =>
              i <- floorRandom (Z.of_nat (length validOptions)) ;;
              match validOptions !! Z.to_nat i with
              | Some randomOption => ret (VStr (opt_value randomOption))
              | None => throw "TypeError: Cannot read properties of undefined"
              end
          end
      end
  end.

(** Calling a faker method that returns a string. *)
Definition callS (f : nat -> string) : M Value :=
  t <- fresh ;; ret (VStr (f t)).

(** [a ? a() : b ? b() : ... : otherwise] *)
Fixpoint firstOf (ms : list (option (nat -> string))) (otherwise : M Value)
  : M Value :=
  match ms with
  | [] => otherwise
  | Some f :: _ => callS f
  | None :: rest => firstOf rest otherwise
  end.

(** [faker.number.int({ min, max })], with no guard on [faker.number]. *)
Definition numberInt (fk : Faker) (min max : num) : M Value :=
  match fk_number_int fk with
  | None => throw "TypeError: Cannot read properties of undefined (reading 'int')"
  | Some f =>
      t <- fresh ;;
      match f t min max with
      | Some n => ret (VNum n)
      | None => throw "FakerError"
      end
  end.

Definition randomInt (min max : Z) : M Value :=
  let viaMath :=
    k <- floorRandom (max - min + 1) ;; ret (VNum (numZ (k + min))) in
  match faker H with
  | Some fk =>
      match fk_number_int fk with
      | Some _ =>
          try_catch (numberInt fk (numZ min) (numZ max)) (fun _ => viaMath)
      | None => viaMath
      end
  | None => viaMath
  end.

Definition genFirstName (fk : Faker) : M Value :=
  firstOf [fk_person_firstName fk; fk_name_firstName fk] (ret (VStr "Alex")).

Definition genLastName (fk : Faker) : M Value :=
  firstOf [fk_person_lastName fk; fk_name_lastName fk] (ret (VStr "Smith")).

(** The [case "number"] branch when a field is given. *)
Definition genNumberFor (fk : Faker) (field : Element) : M Value :=
  if Str.includes "aadhaarNumber" (el_name field) then
    match fk_string_numeric fk with
    | Some f => t <- fresh ;; ret (VStr (f t 12))
    | None => s <- randomDigits 12 ;; ret (VStr s)
    end
  else if Str.includes "yearsAttended" (el_name field) then
    numberInt fk (numZ 1) (numZ 15)
  else
    let hasMin := match propMin field with
                  | Some m => negb (Str.isEmpty m) | None => false end in
    let hasMax := match propMax field with
                  | Some m => negb (Str.isEmpty m) | None => false end in
    let fromAttr : Value :=
      match el_attr_maxlength field with
      | Some a => if Str.isEmpty a then VNull
                  else VNum (parseIntNum (VStr a))
      | None => VNull
      end in
    let maxLength : Value :=
      match propMaxLength field with
      | Some l => if 0 <? l then VNum (numZ l) else fromAttr
      | None => fromAttr
      end in
    let min := if hasMin then parseIntNum (VStr (el_min field)) else numZ 0 in
    let max :=
      if hasMax then parseIntNum (VStr (el_max field))
      else if truthy maxLength then
        (* Honor maxlength for numeric fields by limiting digit count *)
        match num_min (valueToNumber maxLength) (numZ 12) with
        | Fin safeDigits =>
            Fin (Qpower (inject_Z 10) (Qfloor safeDigits) - 1)
        | other => other
        end
      else num_add min (numZ 100) in
    let max := if num_lt max min then min else max in
    numberInt fk min max.

(** The [case "paragraph"] branch. *)
Definition genParagraph (fk : Faker) (field : option Element) : M Value :=
  paragraph <-
    match fk_lorem_paragraph fk with
    | Some f => t <- fresh ;; ret (f t)
    | None => ret "Lorem ipsum dolor sit amet, consectetur adipiscing elit."
    end ;;
  (* Check both maxLength property and maxlength attribute *)
  let fromAttr (f : Element) : Value :=
    match el_attr_maxlength f with
    | Some a => if Str.isEmpty a then VNull else VStr a
    | None => VNull
    end in
  let maxLength : Value :=
    match field with
    | None => VNull
    | Some f =>
        match propMaxLength f with
        | Some l => if l =? 0 then fromAttr f else VNum (numZ l)
        | None => fromAttr f
        end
    end in
  (* Look for text that mentions character limits *)
  let actualLimit : Value :=
    match field with
    | None => maxLength
    | Some f =>
        let parentText := default "" (el_parentText f) in
        match CharLimit.firstMatch parentText with
        | Some ds =>
            let textLimit := parseIntNum (VStr ds) in
            if negb (num_isNaN textLimit) && num_gt textLimit (numZ 0)
            then VNum (num_min (if truthy maxLength
                                then valueToNumber maxLength else PosInf)
                               textLimit)
            else maxLength
        | None => maxLength
        end
    end in
  match field with
  | Some _ =>
      if truthy actualLimit && num_gt (valueToNumber actualLimit) (numZ 0)
      then
        match Str.parseInt10 (valueToString actualLimit) with
        | Some maxLen =>
            paragraph <-
              (if maxLen <? 50 then
                 (* For very short limits, use words instead of paragraph *)
                 match fk_lorem_words fk with
                 | Some f =>
                     t <- fresh ;;
                     match f t (num_min (numZ (maxLen / 5)) (numZ 10)) with
                     | WArr ws => ret (Str.join " " ws)
                     | WStr _ => throw "TypeError: join is not a function"
                     end
                 | None => ret "Sample text"
                 end
               else if maxLen <? 200 then
                 (* For medium limits, use sentence instead of paragraph *)
                 match fk_lorem_sentence fk with
                 | Some f =>
                     t <- fresh ;;
                     ret (f t (num_min (numZ (maxLen / 8)) (numZ 20)))
                 | None => ret "Sample sentence text."
                 end
               else ret paragraph) ;;
            (* Ensure the generated text fits within the limit *)
            if maxLen <? Z.of_nat (String.length paragraph)
            then ret (VStr (Str.slice0 (Z.max 0 maxLen) paragraph))
            else ret (VStr paragraph)
        | None => ret (VStr paragraph)
        end
      else ret (VStr paragraph)
  | None => ret (VStr paragraph)
  end.

Definition generateFakeData (fieldType : string) (field : option Element)
  : M Value :=
  match faker H with
  | None =>
      (* Faker.js not available on window *)
      getFallbackData fieldType field
  | Some fk =>
      let isCase := String.eqb fieldType in
      try_catch
        (if isCase "date" then
           (* Explicitly never generate for date fields to keep them empty *)
           ret (VStr "")
         else if isCase "email" then
           firstOf [fk_internet_email fk]
             (k <- floorRandom 1000 ;;
              ret (VStr ("user" +++ Str.ofZ k +++ "@example.com")))
         else if isCase "password" then
           firstOf [fk_internet_password fk]
             (u <- mathRandom ;;
              ret (VStr (String.substring 2 (String.length (toString36 H (Fin u)))
                                          (toString36 H (Fin u)) +++ "A1!")))
         else if isCase "phone" then
           firstOf [fk_phone_number fk]
             (a <- floorRandom 900 ;;
              b <- floorRandom 900 ;;
              c <- floorRandom 9000 ;;
              ret (VStr ("+1 " +++ Str.ofZ (100 + a) +++ " "
                         +++ Str.ofZ (100 + b) +++ " " +++ Str.ofZ (1000 + c))))
         else if isCase "url" then
           firstOf [fk_internet_url fk]
             (k <- floorRandom 1000 ;;
              ret (VStr ("https://www.example.com/" +++ Str.ofZ k)))
         else if isCase "firstName" then genFirstName fk
         else if isCase "lastName" then genLastName fk
         else if isCase "middleName" then
           firstOf [fk_person_middleName fk; fk_name_middleName fk]
             (ret (VStr "Lee"))
         else if isCase "fullName" then
           firstOf [fk_person_fullName fk]
             (a <- try_catch (genFirstName fk) (fun _ => ret (VStr "Sample Data")) ;;
              b <- try_catch (genLastName fk) (fun _ => ret (VStr "Sample Data")) ;;
              ret (VStr (valueToString a +++ " " +++ valueToString b)))
         else if isCase "streetAddress" then
           firstOf [fk_location_streetAddress fk; fk_address_streetAddress fk]
             (ret (VStr "123 Main St"))
         else if isCase "city" then
           firstOf [fk_location_city fk; fk_address_city fk]
             (ret (VStr "Springfield"))
         else if isCase "state" then
           firstOf [fk_location_state fk; fk_address_state fk]
             (ret (VStr "CA"))
         else if isCase "zipCode" then
           firstOf [fk_location_zipCode fk; fk_address_zipCode fk]
             (ret (VStr "90210"))
         else if isCase "country" then
           firstOf [fk_location_country fk; fk_address_country fk]
             (ret (VStr "United States"))
         else if isCase "company" then
           firstOf [fk_company_name fk] (ret (VStr "Acme Corp"))
         else if isCase "jobTitle" then
           firstOf [fk_person_jobTitle fk] (ret (VStr "Engineer"))
         else if isCase "creditCard" then
           firstOf [fk_finance_creditCardNumber fk]
             (s <- randomDigits 16 ;; ret (VStr s))
         else if isCase "number" then
           match field with
           | Some f => genNumberFor fk f
           | None => numberInt fk (numZ 1) (numZ 100)
           end
         else if isCase "paragraph" then genParagraph fk field
         else if isCase "select" then handleSelectField field
         else if isCase "checkbox" then
           checkboxValue <- coin ;; ret (VBool checkboxValue)
         else if isCase "radio" then
           b <- coin ;; ret (VBool b)
         else
           (* Try to guess based on field attributes *)
           let name := match field with
                       | Some f => Str.toLowerCase (el_name f)
                       | None => "" end in
           if Str.includes "username" name then
             firstOf [fk_internet_userName fk]
               (v <- randomInt 1000 9999 ;;
                ret (VStr ("user_" +++ valueToString v)))
           else if Str.includes "age" name then randomInt 18 80
           else match fk_lorem_words fk with
                | Some f =>
                    t <- fresh ;;
                    ret (match f t (numZ 2) with
                         | WArr ws => VArr ws
                         | WStr s => VStr s
                         end)
                | None => ret (VStr "Sample Text")
                end)
        (fun _ => ret (VStr "Sample Data"))
  end.

(** ** applyConstraints *)

(** The [maxLength] of [applyConstraints]:
    [maxLengthAttr ? parseInt(maxLengthAttr, 10) : field.maxLength || 0];
    [None] is NaN. *)
Definition constraintMaxLength (field : Element) : option Z :=
  match el_attr_maxlength field with
  | Some a =>
      if negb (Str.isEmpty a) then Str.parseInt10 a
      else Some (default 0 (propMaxLength field))
  | None => Some (default 0 (propMaxLength field))
  end.

(** The controls whose string values are cut to [maxlength]. *)
Definition isTextLike (field : Element) : bool :=
  String.eqb (tagLower field) "textarea"
  || String.eqb (typeProp field) "text"
  || String.eqb (typeProp field) "email"
  || String.eqb (typeProp field) "url"
  || String.eqb (typeProp field) "password"
  || String.eqb (typeProp field) "search"
  || String.eqb (typeProp field) "tel".

(** [/^\d{4}-\d{2}-\d{2}$/.test(s)] *)
Definition isISODate (s : string) : bool :=
  match s with
  | String a (String b (String c (String d (String "-"
      (String e (String f (String "-" (String g (String h EmptyString))))))))) =>
      forallb Str.isDigit [a; b; c; d; e; f; g; h]
  | _ => false
  end.

Definition truncateStep (field : Element) (value : Value) : Value :=
  match value with
  | VStr s =>
      if isTextLike field then
        match constraintMaxLength field with
        | Some maxLength =>
            if (0 <? maxLength) && (maxLength <? Z.of_nat (String.length s))
            then VStr (Str.slice0 maxLength s)
            else value
        | None => value
        end
      else value
  | _ => value
  end.

(** [attr !== "" ? Number(attr) : undefined] *)
Definition declaredBound (attr : string) : option num :=
  if Str.isEmpty attr then None else Some (toNumber H attr).

Definition clampStep (field : Element) (value : Value) : Value :=
  if String.eqb (typeProp field) "number" then
    let min := declaredBound (el_min field) in
    let max := declaredBound (el_max field) in
    let num := match value with
               | VNum n => n
               | other => valueToNumber other
               end in
    if negb (num_isNaN num) then
      let num := match min with
                 | Some m => if num_lt num m then m else num
                 | None => num
                 end in
      let num := match max with
                 | Some m => if num_gt num m then m else num
                 | None => num
                 end in
      VNum num
    else value
  else value.

Definition dateStep (field : Element) (value : Value) : Value :=
  match value with
  | VStr s =>
      if String.eqb (typeProp field) "date" then
        let s1 :=
          if negb (isISODate s) && negb (Str.isEmpty s) then
            match dateParse H s with
            | Fin ms => Str.beforeChar "T" (IsoDate.toISOString (Qfloor ms))
            | _ => s
            end
          else s in
        let min := if Str.isEmpty (el_min field) then None
                   else Some (dateParse H (el_min field)) in
        let max := if Str.isEmpty (el_max field) then None
                   else Some (dateParse H (el_max field)) in
        let dv := dateParse H s1 in
        if negb (num_isNaN dv) then
          let s2 := match min with
                    | Some m => if num_lt dv m then el_min field else s1
                    | None => s1
                    end in
          let s3 := match max with
                    | Some m => if num_gt dv m then el_max field else s2
                    | None => s2
                    end in
          VStr s3
        else VStr s1
      else value
  | _ => value
  end.

(** Nothing inside the [try] of [applyConstraints] raises on this model, so
    it is a function; its [catch] returns the value as well. *)
Definition applyConstraints (field : Element) (value : Value)
    (fieldType : string) : Value :=
  match value with
  | VNull => value
  | _ => dateStep field (clampStep field (truncateStep field value))
  end.

(** ** Writing to the document *)

(** The mutable part of a control. *)
Definition setState (f : Element) (value : string) (checked : bool)
    (options : list SelOption) (antBox : option bool)
    (outline backgroundColor : string) : Element :=
  {| el_tag := el_tag f; el_name := el_name f; el_id := el_id f;
     el_placeholder := el_placeholder f;
     el_autocomplete := el_autocomplete f; el_className := el_className f;
     el_value := value; el_checked := checked;
     el_disabled := el_disabled f; el_readOnly := el_readOnly f;
     el_required := el_required f; el_pattern := el_pattern f;
     el_maxLength := el_maxLength f;
     el_attr_maxlength := el_attr_maxlength f;
     el_min := el_min f; el_max := el_max f; el_options := options;
     el_noAutofill := el_noAutofill f; el_displayNone := el_displayNone f;
     el_visibilityHidden := el_visibilityHidden f;
     el_offsetParentNull := el_offsetParentNull f;
     el_labelFor := el_labelFor f; el_parentLabel := el_parentLabel f;
     el_prevSibling := el_prevSibling f; el_parentText := el_parentText f;
     el_inAntWrapper := el_inAntWrapper f;
     el_antBoxChecked := antBox;
     el_reactTracked := el_reactTracked f;
     el_outline := outline; el_backgroundColor := backgroundColor;
     el_form := el_form f |}.

Definition setValue (v : string) (f : Element) : Element :=
  setState f v (el_checked f) (el_options f) (el_antBoxChecked f)
           (el_outline f) (el_backgroundColor f).

Definition setChecked (b : bool) (f : Element) : Element :=
  setState f (el_value f) b (el_options f) (el_antBoxChecked f)
           (el_outline f) (el_backgroundColor f).

Definition setOptions (os : list SelOption) (f : Element) : Element :=
  setState f (el_value f) (el_checked f) os (el_antBoxChecked f)
           (el_outline f) (el_backgroundColor f).

Definition setAntBox (b : option bool) (f : Element) : Element :=
  setState f (el_value f) (el_checked f) (el_options f) b
           (el_outline f) (el_backgroundColor f).

Definition setStyle (outline backgroundColor : string) (f : Element) : Element :=
  setState f (el_value f) (el_checked f) (el_options f) (el_antBoxChecked f)
           outline backgroundColor.

Definition deselect (o : SelOption) : SelOption :=
  {| opt_value := opt_value o; opt_text := opt_text o; opt_selected := false |}.

(** [select.value = v]: the first option with that value becomes the only
    selected one; with no such option nothing is selected. *)
Fixpoint selectByValue (v : string) (os : list SelOption) : list SelOption :=
  match os with
  | [] => []
  | o :: rest =>
      if String.eqb (opt_value o) v
      then {| opt_value := opt_value o; opt_text := opt_text o;
              opt_selected := true |} :: List.map deselect rest
      else deselect o :: selectByValue v rest
  end.

Definition isRadio (f : Element) : bool :=
  match el_tag f with INPUT TyRadio => true | _ => false end.

(** Two radio buttons of one group: same owner, same non-empty name. *)
Definition sameRadioGroup (f g : Element) : bool :=
  isRadio f && isRadio g && negb (Str.isEmpty (el_name f))
  && String.eqb (el_name f) (el_name g)
  && bool_decide (el_form f = el_form g).

Definition updateEl (i : nat) (g : Element -> Element) : M unit :=
  modify (fun w => setDoc (alter g i (w_doc w)) w).

(** [field.checked = b] *)
Definition writeChecked (i : nat) (b : bool) : M unit :=
  modify (fun w =>
    match w_doc w !! i with
    | Some f =>
        let others :=
          if b && isRadio f
          then imap (fun j g => if negb (Nat.eqb j i) && sameRadioGroup f g
                                then setChecked false g else g) (w_doc w)
          else w_doc w in
        setDoc (alter (setChecked b) i others) w
    | None => w
    end).

Definition fileValueError : string :=
  "Failed to set the 'value' property on 'HTMLInputElement': This input element accepts a filename, which may only be programmatically set to the empty string.".

(** [field.value = v], also through the native setter.  A file input
    accepts only the empty string. *)
Definition writeValue (i : nat) (v : string) : M unit :=
  w <- get ;;
  match w_doc w !! i with
  | Some f =>
      match el_tag f with
      | SELECT _ => updateEl i (fun g => setOptions (selectByValue v (el_options g)) g)
      | INPUT TyFile =>
          if Str.isEmpty v then ret tt else throw fileValueError
      | _ => updateEl i (setValue v)
      end
  | None => ret tt
  end.

(** [field.selectedIndex = -1] *)
Definition writeNoSelection (i : nat) : M unit :=
  updateEl i (fun g => setOptions (List.map deselect (el_options g)) g).

Definition dispatchEvent (i : nat) (type : string) : M unit :=
  emit (EDomEvent i type).

Definition triggerChangeEvents (i : nat) : M unit :=
  dispatchEvent i "input" ;;;
  dispatchEvent i "change" ;;;
  dispatchEvent i "blur" ;;;
  w <- get ;;
  match w_doc w !! i with
  | Some f =>
      if el_reactTracked f then
        (* the native setter is called with the current value: no change *)
        dispatchEvent i "input"
      else ret tt
  | None => ret tt
  end.

Definition addVisualFeedback (i : nat) : M unit :=
  updateEl i (setStyle "2px solid #4CAF50" "#e8f5e8").

Definition removeVisualFeedback (i : nat) : M unit :=
  updateEl i (setStyle "" "").

(** ** fillField *)

Record Options : Type := mkOptions {
  o_visualFeedback : option bool;
  o_skipHidden : option bool;
  o_fillDelay : option Z;
  o_enabledFieldTypes : option (gmap string bool)
}.

Definition noOptions : Options :=
  {| o_visualFeedback := None; o_skipHidden := None; o_fillDelay := None;
     o_enabledFieldTypes := None |}.

(** [{ ...this.settings, ...options }] *)
Record FillOptions : Type := mkFillOptions {
  fo_autoFillEnabled : bool;
  fo_visualFeedbackEnabled : bool;
  fo_skipHiddenFields : bool;
  fo_fillDelay : Z;
  fo_enabledFieldTypes : gmap string bool;
  fo_visualFeedback : option bool;
  fo_skipHidden : option bool
}.

Definition mergeOptions (settings : Settings) (options : Options) : FillOptions :=
  {| fo_autoFillEnabled := autoFillEnabled settings;
     fo_visualFeedbackEnabled := visualFeedbackEnabled settings;
     fo_skipHiddenFields := skipHiddenFields settings;
     fo_fillDelay := default (fillDelay settings) (o_fillDelay options);
     fo_enabledFieldTypes :=
       default (enabledFieldTypes settings) (o_enabledFieldTypes options);
     fo_visualFeedback := o_visualFeedback options;
     fo_skipHidden := o_skipHidden options |}.

Definition isAntCheckbox (f : Element) : bool :=
  el_inAntWrapper f || Str.classListContains (el_className f) "ant-checkbox-input".

Definition fillField (fieldData : FieldData) (options : FillOptions) : M unit :=
  let i := fd_element fieldData in
  w <- get ;;
  match w_doc w !! i with
  | None => throw "TypeError: Cannot read properties of undefined"
  | Some field =>
      let fieldType := fd_detectedType fieldData in
      (* Generate appropriate fake data *)
      fakeData <- generateFakeData fieldType (Some field) ;;
      (* Apply field constraints like maxlength/min/max *)
      let fakeData := applyConstraints field fakeData fieldType in
      (* Add visual feedback if enabled *)
      (if default false (fo_visualFeedback options)
       then addVisualFeedback i else ret tt) ;;;
      (* Fill the field based on its type *)
      (let type := typeProp field in
       if String.eqb type "checkbox" then
         if isAntCheckbox field then
           writeChecked i (truthy fakeData) ;;;
           dispatchEvent i "click" ;;;
           dispatchEvent i "change" ;;;
           dispatchEvent i "input" ;;;
           writeChecked i (truthy fakeData) ;;;
           updateEl i (fun g => setAntBox
                                  (option_map (fun _ => truthy fakeData)
                                              (el_antBoxChecked g)) g) ;;;
           dispatchEvent i "ant-checkbox-change"
         else writeChecked i (truthy fakeData)
       else if String.eqb type "radio" then
         if truthy fakeData then writeChecked i true else ret tt
       else if String.eqb type "select-one" || String.eqb type "select-multiple" then
         if truthy fakeData then writeValue i (valueToString fakeData) else ret tt
       else
         match fakeData with
         | VStr _ | VNum _ => writeValue i (valueToString fakeData)
         | _ => ret tt
         end) ;;;
      (* Trigger change events to notify any JavaScript listeners *)
      triggerChangeEvents i ;;;
      (* Remove visual feedback after a delay *)
      (if default false (fo_visualFeedback options)
       then emit (ETimer i 1000) else ret tt)
  end.

(** ** scanForms *)

Definition analyzeField (settings : Settings) (i : nat) (field : Element)
  : option FieldData :=
  if negb (isFieldFillable settings field) then None
  else
    let fieldType := detectFieldType field in
    let fieldName := getFieldIdentifier field in
    Some {| fd_element := i;
            fd_type := typeProp field;
            fd_detectedType := fieldType;
            fd_name := fieldName;
            fd_id := el_id field;
            fd_placeholder := el_placeholder field;
            fd_required := el_required field;
            fd_readonly := propReadOnly field;
            fd_disabled := el_disabled field;
            fd_maxLength :=
              match propMaxLength field with
              | Some l =>
                  if negb (l =? 0) then VNum (numZ l)
                  else match el_attr_maxlength field with
                       | Some a => if Str.isEmpty a then VNull else VStr a
                       | None => VNull
                       end
              | None =>
                  match el_attr_maxlength field with
                  | Some a => if Str.isEmpty a then VNull else VStr a
                  | None => VNull
                  end
              end;
            fd_pattern := if Str.isEmpty (el_pattern field) then VNull
                          else VStr (el_pattern field);
            fd_autocomplete := el_autocomplete field;
            fd_labels := getFieldLabels field |}.

(** Analyse the controls with the given indices, dropping the rejected. *)
Definition analyzeAll (settings : Settings) (doc : list Element)
    (indices : list nat) : list FieldData :=
  omap (fun i => match doc !! i with
                 | Some field => analyzeField settings i field
                 | None => None
                 end) indices.

Definition analyzeForm (settings : Settings) (doc : list Element)
    (form : FormNode) (index : nat) : FormData :=
  {| fm_id := if Str.isEmpty (form_id form)
              then "form-" +++ Str.ofZ (Z.of_nat index) else form_id form;
     fm_element := FormAt index;
     fm_action := form_action form;
     fm_method := if Str.isEmpty (form_method form) then "get"
                  else form_method form;
     fm_fields := analyzeAll settings doc (form_controls form) |}.

(** [field.closest("form")] is not null. *)
Definition insideForm (forms : list FormNode) (i : nat) : bool :=
  existsb (fun form => existsb (Nat.eqb i) (form_controls form)) forms.

Definition findStandaloneFields (w : World) : list nat :=
  List.filter (fun i => negb (insideForm (w_forms w) i))
              (seq 0 (length (w_doc w))).

Record ScanResult : Type := mkScanResult {
  sr_forms : Z;
  sr_fields : Z;
  sr_error : option string
}.

(** One pass of [scanForms]: rebuild the inventory from the document. *)
Definition scanPass (w : World) : World :=
  let settings := w_settings w in
  let analyzed :=
    List.filter (fun fd => (0 <? length (fm_fields fd))%nat)
                (imap (fun index form => analyzeForm settings (w_doc w) form index)
                      (w_forms w)) in
  let standaloneAnalyzed := analyzeAll settings (w_doc w) (findStandaloneFields w) in
  let standalone :=
    match standaloneAnalyzed with
    | [] => []
    | _ => [{| fm_id := "standalone"; fm_element := BodyRef;
               fm_action := ""; fm_method := "";
               fm_fields := standaloneAnalyzed |}]
    end in
  let detectedForms := (analyzed ++ standalone)%list in
  setInventory detectedForms (List.concat (List.map fm_fields detectedForms)) w.

Definition scanCounts : M ScanResult :=
  w <- get ;;
  ret {| sr_forms := Z.of_nat (length (w_detectedForms w));
         sr_fields := Z.of_nat (length (w_detectedFields w));
         sr_error := None |}.

Definition delay (ms : Z) : M unit := emit (ESleep ms).

Definition scanForms (silent : bool) : M ScanResult :=
  try_catch
    (modify scanPass ;;;
     w <- get ;;
     if (length (w_detectedForms w) =? 0)%nat && negb silent then
       (* If no forms found and this isn't a silent scan, try once more *)
       delay 1000 ;;;
       modify scanPass ;;;
       scanCounts
     else scanCounts)
    (fun e => ret {| sr_forms := 0; sr_fields := 0; sr_error := Some e |}).

(** ** fillForms *)

Record FillSummary : Type := mkFillSummary {
  fieldsProcessed : Z;
  fieldsSkipped : Z;
  duration : Z;
  errors : list FieldError
}.

Inductive FillResult : Type :=
| FillSuccess (summary : FillSummary)      (* { success: true, ... } *)
| FillFailure (error : string).            (* { success: false, error } *)

(** [Math.round] *)
Definition mathRound (q : Q) : Z := Qfloor (q + (1 # 2)).

(** [Math.round((processedFields / totalFields) * 100)] *)
Definition progressOf (processedFields totalFields : Z) : Z :=
  mathRound (inject_Z processedFields / inject_Z totalFields * inject_Z 100).

Definition sendProgress (progress : Z) : M unit :=
  t <- fresh ;;
  match sendFault H t with
  | Some e => throw e
  | None => emit (EProgress progress)
  end.

Definition updSession (f : FillSession -> FillSession) : M unit :=
  w <- get ;;
  match w_fillSession w with
  | Some s => put (setSession (Some (f s)) w)
  | None => throw "TypeError: Cannot read properties of null"
  end.

Definition bumpSkipped (s : FillSession) : FillSession :=
  {| fs_startTime := fs_startTime s;
     fs_fieldsProcessed := fs_fieldsProcessed s;
     fs_fieldsSkipped := fs_fieldsSkipped s + 1;
     fs_errors := fs_errors s |}.

Definition bumpProcessed (s : FillSession) : FillSession :=
  {| fs_startTime := fs_startTime s;
     fs_fieldsProcessed := fs_fieldsProcessed s + 1;
     fs_fieldsSkipped := fs_fieldsSkipped s;
     fs_errors := fs_errors s |}.

Definition pushError (e : FieldError) (s : FillSession) : FillSession :=
  {| fs_startTime := fs_startTime s;
     fs_fieldsProcessed := fs_fieldsProcessed s;
     fs_fieldsSkipped := fs_fieldsSkipped s;
     fs_errors := (fs_errors s ++ [e])%list |}.

(** [fieldData && fieldData.element && this.isFieldFillable(fieldData.element)
     && this.isFieldEmpty(fieldData.element)] *)
Definition fillableNow (w : World) (fieldData : FieldData) : bool :=
  match w_doc w !! fd_element fieldData with
  | Some field => isFieldFillable (w_settings w) field && isFieldEmpty field
  | None => false
  end.

(** The body of the per-field [try]. *)
Definition fillAttempt (fieldData : FieldData) (fillOptions : FillOptions)
    (totalFields : Z) : M unit :=
  fillField fieldData fillOptions ;;;
  modify (fun w => setProcessed (w_processedFields w + 1) w) ;;;
  updSession bumpProcessed ;;;
  (* Update progress *)
  w <- get ;;
  sendProgress (progressOf (w_processedFields w) totalFields) ;;;
  (* Add delay between fills for better UX *)
  if 0 <? fo_fillDelay fillOptions then delay (fo_fillDelay fillOptions)
  else ret tt.

(** One iteration of [for (const fieldData of this.detectedFields)]. *)
Definition fillStep (fillOptions : FillOptions) (totalFields : Z)
    (fieldData : FieldData) : M unit :=
  w <- get ;;
  if negb (fillableNow w fieldData) then
    updSession bumpSkipped
  else
    try_catch (fillAttempt fieldData fillOptions totalFields)
              (fun e => updSession
                          (pushError {| fe_field := fd_name fieldData;
                                        fe_error := e |})).

Fixpoint fillLoop (fillOptions : FillOptions) (totalFields : Z)
    (fields : list FieldData) : M unit :=
  match fields with
  | [] => ret tt
  | fieldData :: rest =>
      fillStep fillOptions totalFields fieldData ;;;
      fillLoop fillOptions totalFields rest
  end.

Definition fillForms (options : Options) : M FillResult :=
  try_catch
    (t0 <- fresh ;;
     let startTime := now H t0 in
     modify (setSession (Some {| fs_startTime := startTime;
                                 fs_fieldsProcessed := 0;
                                 fs_fieldsSkipped := 0;
                                 fs_errors := [] |})) ;;;
     (* Merge options with current settings *)
     w <- get ;;
     let fillOptions := mergeOptions (w_settings w) options in
     (* Re-scan after any prior clear/DOM changes to get fresh fields *)
     scanForms true ;;;
     modify (setProcessed 0) ;;;
     w <- get ;;
     (* Count total fillable and currently empty fields *)
     let totalFields :=
       Z.of_nat (length (List.filter (fillableNow w) (w_detectedFields w))) in
     if totalFields =? 0 then
       t1 <- fresh ;;
       ret (FillSuccess {| fieldsProcessed := 0;
                           fieldsSkipped := Z.of_nat (length (w_detectedFields w));
                           duration := now H t1 - startTime;
                           errors := [] |})
     else
       fillLoop fillOptions totalFields (w_detectedFields w) ;;;
       t1 <- fresh ;;
       w <- get ;;
       match w_fillSession w with
       | Some session =>
           ret (FillSuccess {| fieldsProcessed := w_processedFields w;
                               fieldsSkipped := fs_fieldsSkipped session;
                               duration := now H t1 - startTime;
                               errors := fs_errors session |})
       | None => throw "TypeError: Cannot read properties of null"
       end)
    (fun e => ret (FillFailure e)).

(** ** clearForms *)

Inductive ClearResult : Type :=
| ClearSuccess (fieldsCleared : Z)
| ClearFailure (error : string).

Definition skipTypes : list string :=
  ["button"; "submit"; "reset"; "image"; "file"].

(** Whether [clearForms] passes over the control. *)
Definition clearSkips (field : Element) : bool :=
  el_disabled field || propReadOnly field
  || isCaptcha field
  || existsb (String.eqb (Str.toLowerCase (typeProp field))) skipTypes.

(** The body of the per-field [try] of [clearForms]. *)
Definition clearAttempt (i : nat) (field : Element) : M unit :=
  let tag := tagLower field in
  let type := Str.toLowerCase (typeProp field) in
  (if String.eqb type "checkbox" || String.eqb type "radio" then
     writeChecked i false
   else if String.eqb tag "select" then
     (* Prefer empty option if present, otherwise clear value *)
     if existsb (fun o => Str.isEmpty (opt_value o)) (el_options field)
     then writeValue i ""
     else if (0 <? length (el_options field))%nat then writeNoSelection i
     else writeValue i ""
   else writeValue i "") ;;;
  triggerChangeEvents i.

Fixpoint clearLoop (indices : list nat) (clearedFields : Z) : M Z :=
  match indices with
  | [] => ret clearedFields
  | i :: rest =>
      w <- get ;;
      match w_doc w !! i with
      | None => clearLoop rest clearedFields
      | Some field =>
          if clearSkips field then clearLoop rest clearedFields
          else
            n <- try_catch (clearAttempt i field ;;; ret (clearedFields + 1))
                           (fun _ => ret clearedFields) ;;
            clearLoop rest n
      end
  end.

Definition clearForms : M ClearResult :=
  try_catch
    (w <- get ;;
     clearedFields <- clearLoop (seq 0 (length (w_doc w))) 0 ;;
     try_catch
       (t <- fresh ;;
        match sendFault H t with
        | Some e => throw e
        | None => emit (EClearComplete clearedFields)
        end)
       (fun _ => ret tt) ;;;
     ret (ClearSuccess clearedFields))
    (fun e => ret (ClearFailure e)).

End Engine.

(** ** A reference host and sample documents, for concrete runs *)

Module Ref.

(** [Number(s)] on signed decimal integer literals (blank text is 0). *)
Definition number (s : string) : num :=
  let t := Str.trim s in
  if Str.isEmpty t then numZ 0
  else
    let body := match t with
                | String "-" r => r
                | String "+" r => r
                | _ => t
                end in
    match Str.digitsAux 0 false body with
    | (Some z, EmptyString) =>
        match t with
        | String "-" _ => numZ (- z)
        | _ => numZ z
        end
    | _ => NaN
    end.

(** [String(n)], exact on integers. *)
Definition numString (n : num) : string :=
  match n with
  | NaN => "NaN"
  | PosInf => "Infinity"
  | NegInf => "-Infinity"
  | Fin q => Str.ofZ (Qfloor q)
  end.

(** No faker on the window, a clock stopped on 3 November 2026, every
    random draw one half, a healthy message channel. *)
Definition host : Host :=
  {| faker := None;
     rand53 := fun _ => 2 ^ 52;
     now := fun _ => 1793665845123;
     sendFault := fun _ => None;
     toNumber := number;
     numToString := numString;
     toString36 := fun _ => "0.i";
     dateParse := fun _ => NaN |}.

(** The same host once the extension context is gone: every message
    raises. *)
Definition orphanedHost : Host :=
  {| faker := None;
     rand53 := fun _ => 2 ^ 52;
     now := fun _ => 1793665845123;
     sendFault := fun _ => Some "Extension context invalidated.";
     toNumber := number;
     numToString := numString;
     toString36 := fun _ => "0.i";
     dateParse := fun _ => NaN |}.

Definition emptyFaker : Faker :=
  {| fk_internet_email := None; fk_internet_password := None;
     fk_internet_url := None; fk_internet_userName := None;
     fk_phone_number := None; fk_person_firstName := None;
     fk_person_lastName := None; fk_person_middleName := None;
     fk_person_fullName := None; fk_person_jobTitle := None;
     fk_name_firstName := None; fk_name_lastName := None;
     fk_name_middleName := None; fk_location_streetAddress := None;
     fk_location_city := None; fk_location_state := None;
     fk_location_zipCode := None; fk_location_country := None;
     fk_address_streetAddress := None; fk_address_city := None;
     fk_address_state := None; fk_address_zipCode := None;
     fk_address_country := None; fk_company_name := None;
     fk_finance_creditCardNumber := None; fk_string_numeric := None;
     fk_number_int := None; fk_lorem_paragraph := None;
     fk_lorem_words := None; fk_lorem_sentence := None |}.

(** A window with a faker object on it. *)
Definition fakerHost : Host :=
  {| faker := Some emptyFaker;
     rand53 := fun _ => 2 ^ 52;
     now := fun _ => 1793665845123;
     sendFault := fun _ => None;
     toNumber := number;
     numToString := numString;
     toString36 := fun _ => "0.i";
     dateParse := fun _ => NaN |}.

(** A page holding the given controls, none of them inside a form. *)
Definition page (settings : Settings) (controls : list Element) : World :=
  {| w_doc := controls; w_forms := []; w_tick := 0; w_trace := [];
     w_settings := settings; w_detectedForms := [];
     w_detectedFields := []; w_fillSession := None;
     w_processedFields := 0 |}.

End Ref.

(** The FILL_PROGRESS values of a trace, oldest first. *)
Definition progressValues (trace : list Effect) : list Z :=
  omap (fun e => match e with EProgress p => Some p | _ => None end)
       (rev trace).

(** ** Waiting for the page: [waitForContent]

    The page may add its forms later, so what the query for a form or a
    control finds is given poll by poll: [hasForms k] is its outcome at
    the poll number [k]. *)

Fixpoint waitLoop (hasForms : nat -> bool) (remaining attempts : nat) : M unit :=
  match remaining with
  | O => ret tt
  | S remaining' =>
      if hasForms attempts then ret tt
      else delay 200 ;;; waitLoop hasForms remaining' (S attempts)
  end.

Definition waitForContent (hasForms : nat -> bool) : M unit :=
  let maxAttempts := 10%nat in
  waitLoop hasForms maxAttempts 0 ;;;
  (* Additional wait for any remaining dynamic content *)
  delay 500.

(** ** The settings store: [chrome.storage.sync]

    The store holds the keys that the extension writes, each with the type
    it is written with; a key that is absent is [None]. *)

Record Stored : Type := mkStored {
  st_autoFillEnabled : option bool;
  st_visualFeedbackEnabled : option bool;
  st_skipHiddenFields : option bool;
  st_fillDelay : option Z;
  st_dataLocale : option string;
  st_enabledFieldTypes : option (gmap string bool)
}.

Definition emptyStored : Stored :=
  {| st_autoFillEnabled := None; st_visualFeedbackEnabled := None;
     st_skipHiddenFields := None; st_fillDelay := None;
     st_dataLocale := None; st_enabledFieldTypes := None |}.

(** A store; with a fault on it every operation is rejected. *)
Record StorageArea : Type := mkStorageArea {
  sa_items : Stored;
  sa_fault : option string
}.

(** [a ?? b], key by key. *)
Definition orElse {A} (a b : option A) : option A :=
  match a with Some _ => a | None => b end.

(** [chrome.storage.sync.get()] *)
Definition storageGet (area : StorageArea) : Res Stored :=
  match sa_fault area with
  | Some e => Throw e
  | None => Ok (sa_items area)
  end.

(** [chrome.storage.sync.set(items)]: the keys given are written, the
    others stay. *)
Definition storageSet (items : Stored) (area : StorageArea)
  : Res unit * StorageArea :=
  match sa_fault area with
  | Some e => (Throw e, area)
  | None =>
      let old := sa_items area in
      (Ok tt,
       {| sa_items :=
            {| st_autoFillEnabled :=
                 orElse (st_autoFillEnabled items) (st_autoFillEnabled old);
               st_visualFeedbackEnabled :=
                 orElse (st_visualFeedbackEnabled items)
                        (st_visualFeedbackEnabled old);
               st_skipHiddenFields :=
                 orElse (st_skipHiddenFields items) (st_skipHiddenFields old);
               st_fillDelay := orElse (st_fillDelay items) (st_fillDelay old);
               st_dataLocale := orElse (st_dataLocale items) (st_dataLocale old);
               st_enabledFieldTypes :=
                 orElse (st_enabledFieldTypes items) (st_enabledFieldTypes old) |};
          sa_fault := None |})
  end.

(** ** The background script *)

Module Background.

(** The defaults written on first install. *)
Definition firstInstallSettings : Stored :=
  {| st_autoFillEnabled := Some true;
     st_visualFeedbackEnabled := Some true;
     st_skipHiddenFields := Some true;
     st_fillDelay := Some 100;
     st_dataLocale := Some "en";
     st_enabledFieldTypes :=
       Some (list_to_map
               [("text", true); ("email", true); ("password", true);
                ("textarea", true); ("select", true); ("checkbox", true);
                ("radio", true); ("date", true); ("number", true);
                ("url", true); ("tel", true)]) |}.

(** An error of the store is logged and goes no further. *)
Definition handleFirstInstall (area : StorageArea) : StorageArea :=
  snd (storageSet firstInstallSettings area).

Definition handleUpdate (area : StorageArea) : StorageArea :=
  match storageGet area with
  | Throw _ => area
  | Ok settings =>
      (* Add any new default settings that might not exist *)
      let updates :=
        {| st_autoFillEnabled := None; st_visualFeedbackEnabled := None;
           st_skipHiddenFields := None;
           st_fillDelay := match st_fillDelay settings with
                           | None => Some 100
                           | Some _ => None
                           end;
           st_dataLocale := match st_dataLocale settings with
                            | None => Some "en"
                            | Some _ => None
                            end;
           st_enabledFieldTypes := None |} in
      (* Object.keys(updates).length > 0 *)
      match st_fillDelay updates, st_dataLocale updates with
      | None, None => area
      | _, _ => snd (storageSet updates area)
      end
  end.

Definition handleInstalled (reason : string) (area : StorageArea) : StorageArea :=
  if String.eqb reason "install" then handleFirstInstall area
  else if String.eqb reason "update" then handleUpdate area
  else area.

Record TabInfo : Type := mkTabInfo {
  tab_id : Z;
  tab_url : string;
  tab_title : string
}.

Record Message : Type := mkMessage {
  msg_type : string;
  msg_settings : option Stored
}.

Record Response : Type := mkResponse {
  rs_success : bool;
  rs_settings : option Stored;
  rs_tabInfo : option TabInfo;
  rs_error : option string
}.

Definition succeeded : Response :=
  {| rs_success := true; rs_settings := None; rs_tabInfo := None;
     rs_error := None |}.

Definition failed (e : string) : Response :=
  {| rs_success := false; rs_settings := None; rs_tabInfo := None;
     rs_error := Some e |}.

(** [handleMessage]: what is passed to [sendResponse], and the store left. *)
Definition handleMessage (message : Message) (senderTab : option TabInfo)
    (area : StorageArea) : Response * StorageArea :=
  let type := msg_type message in
  if String.eqb type "GET_SETTINGS" then
    match storageGet area with
    | Ok settings =>
        ({| rs_success := true; rs_settings := Some settings;
            rs_tabInfo := None; rs_error := None |}, area)
    | Throw e => (failed e, area)
    end
  else if String.eqb type "SAVE_SETTINGS" then
    match msg_settings message with
    | Some settings =>
        match storageSet settings area with
        | (Ok _, area') => (succeeded, area')
        | (Throw e, area') => (failed e, area')
        end
    | None =>
        (failed "TypeError: Error in invocation of storage.set", area)
    end
  else if String.eqb type "INJECT_CONTENT_SCRIPT" then (succeeded, area)
  else if String.eqb type "LOG_ERROR" then (succeeded, area)
  else if String.eqb type "GET_TAB_INFO" then
    match senderTab with
    | Some tab =>
        ({| rs_success := true; rs_settings := None; rs_tabInfo := Some tab;
            rs_error := None |}, area)
    | None => (failed "No tab information", area)
    end
  else (failed "Unknown message type", area).

End Background.

(** ** The content script reads its settings: [getSettings]

    [response] is what the callback of [chrome.runtime.sendMessage]
    receives: [None] when no answer came.  The merged object keeps the
    keys that the content script reads. *)

Definition getSettings (response : option Background.Response) : Settings :=
  let defaults := defaultSettings in
  match response with
  | Some r =>
      if Background.rs_success r then
        let stored := default emptyStored (Background.rs_settings r) in
        {| autoFillEnabled :=
             default (autoFillEnabled defaults) (st_autoFillEnabled stored);
           visualFeedbackEnabled :=
             default (visualFeedbackEnabled defaults)
                     (st_visualFeedbackEnabled stored);
           skipHiddenFields :=
             default (skipHiddenFields defaults) (st_skipHiddenFields stored);
           fillDelay := default (fillDelay defaults) (st_fillDelay stored);
           enabledFieldTypes :=
             default ∅ (st_enabledFieldTypes stored)
             ∪ enabledFieldTypes defaults |}
      else defaults
  | None => defaults
  end.

(** The content script asking the background script for the settings. *)
Definition requestSettings (area : StorageArea) : Settings :=
  getSettings
    (Some (fst (Background.handleMessage
                  {| Background.msg_type := "GET_SETTINGS";
                     Background.msg_settings := None |} None area))).

(** ** The popup *)

Module Popup.

Record Button : Type := mkButton {
  loading : bool;       (* classList.contains("loading") *)
  disabled : bool
}.

Record Buttons : Type := mkButtons {
  fillBtn : Button;
  clearBtn : Button;
  scanBtn : Button
}.

Definition setButtonState (state : string) (buttons : Buttons) : Buttons :=
  (* every button is reset first *)
  let reset := {| loading := false; disabled := false |} in
  let busy := {| loading := true; disabled := true |} in
  let off := {| loading := false; disabled := true |} in
  if String.eqb state "scanning" then
    {| fillBtn := off; clearBtn := off; scanBtn := busy |}
  else if String.eqb state "filling" then
    {| fillBtn := busy; clearBtn := off; scanBtn := off |}
  else if String.eqb state "clearing" then
    {| fillBtn := off; clearBtn := busy; scanBtn := off |}
  else if String.eqb state "ready" then
    {| fillBtn := reset; clearBtn := reset; scanBtn := reset |}
  else if String.eqb state "no-forms" then
    {| fillBtn := off; clearBtn := off; scanBtn := reset |}
  else if String.eqb state "error" then
    {| fillBtn := off; clearBtn := off; scanBtn := reset |}
  else {| fillBtn := reset; clearBtn := reset; scanBtn := reset |}.

(** The three check boxes of the popup. *)
Record Checkboxes : Type := mkCheckboxes {
  cb_autoFillEnabled : bool;
  cb_visualFeedbackEnabled : bool;
  cb_skipHiddenFields : bool
}.

Definition loadSettings (boxes : Checkboxes) (area : StorageArea) : Checkboxes :=
  match storageGet area with
  | Ok settings =>
      {| cb_autoFillEnabled := default true (st_autoFillEnabled settings);
         cb_visualFeedbackEnabled :=
           default true (st_visualFeedbackEnabled settings);
         cb_skipHiddenFields := default true (st_skipHiddenFields settings) |}
  | Throw _ => boxes
  end.

Definition saveSettings (boxes : Checkboxes) (area : StorageArea) : StorageArea :=
  snd (storageSet
         {| st_autoFillEnabled := Some (cb_autoFillEnabled boxes);
            st_visualFeedbackEnabled := Some (cb_visualFeedbackEnabled boxes);
            st_skipHiddenFields := Some (cb_skipHiddenFields boxes);
            st_fillDelay := None; st_dataLocale := None;
            st_enabledFieldTypes := None |}
         area).

(** The options that the popup passes to [fillForms]. *)
Definition fillOptionsOf (boxes : Checkboxes) : Options :=
  {| o_visualFeedback := Some (cb_visualFeedbackEnabled boxes);
     o_skipHidden := Some (cb_skipHiddenFields boxes);
     o_fillDelay := None; o_enabledFieldTypes := None |}.

(** What [chrome.scripting.executeScript] comes back with. *)
Inductive ScriptOutcome (A : Type) : Type :=
| ScriptRejected (e : string)     (* the call itself fails *)
| ScriptNoResult                  (* no frame, or a result that is falsy *)
| ScriptResult (a : A).
Arguments ScriptRejected {A} e.
Arguments ScriptNoResult {A}.
Arguments ScriptResult {A} a.

(** The state of the popup, as far as the buttons and the counts go; the
    status line and the progress bar are not part of it. *)
Record State : Type := mkState {
  currentTab : option Z;
  formData : option ScanResult;
  buttons : Buttons;
  formsCount : Z;
  fieldsCount : Z
}.

Definition withButtons (state : string) (p : State) : State :=
  {| currentTab := currentTab p; formData := formData p;
     buttons := setButtonState state (buttons p);
     formsCount := formsCount p; fieldsCount := fieldsCount p |}.

(** [scanForForms], given the answer to the injection message ([None]: it
    went through) and the outcome of the script. *)
Definition scanForForms (injectFault : option string)
    (outcome : ScriptOutcome ScanResult) (p : State) : State :=
  match currentTab p with
  | None => p
  | Some _ =>
      let p := withButtons "scanning" p in
      match injectFault with
      | Some _ => withButtons "error" p
      | None =>
          match outcome with
          | ScriptResult scanResult =>
              if match sr_error scanResult with
                 | Some e => negb (Str.isEmpty e)
                 | None => false
                 end
              then withButtons "error" p
              else
                let p := {| currentTab := currentTab p;
                            formData := Some scanResult;
                            buttons := buttons p;
                            formsCount := sr_forms scanResult;
                            fieldsCount := sr_fields scanResult |} in
                if 0 <? sr_forms scanResult then withButtons "ready" p
                else withButtons "no-forms" p
          | _ => withButtons "error" p
          end
      end
  end.

End Popup.

(** ** Starting the content script: [init] *)

Definition setSettings (s : Settings) (w : World) : World :=
  {| w_doc := w_doc w; w_forms := w_forms w; w_tick := w_tick w;
     w_trace := w_trace w; w_settings := s;
     w_detectedForms := w_detectedForms w;
     w_detectedFields := w_detectedFields w;
     w_fillSession := w_fillSession w;
     w_processedFields := w_processedFields w |}.

(** [init], given the flag [isInitialized]; it returns the flag as it
    leaves it.  The answer to GET_SETTINGS and the outcomes of the polls
    come from outside.  Registering the observer (its callback is
    [Observer.onMutations] below) and waiting for DOMContentLoaded take no
    step here. *)
Definition init (isInitialized : bool)
    (response : option Background.Response) (hasForms : nat -> bool) : M bool :=
  if isInitialized then ret true
  else
    try_catch
      ((* the settings, from the background script *)
       modify (setSettings (getSettings response)) ;;;
       (* Additional wait for dynamic content to load *)
       waitForContent hasForms ;;;
       (* Initial scan *)
       scanForms false ;;;
       ret true)
      (fun _ => ret false).

(** ** Watching the page: the callback of the mutation observer *)

Module Observer.

Record Node : Type := mkNode {
  isElement : bool;          (* nodeType === Node.ELEMENT_NODE *)
  tagName : string;
  containsForm : bool;       (* querySelector("form") finds a descendant *)
  containsControl : bool     (* querySelector("input, textarea, select") *)
}.

Record Mutation : Type := mkMutation {
  mu_type : string;          (* "childList", "attributes", ... *)
  mu_target : Node;
  mu_targetIsBody : bool;    (* target === document.body *)
  mu_addedNodes : list Node
}.

Definition addedNodeRelevant (node : Node) : bool :=
  isElement node
  && (String.eqb (tagName node) "FORM" || containsForm node
      || containsControl node).

Definition mutationRelevant (mutation : Mutation) : bool :=
  (* added nodes *)
  existsb addedNodeRelevant (mu_addedNodes mutation)
  (* attribute changes (for dynamic form loading) *)
  || (String.eqb (mu_type mutation) "attributes"
      && (String.eqb (tagName (mu_target mutation)) "FORM"
          || String.eqb (tagName (mu_target mutation)) "INPUT"
          || String.eqb (tagName (mu_target mutation)) "TEXTAREA"
          || String.eqb (tagName (mu_target mutation)) "SELECT"))
  (* subtree changes (nested form loading) *)
  || (String.eqb (mu_type mutation) "childList"
      && negb (mu_targetIsBody mutation)
      && (String.eqb (tagName (mu_target mutation)) "FORM"
          || containsControl (mu_target mutation))).

Definition shouldRescan (mutations : list Mutation) : bool :=
  existsb mutationRelevant mutations.

(** The callback, run at the instant [instant] (in ms): [rescanTimeout] is the
    instant at which the pending silent rescan is due, if one is pending. *)
Definition onMutations (instant : Z) (mutations : list Mutation)
    (rescanTimeout : option Z) : option Z :=
  if shouldRescan mutations then
    (* Debounce rescanning *)
    Some (instant + 300)
  else rescanTimeout.

End Observer.

(** * Vocabulary of the properties

    Pure counterparts of the effectful code, the frame conditions used in
    the proofs, and the concrete controls and pages on which the theorems
    are exercised. *)

(** The kind that the explicit [type] attribute stands for, if it is one of
    email, password, tel, url, date-like, number. *)
Definition explicitKind (ty : InputType) : option string :=
  match ty with
  | TyEmail => Some "email"
  | TyPassword => Some "password"
  | TyTel => Some "phone"
  | TyUrl => Some "url"
  | TyDate | TyDatetimeLocal => Some "date"
  | TyNumber | TyRange => Some "number"
  | _ => None
  end.

(** The keywords of the rules placed before the rule of a kind. *)
Definition earlierKeywords (kind : string) : list string :=
  if String.eqb kind "email" then []
  else if String.eqb kind "password" then reEmail
  else if String.eqb kind "phone" then (reEmail ++ rePassword)%list
  else if String.eqb kind "url" then (reEmail ++ rePassword ++ rePhone)%list
  else if String.eqb kind "date"
  then (reEmail ++ rePassword ++ rePhone ++ reUrl)%list
  else (reEmail ++ rePassword ++ rePhone ++ reUrl ++ reDate)%list.

(** A number input whose name matches a later keyword rule (address). *)
Definition zipCounter : Element := withName "zip" (blankInput TyNumber).

(** A number input whose name matches the first keyword rule (email). *)
Definition emailCounter : Element := withName "email_count" (blankInput TyNumber).

(** [<textarea name="note" maxlength="5">] *)
Definition shortNote : Element :=
  {| el_tag := TEXTAREA; el_name := "note"; el_id := ""; el_placeholder := "";
     el_autocomplete := ""; el_className := ""; el_value := "";
     el_checked := false; el_disabled := false; el_readOnly := false;
     el_required := false; el_pattern := ""; el_maxLength := 5;
     el_attr_maxlength := Some "5"; el_min := ""; el_max := "";
     el_options := []; el_noAutofill := false; el_displayNone := false;
     el_visibilityHidden := false; el_offsetParentNull := false;
     el_labelFor := None; el_parentLabel := None; el_prevSibling := None;
     el_parentText := None; el_inAntWrapper := false;
     el_antBoxChecked := None; el_reactTracked := false;
     el_outline := ""; el_backgroundColor := ""; el_form := None |}.

(** [<input type="number" name="qty" min="1" max="10">] *)
Definition quantityInput : Element :=
  withBounds "1" "10" (withName "qty" (blankInput TyNumber)).

(** [<input type="range" name="volume" min="0" max="10">] *)
Definition volumeSlider : Element :=
  withBounds "0" "10" (withName "volume" (blankInput TyRange)).

(** [<input type="number" name="qty" min="10" max="5">] *)
Definition invertedBounds : Element :=
  withBounds "10" "5" (withName "qty" (blankInput TyNumber)).

(** The options that select-kind generation chooses among: value and text
    both non-blank after trimming. *)
Definition eligibleOptions (f : Element) : list SelOption :=
  List.filter validOption (default [] (propOptions f)).

(** A select with the options "", "red", "blue". *)
Definition colours : Element :=
  {| el_tag := SELECT false; el_name := "colour"; el_id := "";
     el_placeholder := ""; el_autocomplete := ""; el_className := "";
     el_value := ""; el_checked := false; el_disabled := false;
     el_readOnly := false; el_required := false; el_pattern := "";
     el_maxLength := -1; el_attr_maxlength := None; el_min := "";
     el_max := "";
     el_options := [mkOption "" "" true; mkOption "red" "red" false;
                    mkOption "blue" "blue" false];
     el_noAutofill := false; el_displayNone := false;
     el_visibilityHidden := false; el_offsetParentNull := false;
     el_labelFor := None; el_parentLabel := None; el_prevSibling := None;
     el_parentText := None; el_inAntWrapper := false;
     el_antBoxChecked := None; el_reactTracked := false;
     el_outline := ""; el_backgroundColor := ""; el_form := None |}.

(** A select whose only option has a white-space value and a label. *)
Definition blankValued : Element :=
  setOptions [mkOption " " "Pick one" false] colours.

(** [<input type="date" name="dob">] *)
Definition birthday : Element := withName "dob" (blankInput TyDate).

(** What [clearForms] does to one control. *)
Definition clearElement (f : Element) : Element :=
  if clearSkips f then f
  else
    let tag := tagLower f in
    let type := Str.toLowerCase (typeProp f) in
    if String.eqb type "checkbox" || String.eqb type "radio"
    then setChecked false f
    else if String.eqb tag "select" then
      if existsb (fun o => Str.isEmpty (opt_value o)) (el_options f)
      then setOptions (selectByValue "" (el_options f)) f
      else setOptions (List.map deselect (el_options f)) f
    else setValue "" f.

(** Two worlds that differ in the document, the clock and the trace only. *)
Definition sameFiller (w w' : World) : Prop :=
  w_forms w' = w_forms w
  /\ w_settings w' = w_settings w
  /\ w_detectedForms w' = w_detectedForms w
  /\ w_detectedFields w' = w_detectedFields w
  /\ w_fillSession w' = w_fillSession w
  /\ w_processedFields w' = w_processedFields w.

Definition notProgress (e : Effect) : Prop :=
  match e with EProgress _ => False | _ => True end.

(** A step that leaves the filler object alone and sends no progress. *)
Definition quietStep (w w' : World) : Prop :=
  sameFiller w w'
  /\ exists new, w_trace w' = (new ++ w_trace w)%list /\ Forall notProgress new.

(** A computation all of whose runs are quiet steps. *)
Definition Quiet {A} (m : M A) : Prop := forall w, quietStep w (snd (m w)).

(** What one iteration of the loop can do. *)
Inductive StepKind : Type :=
| StepSkipped
| StepFilled
| StepFillFailed (e : string)
| StepSendFailed (e : string).

Record StepFacts (kind : StepKind) (totalFields : Z) (fieldData : FieldData)
    (w w' : World) (s s' : FillSession) (new : list Effect) : Prop := {
  sf_processed :
    w_processedFields w' =
    match kind with
    | StepFilled | StepSendFailed _ => w_processedFields w + 1
    | _ => w_processedFields w
    end;
  sf_skipped :
    fs_fieldsSkipped s' =
    match kind with
    | StepSkipped => fs_fieldsSkipped s + 1
    | _ => fs_fieldsSkipped s
    end;
  sf_errors :
    fs_errors s' =
    match kind with
    | StepFillFailed e | StepSendFailed e =>
        (fs_errors s ++ [{| fe_field := fd_name fieldData; fe_error := e |}])%list
    | _ => fs_errors s
    end;
  sf_progress :
    progressValues new =
    match kind with
    | StepFilled => [progressOf (w_processedFields w + 1) totalFields]
    | _ => []
    end
}.

(** How the kind of a step is decided. *)
Definition stepKindOf (H : Host) (fillOptions : FillOptions)
    (fieldData : FieldData) (w : World) : StepKind :=
  if negb (fillableNow w fieldData) then StepSkipped
  else match fillField H fieldData fillOptions w with
       | (Throw e, _) => StepFillFailed e
       | (Ok _, w1) =>
           match sendFault H (w_tick w1) with
           | Some e => StepSendFailed e
           | None => StepFilled
           end
       end.

(** What a run of the loop adds up to. *)
Record LoopFacts (H : Host) (totalFields : Z) (fields : list FieldData)
    (w w' : World) (s s' : FillSession)
    (new : list Effect) (ks : list Z) (ex : list FieldError) : Prop := {
  lf_errors : fs_errors s' = (fs_errors s ++ ex)%list;
  lf_progress :
    progressValues new = List.map (fun k => progressOf k totalFields) ks;
  lf_sorted : StronglySorted Z.lt ks;
  lf_range :
    Forall (fun k => w_processedFields w < k <= w_processedFields w') ks;
  lf_processed : w_processedFields w <= w_processedFields w';
  lf_skipped : fs_fieldsSkipped s <= fs_fieldsSkipped s';
  lf_lower :
    (w_processedFields w' - w_processedFields w)
    + (fs_fieldsSkipped s' - fs_fieldsSkipped s) <= Z.of_nat (length fields);
  lf_upper :
    Z.of_nat (length fields)
    <= (w_processedFields w' - w_processedFields w)
       + (fs_fieldsSkipped s' - fs_fieldsSkipped s) + Z.of_nat (length ex);
  lf_complete :
    ex = [] ->
    ks = seqZ (w_processedFields w + 1)
              (w_processedFields w' - w_processedFields w);
  lf_partition :
    (forall t, sendFault H t = None) ->
    (w_processedFields w' - w_processedFields w)
    + (fs_fieldsSkipped s' - fs_fieldsSkipped s) + Z.of_nat (length ex)
    = Z.of_nat (length fields)
}.

(** The state in which the loop of [fillForms] starts: session created,
    silent rescan done, local counter at zero. *)
Definition fillEntry (H : Host) (w : World) : World :=
  setProcessed 0
    (scanPass
       (setSession (Some {| fs_startTime := now H (w_tick w);
                            fs_fieldsProcessed := 0;
                            fs_fieldsSkipped := 0;
                            fs_errors := [] |})
                   (setTick (S (w_tick w)) w))).

(** [totalFields]: the fields counted as fillable and empty before the loop. *)
Definition fillTotal (w0 : World) : Z :=
  Z.of_nat (length (List.filter (fillableNow w0) (w_detectedFields w0))).

(** A page with a text input and a number input, both empty. *)
Definition twoFields : World :=
  Ref.page defaultSettings
    [withName "city" (blankInput TyText); withName "age" (blankInput TyNumber)].

(** What filling [twoFields] reports on the reference host. *)
Definition twoFieldsSummary : FillSummary :=
  {| fieldsProcessed := 2; fieldsSkipped := 0; duration := 0; errors := [] |}.

(** A page whose only control sits in two forms, one nested in the other
    (a document built by script): the scan lists the control once per form. *)
Definition nestedForms : World :=
  {| w_doc := [withName "city" (blankInput TyText)];
     w_forms := [{| form_id := "outer"; form_action := ""; form_method := "";
                    form_controls := [0%nat] |};
                 {| form_id := "inner"; form_action := ""; form_method := "";
                    form_controls := [0%nat] |}];
     w_tick := 0; w_trace := []; w_settings := defaultSettings;
     w_detectedForms := []; w_detectedFields := [];
     w_fillSession := None; w_processedFields := 0 |}.

(** A page with a text input and a file input. *)
Definition withUpload : World :=
  Ref.page defaultSettings
    [withName "city" (blankInput TyText); withName "resume" (blankInput TyFile)].

(** What filling [withUpload] reports on the reference host. *)
Definition withUploadSummary : FillSummary :=
  {| fieldsProcessed := 1; fieldsSkipped := 0; duration := 0;
     errors := [{| fe_field := "resume"; fe_error := fileValueError |}] |}.

(** The options with their [skipHidden] entry replaced. *)
Definition withSkipHidden (b : option bool) (o : Options) : Options :=
  {| o_visualFeedback := o_visualFeedback o;
     o_skipHidden := b;
     o_fillDelay := o_fillDelay o;
     o_enabledFieldTypes := o_enabledFieldTypes o |}.

(** The control, not rendered: [display: none], no offset parent. *)
Definition withDisplayNone (f : Element) : Element :=
  {| el_tag := el_tag f; el_name := el_name f; el_id := el_id f;
     el_placeholder := el_placeholder f;
     el_autocomplete := el_autocomplete f; el_className := el_className f;
     el_value := el_value f; el_checked := el_checked f;
     el_disabled := el_disabled f; el_readOnly := el_readOnly f;
     el_required := el_required f; el_pattern := el_pattern f;
     el_maxLength := el_maxLength f;
     el_attr_maxlength := el_attr_maxlength f;
     el_min := el_min f; el_max := el_max f; el_options := el_options f;
     el_noAutofill := el_noAutofill f; el_displayNone := true;
     el_visibilityHidden := el_visibilityHidden f;
     el_offsetParentNull := true;
     el_labelFor := el_labelFor f; el_parentLabel := el_parentLabel f;
     el_prevSibling := el_prevSibling f; el_parentText := el_parentText f;
     el_inAntWrapper := el_inAntWrapper f;
     el_antBoxChecked := el_antBoxChecked f;
     el_reactTracked := el_reactTracked f;
     el_outline := el_outline f; el_backgroundColor := el_backgroundColor f;
     el_form := el_form f |}.

(** A hidden, empty text input named "nick". *)
Definition hiddenNick : Element :=
  withDisplayNone (withName "nick" (blankInput TyText)).

(** The default settings with [skipHiddenFields] switched off. *)
Definition showHiddenSettings : Settings :=
  {| autoFillEnabled := true; visualFeedbackEnabled := true;
     skipHiddenFields := false; fillDelay := 100;
     enabledFieldTypes := defaultEnabledFieldTypes |}.

(** The keywords of every rule of [detectFieldType] that looks at the
    signal text. *)
Definition ruleKeywords : list string :=
  (reEmail ++ rePassword ++ rePhone ++ reUrl ++ reDate ++ reNumber ++ reName
   ++ reAddress
   ++ ["company"; "organization"; "employer"; "business"]
   ++ ["job"; "title"; "position"; "role"; "occupation"]
   ++ ["credit"; "card"; "cc"; "cardnumber"])%list.

(** The kind of a control none of whose signals matches a keyword: read off
    its tag and type alone. *)
Definition structuralKind (f : Element) : string :=
  match el_tag f with
  | TEXTAREA => "paragraph"
  | SELECT _ => "select"
  | INPUT TyCheckbox => "checkbox"
  | INPUT TyRadio => "radio"
  | INPUT ty => default "text" (explicitKind ty)
  end.

(** The semantic kinds. *)
Definition semanticKinds : list string :=
  ["email"; "password"; "phone"; "url"; "date"; "number";
   "firstName"; "lastName"; "middleName"; "fullName";
   "streetAddress"; "city"; "state"; "zipCode"; "country";
   "company"; "jobTitle"; "creditCard";
   "paragraph"; "select"; "checkbox"; "radio"; "text"].

(** The base kinds, the keys under which [enabledFieldTypes] is read. *)
Definition baseKinds : list string :=
  ["textarea"; "email"; "password"; "tel"; "url"; "date_disabled"; "number";
   "checkbox"; "radio"; "select"; "text"].

(** [<textarea name="bio">] with no [maxlength], under the text
    "Bio (max 10 characters)". *)
Definition hintedTextarea : Element :=
  {| el_tag := TEXTAREA; el_name := "bio"; el_id := ""; el_placeholder := "";
     el_autocomplete := ""; el_className := ""; el_value := "";
     el_checked := false; el_disabled := false; el_readOnly := false;
     el_required := false; el_pattern := ""; el_maxLength := -1;
     el_attr_maxlength := None; el_min := ""; el_max := "";
     el_options := []; el_noAutofill := false; el_displayNone := false;
     el_visibilityHidden := false; el_offsetParentNull := false;
     el_labelFor := None; el_parentLabel := None; el_prevSibling := None;
     el_parentText := Some "Bio (max 10 characters)"; el_inAntWrapper := false;
     el_antBoxChecked := None; el_reactTracked := false;
     el_outline := ""; el_backgroundColor := ""; el_form := None |}.

(** The record that a scan of [twoFields] makes of its first control. *)
Definition cityRecord : FieldData :=
  {| fd_element := 0; fd_type := "text"; fd_detectedType := "city";
     fd_name := "city"; fd_id := ""; fd_placeholder := "";
     fd_required := false; fd_readonly := false; fd_disabled := false;
     fd_maxLength := VNum (numZ (-1)); fd_pattern := VNull;
     fd_autocomplete := ""; fd_labels := [] |}.

(** A computation every run of which is a step of the relation [R]. *)
Definition Keeps (R : World -> World -> Prop) {A} (m : M A) : Prop :=
  forall w, R w (snd (m w)).

(** A relation between documents, read as a relation between worlds. *)
Definition onDoc (r : list Element -> list Element -> Prop)
    (w w' : World) : Prop :=
  r (w_doc w) (w_doc w').

(** Nothing but the counter of host calls has changed. *)
Definition tickOnly (w w' : World) : Prop :=
  w' = setTick (w_tick w') w /\ (w_tick w <= w_tick w')%nat.

(** A radio button that is checked: the only control that a write to
    another control can change. *)
Definition checkedRadio (g : Element) : bool := isRadio g && el_checked g.

(** The same controls, except for those at the indices [ok] and for
    checked radio buttons. *)
Definition untouched (ok : nat -> Prop) (d d' : list Element) : Prop :=
  length d' = length d
  /\ forall j g, ~ ok j -> checkedRadio g = false ->
                 d !! j = Some g -> d' !! j = Some g.

(** A control with its state blanked: what is left is what no write of the
    filler changes. *)
Definition identityOf (f : Element) : Element :=
  setState f "" false (List.map deselect (el_options f)) None "" "".

(** Documents with the same controls up to their state. *)
Definition sameControls (d d' : list Element) : Prop :=
  List.map identityOf d' = List.map identityOf d.

(** The kinds that the static fallback table answers. *)
Definition fallbackKinds : list string :=
  ["email"; "password"; "phone"; "url"; "firstName"; "lastName";
   "middleName"; "fullName"; "streetAddress"; "city"; "state"; "zipCode";
   "country"; "company"; "jobTitle"; "creditCard"; "date"; "number";
   "paragraph"; "text"].

(** A string of decimal digits. *)
Definition allDigits (s : string) : bool :=
  forallb Str.isDigit (list_ascii_of_string s).

(** A step that draws no instant and adds DOM events only to the trace. *)
Definition domOnly (w w' : World) : Prop :=
  w_tick w' = w_tick w
  /\ exists events,
       w_trace w' = (events ++ w_trace w)%list
       /\ Forall (fun e => exists i type, e = EDomEvent i type) events.

(** Whether [clearForms] writes to the control at index [i]. *)
Definition clearable (d : list Element) (i : nat) : bool :=
  match d !! i with
  | Some field => negb (clearSkips field)
  | None => false
  end.

(** The controls whose value [fillField] writes as text: a textarea, or an
    input that is not a checkbox, a radio button or a file input. *)
Definition plainValued (f : Element) : bool :=
  match el_tag f with
  | TEXTAREA => true
  | INPUT TyCheckbox | INPUT TyRadio | INPUT TyFile => false
  | INPUT _ => true
  | SELECT _ => false
  end.

(** The values that [fillField] writes to such a control. *)
Definition isStringOrNumber (v : Value) : bool :=
  match v with VStr _ | VNum _ => true | _ => false end.

(** * Properties *)

(** ** Concrete runs of the embedding *)

Example toLowerCase_ex : Str.toLowerCase "E-Mail Address" = "e-mail address".
Proof. reflexivity. Qed.
Example includes_ex : Str.includes "mail" "e-mail address" = true.
Proof. reflexivity. Qed.
Example trim_ex : Str.trim "  a b  " = "a b".
Proof. reflexivity. Qed.
Example parseInt10_ex :
  (Str.parseInt10 " 12px", Str.parseInt10 "-7", Str.parseInt10 "abc")
  = (Some 12, Some (-7), None).
Proof. reflexivity. Qed.
Example ofZ_ex : (Str.ofZ 0, Str.ofZ 1234, Str.ofZ (-50)) = ("0", "1234", "-50").
Proof. reflexivity. Qed.
Example padZeros_ex : Str.padZeros 4 (Str.ofZ 33) = "0033".
Proof. reflexivity. Qed.
Example classList_ex : Str.classListContains "a  ant-input b" "ant-input" = true.
Proof. reflexivity. Qed.

Example detect_ex1 :
  detectFieldType (withName "user_email" (blankInput TyText)) = "email".
Proof. vm_compute. reflexivity. Qed.
Example detect_ex2 :
  detectFieldType (withName "email_count" (blankInput TyNumber)) = "email".
Proof. vm_compute. reflexivity. Qed.
Example fillable_ex :
  isFieldFillable defaultSettings (withName "city" (blankInput TyText)) = true.
Proof. vm_compute. reflexivity. Qed.

Example toISOString_epoch :
  IsoDate.toISOString 0 = "1970-01-01T00:00:00.000Z".
Proof. vm_compute. reflexivity. Qed.
Example toISOString_ex :
  IsoDate.toISOString 1793665845123 = "2026-11-03T00:30:45.123Z".
Proof. vm_compute. reflexivity. Qed.
Example toISOString_leap :
  IsoDate.toISOString 951782400000 = "2000-02-29T00:00:00.000Z".
Proof. vm_compute. reflexivity. Qed.

Example charLimit_ex :
  CharLimit.firstMatch "Remarks (Max  120 characters)" = Some "120".
Proof. vm_compute. reflexivity. Qed.
Example charLimit_none :
  CharLimit.firstMatch "maximum 120 characters" = None.
Proof. vm_compute. reflexivity. Qed.

(** A form holding an empty email input and an empty text input named
    "captcha_code": the scan reports one form with one field, the fill
    processes one field, the email input then holds an address and the
    captcha input is still empty. *)
Example scan_fill_signup :
  let signup :=
    {| w_doc := [withName "email" (blankInput TyEmail);
                 withName "captcha_code" (blankInput TyText)];
       w_forms := [{| form_id := "signup"; form_action := "";
                      form_method := "post"; form_controls := [0; 1]%nat |}];
       w_tick := 0; w_trace := []; w_settings := defaultSettings;
       w_detectedForms := []; w_detectedFields := [];
       w_fillSession := None; w_processedFields := 0 |} in
  fst (scanForms false signup)
  = Ok {| sr_forms := 1; sr_fields := 1; sr_error := None |}
  /\ fst (fillForms Ref.host noOptions signup)
     = Ok (FillSuccess {| fieldsProcessed := 1; fieldsSkipped := 0;
                          duration := 0; errors := [] |})
  /\ List.map fieldValue (w_doc (snd (fillForms Ref.host noOptions signup)))
     = ["test@example.com"; ""].
Proof. repeat split; vm_compute; reflexivity. Qed.

(** ** The classifier's priority chain *)

Lemma testAny_app a b s :
  Str.testAny (a ++ b)%list s = Str.testAny a s || Str.testAny b s.
Proof. unfold Str.testAny. apply existsb_app. Qed.

Lemma typeProp_input f ty : el_tag f = INPUT ty -> typeProp f = typeName ty.
Proof. intros E. unfold typeProp. now rewrite E. Qed.

Ltac split_tests :=
  repeat match goal with
         | Hx : Str.testAny (_ ++ _)%list _ = false |- _ =>
             rewrite testAny_app in Hx; apply orb_false_iff in Hx; destruct Hx
         end.




(** ** Constraint enforcement *)

Lemma substring0_length (n : nat) (s : string) :
  (String.length (String.substring 0 n s) <= n)%nat.
Proof.
  revert s. induction n as [|n IH]; intros [|c s]; simpl; try lia.
  specialize (IH s). lia.
Qed.

Lemma isTextLike_not_number_date (field : Element) :
  isTextLike field = true ->
  String.eqb (typeProp field) "number" = false
  /\ String.eqb (typeProp field) "date" = false.
Proof.
  unfold isTextLike, typeProp, tagLower.
  destruct (el_tag field) as [ty| |m]; [destruct ty| |destruct m];
    vm_compute; intros Hx; try discriminate; split; reflexivity.
Qed.

(** C6.  For a text-like control (textarea, or input of type
    text/email/url/password/search/tel) whose declared maximum length is
    [L > 0] (the maxlength attribute, or the maxLength property when the
    attribute is absent), enforcing the constraints on a string yields a
    string of length at most [L]. *)
Theorem applyConstraints_maxlength (H : Host) (field : Element) (s kind : string) (L : Z) :
  isTextLike field = true ->
  constraintMaxLength field = Some L ->
  0 < L ->
  exists s', applyConstraints H field (VStr s) kind = VStr s'
             /\ Z.of_nat (String.length s') <= L.
Proof.
  intros Htl HL Hpos.
  destruct (isTextLike_not_number_date field Htl) as [Hn Hd].
  unfold applyConstraints, truncateStep. rewrite Htl, HL.
  assert (Hc : forall s0, dateStep H field (clampStep H field (VStr s0)) = VStr s0).
  { intros s0. unfold clampStep. rewrite Hn. unfold dateStep. now rewrite Hd. }
  destruct ((0 <? L) && (L <? Z.of_nat (String.length s))) eqn:Hcut.
  - rewrite Hc. eexists; split; [reflexivity|].
    unfold Str.slice0. pose proof (substring0_length (Z.to_nat L) s). lia.
  - rewrite Hc. eexists; split; [reflexivity|].
    apply andb_false_iff in Hcut. destruct Hcut as [Hx|Hx]; lia.
Qed.

Lemma applyConstraints_maxlength_witness :
  exists s', applyConstraints Ref.host shortNote (VStr "Lorem ipsum") "paragraph"
             = VStr s'
             /\ Z.of_nat (String.length s') <= 5.
Proof.
  apply (applyConstraints_maxlength Ref.host shortNote "Lorem ipsum"
           "paragraph" 5); [reflexivity | reflexivity | lia].
Defined.

Lemma num_lt_false_le (a b : num) :
  num_isNaN a = false -> num_isNaN b = false -> num_lt a b = false ->
  num_le b a.
Proof.
  destruct a as [| |p|], b as [| |q|]; simpl; intros Ha Hb Hlt;
    try discriminate; try exact I.
  apply negb_false_iff in Hlt. now apply Qle_bool_iff.
Qed.

Lemma num_lt_true_le (a b : num) : num_lt a b = true -> num_le a b.
Proof.
  destruct a as [| |p|], b as [| |q|]; simpl; intros Hlt;
    try discriminate; try exact I.
  apply negb_true_iff in Hlt. apply Qlt_le_weak, Qnot_le_lt.
  intros Hle. apply Qle_bool_iff in Hle. congruence.
Qed.

Lemma num_le_refl (a : num) : num_isNaN a = false -> num_le a a.
Proof. destruct a; simpl; intros; try discriminate; try exact I. apply Qle_refl. Qed.

Lemma num_le_not_NaN (a b : num) :
  num_le a b -> num_isNaN a = false /\ num_isNaN b = false.
Proof. destruct a, b; simpl; intros Hx; try contradiction; auto. Qed.

(** C7 (amended).  For an input of type number whose declared minimum
    and/or maximum are numbers, with minimum <= maximum when both are
    declared, and for every value that is a number or converts to one,
    enforcing the constraints yields a number within the declared bounds,
    inclusive. *)
Theorem applyConstraints_range (H : Host) (field : Element) (v : Value) (kind : string) :
  el_tag field = INPUT TyNumber ->
  v <> VNull ->
  num_isNaN (valueToNumber H v) = false ->
  (forall lo, declaredBound H (el_min field) = Some lo -> num_isNaN lo = false) ->
  (forall hi, declaredBound H (el_max field) = Some hi -> num_isNaN hi = false) ->
  (forall lo hi, declaredBound H (el_min field) = Some lo ->
                 declaredBound H (el_max field) = Some hi -> num_le lo hi) ->
  exists out,
    applyConstraints H field v kind = VNum out
    /\ (forall lo, declaredBound H (el_min field) = Some lo -> num_le lo out)
    /\ (forall hi, declaredBound H (el_max field) = Some hi -> num_le out hi).
Proof.
  intros Htag Hnull Hnum Hlo Hhi Horder.
  assert (Hty : typeProp field = "number") by (unfold typeProp; now rewrite Htag).
  assert (Htr : truncateStep field v = v).
  { unfold truncateStep, isTextLike, tagLower. rewrite Hty, Htag.
    destruct v; reflexivity. }
  assert (Hv : match v with VNum n => n | other => valueToNumber H other end
               = valueToNumber H v) by (destruct v; reflexivity).
  assert (Hds : forall x, dateStep H field x = x).
  { intros x. unfold dateStep. rewrite Hty. now destruct x. }
  assert (Hout : applyConstraints H field v kind = clampStep H field v).
  { unfold applyConstraints. rewrite Htr, Hds. destruct v; congruence. }
  rewrite Hout. unfold clampStep. rewrite Hty.
  change (String.eqb "number" "number") with true. cbv iota zeta.
  rewrite Hv, Hnum. cbv [negb].
  set (x := valueToNumber H v) in *.
  destruct (declaredBound H (el_min field)) as [lo|] eqn:Emin;
    destruct (declaredBound H (el_max field)) as [hi|] eqn:Emax;
    try (specialize (Hlo lo eq_refl)); try (specialize (Hhi hi eq_refl));
    try (specialize (Horder lo hi eq_refl eq_refl));
    (eexists; split; [reflexivity|]); split;
    intros b' Eb; try discriminate; injection Eb as <-.
  all: unfold num_gt.
  all: repeat match goal with
         | |- context [num_lt ?a ?b] => destruct (num_lt a b) eqn:?
         end;
       eauto using num_lt_false_le, num_lt_true_le, num_le_refl.
Qed.

Lemma applyConstraints_range_witness :
  exists out,
    applyConstraints Ref.host quantityInput (VNum (numZ 50)) "number" = VNum out
    /\ (forall lo, declaredBound Ref.host (el_min quantityInput) = Some lo ->
                   num_le lo out)
    /\ (forall hi, declaredBound Ref.host (el_max quantityInput) = Some hi ->
                   num_le out hi).
Proof.
  apply (applyConstraints_range Ref.host quantityInput (VNum (numZ 50)) "number").
  - reflexivity.
  - discriminate.
  - reflexivity.
  - intros lo E. vm_compute in E. injection E as <-. reflexivity.
  - intros hi E. vm_compute in E. injection E as <-. reflexivity.
  - intros lo hi E1 E2. vm_compute in E1, E2.
    injection E1 as <-. injection E2 as <-. vm_compute. discriminate.
Defined.

(** C7 as stated fails twice.  A range input is a numeric control for the
    classifier and for [getBaseType], yet [applyConstraints] clamps only
    inputs of type number: 50 passes through bounds [0, 10].  And with
    minimum 10 above maximum 5 the result 5 lies below the minimum. *)
Lemma applyConstraints_range_counterexample :
  (detectFieldType volumeSlider = "number"
   /\ getBaseType volumeSlider "number" = "number"
   /\ declaredBound Ref.host (el_max volumeSlider) = Some (numZ 10)
   /\ applyConstraints Ref.host volumeSlider (VNum (numZ 50)) "number"
      = VNum (numZ 50)
   /\ ~ num_le (numZ 50) (numZ 10))
  /\ (declaredBound Ref.host (el_min invertedBounds) = Some (numZ 10)
      /\ applyConstraints Ref.host invertedBounds (VNum (numZ 7)) "number"
         = VNum (numZ 5)
      /\ ~ num_le (numZ 10) (numZ 5)).
Proof.
  repeat split; try (vm_compute; reflexivity);
    vm_compute; intros Hx; apply Hx; reflexivity.
Qed.

(** ** Select generation *)

Lemma randomAt_range (H : Host) (t : nat) :
  (0 <= randomAt H t)%Q /\ (randomAt H t < 1)%Q.
Proof.
  unfold randomAt, Qle, Qlt. simpl.
  pose proof (Z.mod_pos_bound (rand53 H t) (Z.pos two53) eq_refl). lia.
Qed.

Lemma floor_scaled_range (u : Q) (n : Z) :
  (0 <= u)%Q -> (u < 1)%Q -> 0 < n ->
  0 <= Qfloor (u * inject_Z n) < n.
Proof.
  intros H0 H1 Hn.
  assert (Hn' : (0 < inject_Z n)%Q) by (unfold Qlt; simpl; lia).
  split.
  - change 0 with (Qfloor 0). apply Qfloor_resp_le.
    apply Qmult_le_0_compat; [assumption | now apply Qlt_le_weak].
  - rewrite Zlt_Qlt. eapply Qle_lt_trans; [apply Qfloor_le|].
    rewrite <- (Qmult_1_l (inject_Z n)) at 2.
    now apply Qmult_lt_compat_r.
Qed.

Lemma floorRandom_run (H : Host) (n : Z) (w : World) :
  floorRandom H n w
  = (Ok (Qfloor (randomAt H (w_tick w) * inject_Z n)), setTick (S (w_tick w)) w).
Proof. reflexivity. Qed.

Lemma eligible_value_nonempty (f : Element) (o : SelOption) :
  In o (eligibleOptions f) -> opt_value o <> "".
Proof.
  unfold eligibleOptions. rewrite filter_In. intros [_ Hv].
  unfold validOption in Hv.
  destruct (opt_value o); [discriminate | congruence].
Qed.

(** The shape of every run of [handleSelectField]. *)
Lemma handleSelectField_run (H : Host) (f : Element) (w : World) :
  let valid := eligibleOptions f in
  let x := (randomAt H (w_tick w) * inject_Z (Z.of_nat (length valid)))%Q in
  fst (handleSelectField H (Some f) w)
  = match valid with
    | [] => Ok (VStr "")
    | _ => match valid !! Z.to_nat (Qfloor x) with
           | Some o => Ok (VStr (opt_value o))
           | None => Throw "TypeError: Cannot read properties of undefined"
           end
    end.
Proof.
  unfold eligibleOptions, handleSelectField, propOptions.
  destruct (el_tag f) as [ty| |m]; try reflexivity. simpl.
  destruct (el_options f) as [|o os] eqn:Eo; [reflexivity|].
  destruct (List.filter validOption (o :: os)) as [|v vs] eqn:Ev; [reflexivity|].
  unfold bind. rewrite floorRandom_run.
  destruct ((v :: vs) !! _); reflexivity.
Qed.



(** ** Date fields *)

(** A date-like control is never fillable, whatever the settings. *)
Lemma isFieldFillable_date (settings : Settings) (f : Element) :
  detectFieldType f = "date" -> isFieldFillable settings f = false.
Proof. intros Hd. unfold isFieldFillable. now rewrite Hd. Qed.

(** With a faker object on the window, generation for the date kind is the
    empty string and consumes nothing. *)
Lemma generateFakeData_date_faker (H : Host) (fk : Faker)
    (field : option Element) (w : World) :
  faker H = Some fk ->
  generateFakeData H "date" field w = (Ok (VStr ""), w).
Proof. intros Hf. unfold generateFakeData. rewrite Hf. reflexivity. Qed.

Lemma posDigits_head (fuel : nat) (n : Z) (acc : string) :
  0 <= n ->
  exists c t, Str.posDigits (S fuel) n acc = String c t /\ Str.isDigit c = true.
Proof.
  revert n acc. induction fuel as [|fuel IH]; intros n acc Hn.
  - simpl. pose proof (Z.mod_pos_bound n 10 eq_refl) as Hm.
    assert (Hd : Str.isDigit (ascii_of_N (Z.to_N (48 + n mod 10))) = true).
    { assert (Hc : exists k, n mod 10 = k /\ 0 <= k < 10) by eauto.
      destruct Hc as (k & -> & Hk).
      assert (k = 0 \/ k = 1 \/ k = 2 \/ k = 3 \/ k = 4 \/ k = 5 \/ k = 6
              \/ k = 7 \/ k = 8 \/ k = 9) as Hcases by lia.
      repeat destruct Hcases as [-> | Hcases]; try subst k; reflexivity. }
    destruct (n <? 10); eauto.
  - change (Str.posDigits (S (S fuel)) n acc)
      with (let acc' := String (ascii_of_N (Z.to_N (48 + n mod 10))) acc in
            if n <? 10 then acc' else Str.posDigits (S fuel) (n / 10) acc').
    cbv zeta. destruct (n <? 10) eqn:E.
    + pose proof (Z.mod_pos_bound n 10 eq_refl) as Hm.
      assert (Hc : exists k, n mod 10 = k /\ 0 <= k < 10) by eauto.
      destruct Hc as (k & -> & Hk).
      assert (k = 0 \/ k = 1 \/ k = 2 \/ k = 3 \/ k = 4 \/ k = 5 \/ k = 6
              \/ k = 7 \/ k = 8 \/ k = 9) as Hcases by lia.
      eexists _, _. split; [reflexivity|].
      repeat destruct Hcases as [-> | Hcases]; try subst k; reflexivity.
    + apply IH. apply Z.div_pos; lia.
Qed.

Lemma ofZ_head (n : Z) :
  0 <= n -> exists c t, Str.ofZ n = String c t /\ Str.isDigit c = true.
Proof.
  intros Hn. unfold Str.ofZ.
  destruct (n <? 0) eqn:E; [lia|].
  replace (Z.to_nat (Z.log2 n) + 1)%nat with (S (Z.to_nat (Z.log2 n))) by lia.
  now apply posDigits_head.
Qed.

Lemma padZeros_head (w : nat) (n : Z) :
  0 <= n ->
  exists c t, Str.padZeros w (Str.ofZ n) = String c t /\ Str.isDigit c = true.
Proof.
  intros Hn. destruct (ofZ_head n Hn) as (c & t & E & Hc).
  unfold Str.padZeros. destruct (w - String.length (Str.ofZ n))%nat; simpl.
  - eauto.
  - eexists _, _. split; reflexivity.
Qed.

(** A calendar date in ISO form does not start at the letter T. *)
Lemma isoDate_nonempty (ms : Z) :
  Str.beforeChar "T" (IsoDate.toISOString ms) <> "".
Proof.
  unfold IsoDate.toISOString.
  destruct (IsoDate.civil (ms / IsoDate.msPerDay)) as [[y m] d].
  assert (Hy : exists c t, IsoDate.yearString y = String c t
                            /\ Ascii.eqb c "T" = false).
  { unfold IsoDate.yearString, IsoDate.pad.
    destruct ((0 <=? y) && (y <=? 9999)) eqn:E1.
    - destruct (padZeros_head 4 y) as (c & t & E & Hc); [lia|].
      exists c, t. split; [assumption|].
      destruct (Ascii.eqb_spec c "T"); [subst c; discriminate | reflexivity].
    - destruct (y <? 0); eexists _, _; split; reflexivity. }
  destruct Hy as (c & t & E & Hc). rewrite E. simpl. rewrite Hc. discriminate.
Qed.

(** Without a faker object the static table answers, and its entry for the
    date kind is today's date: never the empty string. *)
Lemma generateFakeData_date_fallback (H : Host) (field : option Element) (w : World) :
  faker H = None ->
  exists s, fst (generateFakeData H "date" field w) = Ok (VStr s) /\ s <> "".
Proof.
  intros Hf. unfold generateFakeData. rewrite Hf.
  pose proof (isoDate_nonempty (now H (w_tick w))) as Hne.
  set (today := Str.beforeChar "T" (IsoDate.toISOString (now H (w_tick w)))) in *.
  exists today. split; [|assumption].
  unfold getFallbackData, bind, fresh, floorRandom, mathRandom, ret.
  cbn [fst snd w_tick setTick]. fold today.
  generalize (Qfloor (randomAt H (S (w_tick w)) * inject_Z 100) + 1).
  clearbody today. destruct today as [|c t]; [congruence|].
  intros n. vm_compute. reflexivity.
Qed.


(** ** The clear session *)

Lemma sameFiller_refl w : sameFiller w w.
Proof. repeat split. Qed.

Lemma sameFiller_trans w1 w2 w3 :
  sameFiller w1 w2 -> sameFiller w2 w3 -> sameFiller w1 w3.
Proof.
  unfold sameFiller. intros (a1 & a2 & a3 & a4 & a5 & a6) (b1 & b2 & b3 & b4 & b5 & b6).
  repeat split; congruence.
Qed.

Lemma alter_fixed {A} (f : A -> A) (i : nat) (l : list A) (x : A) :
  l !! i = Some x -> f x = x -> alter f i l = l.
Proof.
  intros Hl Hf. apply list_eq. intros j.
  destruct (decide (i = j)) as [<-|Hne].
  - rewrite list_lookup_alter_eq, Hl. simpl. now rewrite Hf.
  - now rewrite list_lookup_alter_ne.
Qed.

Lemma quietStep_refl w : quietStep w w.
Proof. split; [apply sameFiller_refl | exists []; split; [reflexivity | constructor]]. Qed.

Lemma quietStep_trans w1 w2 w3 :
  quietStep w1 w2 -> quietStep w2 w3 -> quietStep w1 w3.
Proof.
  intros [Ha (n1 & E1 & F1)] [Hb (n2 & E2 & F2)].
  split; [eapply sameFiller_trans; eassumption|].
  exists (n2 ++ n1)%list. split.
  - rewrite E2, E1. now rewrite app_assoc.
  - now apply Forall_app.
Qed.

Lemma Quiet_ret {A} (a : A) : Quiet (ret a).
Proof. intros w. apply quietStep_refl. Qed.

Lemma Quiet_throw {A} (e : string) : Quiet (@throw A e).
Proof. intros w. apply quietStep_refl. Qed.

Lemma Quiet_get : Quiet get.
Proof. intros w. apply quietStep_refl. Qed.

Lemma Quiet_bind {A B} (m : M A) (k : A -> M B) :
  Quiet m -> (forall a, Quiet (k a)) -> Quiet (bind m k).
Proof.
  intros Hm Hk w. unfold bind. specialize (Hm w).
  destruct (m w) as [[a|e] w1]; simpl in *; [|assumption].
  eapply quietStep_trans; [eassumption | apply Hk].
Qed.

Lemma Quiet_try_catch {A} (m : M A) (h : string -> M A) :
  Quiet m -> (forall e, Quiet (h e)) -> Quiet (try_catch m h).
Proof.
  intros Hm Hh w. unfold try_catch. specialize (Hm w).
  destruct (m w) as [[a|e] w1]; simpl in *; [assumption|].
  eapply quietStep_trans; [eassumption | apply Hh].
Qed.

Lemma Quiet_fresh : Quiet fresh.
Proof. intros w. split; [repeat split | exists []; split; [reflexivity | constructor]]. Qed.

Lemma Quiet_setDoc (g : World -> list Element) :
  Quiet (modify (fun w => setDoc (g w) w)).
Proof. intros w. split; [repeat split | exists []; split; [reflexivity | constructor]]. Qed.

Lemma Quiet_updateEl (i : nat) (g : Element -> Element) : Quiet (updateEl i g).
Proof. apply (Quiet_setDoc (fun w => alter g i (w_doc w))). Qed.

Lemma Quiet_emit (e : Effect) : notProgress e -> Quiet (emit e).
Proof.
  intros He w. split; [repeat split | exists [e]; split; [reflexivity|]].
  now constructor.
Qed.

Lemma Quiet_writeChecked (i : nat) (b : bool) : Quiet (writeChecked i b).
Proof.
  intros w. unfold writeChecked, modify. simpl.
  destruct (w_doc w !! i); [|apply quietStep_refl].
  split; [repeat split | exists []; split; [reflexivity | constructor]].
Qed.

Ltac quiet :=
  repeat first
    [ apply Quiet_ret | apply Quiet_throw | apply Quiet_get
    | apply Quiet_fresh | apply Quiet_updateEl | apply Quiet_writeChecked
    | apply Quiet_emit; exact I
    | apply Quiet_bind; [|intros]
    | apply Quiet_try_catch; [|intros]
    | match goal with
      | |- Quiet (if ?c then _ else _) => destruct c
      | |- Quiet (match ?x with _ => _ end) => destruct x
      | |- Quiet (let _ := _ in _) => cbv zeta
      end ].

Lemma Quiet_writeValue (i : nat) (v : string) : Quiet (writeValue i v).
Proof. unfold writeValue. quiet. Qed.

Lemma Quiet_triggerChangeEvents (i : nat) : Quiet (triggerChangeEvents i).
Proof. unfold triggerChangeEvents, dispatchEvent. quiet. Qed.

Lemma Quiet_floorRandom (H : Host) (n : Z) : Quiet (floorRandom H n).
Proof. unfold floorRandom, mathRandom. quiet. Qed.

Lemma Quiet_randomDigits (H : Host) (n : nat) : Quiet (randomDigits H n).
Proof.
  induction n as [|n IH]; simpl; [apply Quiet_ret|].
  apply Quiet_bind; [apply Quiet_floorRandom | intros].
  apply Quiet_bind; [apply IH | intros; apply Quiet_ret].
Qed.

Lemma Quiet_firstOf ms (otherwise : M Value) :
  Quiet otherwise -> Quiet (firstOf ms otherwise).
Proof.
  intros Ho. induction ms as [|[f|] ms IH]; simpl; try assumption.
  unfold callS. quiet.
Qed.

Lemma Quiet_numberInt (fk : Faker) (a b : num) : Quiet (numberInt fk a b).
Proof. unfold numberInt. quiet. Qed.

Lemma Quiet_randomInt (H : Host) (a b : Z) : Quiet (randomInt H a b).
Proof.
  unfold randomInt.
  assert (Hm : Quiet (k <- floorRandom H (b - a + 1) ;; ret (VNum (numZ (k + a))))).
  { apply Quiet_bind; [apply Quiet_floorRandom | intros; apply Quiet_ret]. }
  destruct (faker H) as [fk|]; [|exact Hm].
  destruct (fk_number_int fk) eqn:E; [|exact Hm].
  apply Quiet_try_catch; [apply Quiet_numberInt | intros; exact Hm].
Qed.

Lemma Quiet_handleSelectField (H : Host) (field : option Element) :
  Quiet (handleSelectField H field).
Proof.
  unfold handleSelectField.
  destruct field as [f|]; [|apply Quiet_ret].
  destruct (propOptions f) as [[|o os]|]; try apply Quiet_ret.
  destruct (List.filter validOption (o :: os)); [apply Quiet_ret|].
  apply Quiet_bind; [apply Quiet_floorRandom | intros]. quiet.
Qed.

Lemma Quiet_getFallbackData (H : Host) (ty : string) (field : option Element) :
  Quiet (getFallbackData H ty field).
Proof.
  unfold getFallbackData.
  apply Quiet_bind; [apply Quiet_fresh | intros].
  apply Quiet_bind; [apply Quiet_floorRandom | intros]. apply Quiet_ret.
Qed.

Lemma Quiet_genNumberFor (H : Host) (fk : Faker) (field : Element) :
  Quiet (genNumberFor H fk field).
Proof.
  unfold genNumberFor.
  destruct (Str.includes "aadhaarNumber" (el_name field)).
  - destruct (fk_string_numeric fk); quiet.
  - destruct (Str.includes "yearsAttended" (el_name field));
      apply Quiet_numberInt.
Qed.

Lemma Quiet_genParagraph (H : Host) (fk : Faker) (field : option Element) :
  Quiet (genParagraph H fk field).
Proof. unfold genParagraph. quiet. Qed.

Lemma Quiet_if {A} (c : bool) (a b : M A) :
  Quiet a -> Quiet b -> Quiet (if c then a else b).
Proof. now destruct c. Qed.

Lemma Quiet_generateFakeData (H : Host) (ty : string) (field : option Element) :
  Quiet (generateFakeData H ty field).
Proof.
  unfold generateFakeData.
  destruct (faker H) as [fk|]; [|apply Quiet_getFallbackData].
  apply Quiet_try_catch; [|intros; apply Quiet_ret].
  assert (Hdraw : forall n (k : Z -> M Value),
            (forall z, Quiet (k z)) -> Quiet (bind (floorRandom H n) k)).
  { intros n k Hk. apply Quiet_bind; [apply Quiet_floorRandom | exact Hk]. }
  assert (Hfirst : Quiet (genFirstName fk))
    by (apply Quiet_firstOf, Quiet_ret).
  assert (Hlast : Quiet (genLastName fk))
    by (apply Quiet_firstOf, Quiet_ret).
  assert (Hcoin : Quiet (coin H)).
  { unfold coin, mathRandom.
    apply Quiet_bind; [apply Quiet_bind; [apply Quiet_fresh | intros; apply Quiet_ret]
                      | intros; apply Quiet_ret]. }
  repeat (apply Quiet_if;
          [ first
              [ apply Quiet_ret
              | exact Hfirst | exact Hlast
              | apply Quiet_genParagraph
              | apply Quiet_handleSelectField
              | apply Quiet_bind; [exact Hcoin | intros; apply Quiet_ret]
              | destruct field; [apply Quiet_genNumberFor | apply Quiet_numberInt]
              | apply Quiet_firstOf;
                first
                  [ apply Quiet_ret
                  | apply Hdraw; intros;
                    first [ apply Quiet_ret
                          | apply Hdraw; intros; apply Hdraw; intros; apply Quiet_ret ]
                  | apply Quiet_bind;
                    [ apply Quiet_randomDigits | intros; apply Quiet_ret ]
                  | apply Quiet_bind;
                    [ apply Quiet_bind; [apply Quiet_fresh | intros; apply Quiet_ret]
                    | intros; apply Quiet_ret ]
                  | apply Quiet_bind;
                    [ apply Quiet_try_catch; [exact Hfirst | intros; apply Quiet_ret]
                    | intros;
                      apply Quiet_bind;
                      [ apply Quiet_try_catch; [exact Hlast | intros; apply Quiet_ret]
                      | intros; apply Quiet_ret ] ] ] ]
          | ]).
  apply Quiet_if; [|apply Quiet_if].
  - apply Quiet_firstOf.
    apply Quiet_bind; [apply Quiet_randomInt | intros; apply Quiet_ret].
  - apply Quiet_randomInt.
  - destruct (fk_lorem_words fk); [|apply Quiet_ret].
    apply Quiet_bind; [apply Quiet_fresh | intros; apply Quiet_ret].
Qed.

Lemma Quiet_fillField (H : Host) (fieldData : FieldData) (options : FillOptions) :
  Quiet (fillField H fieldData options).
Proof.
  unfold fillField.
  apply Quiet_bind; [apply Quiet_get | intros w0].
  destruct (w_doc w0 !! fd_element fieldData) as [field|]; [|apply Quiet_throw].
  apply Quiet_bind; [apply Quiet_generateFakeData | intros fakeData].
  assert (Hev : forall i ty, Quiet (dispatchEvent i ty))
    by (intros; apply Quiet_emit; exact I).
  apply Quiet_bind;
    [apply Quiet_if; [apply Quiet_updateEl | apply Quiet_ret] | intros _].
  apply Quiet_bind.
  - cbv zeta. apply Quiet_if; [apply Quiet_if|].
    + repeat (apply Quiet_bind;
              [first [apply Quiet_writeChecked | apply Hev | apply Quiet_updateEl]
              | intros _]).
      apply Hev.
    + apply Quiet_writeChecked.
    + apply Quiet_if;
        [apply Quiet_if; [apply Quiet_writeChecked | apply Quiet_ret]|].
      apply Quiet_if;
        [apply Quiet_if; [apply Quiet_writeValue | apply Quiet_ret]|].
      destruct (applyConstraints H field fakeData (fd_detectedType fieldData));
        first [apply Quiet_writeValue | apply Quiet_ret].
  - intros _. apply Quiet_bind; [apply Quiet_triggerChangeEvents | intros _].
    apply Quiet_if; [apply Quiet_emit; exact I | apply Quiet_ret].
Qed.

Lemma alter_none {A} (f : A -> A) (i : nat) (l : list A) :
  l !! i = None -> alter f i l = l.
Proof.
  intros Hl. apply list_eq. intros j.
  destruct (decide (i = j)) as [<-|Hne].
  - now rewrite list_lookup_alter_eq, Hl.
  - now rewrite list_lookup_alter_ne.
Qed.

Lemma writeChecked_false_run (i : nat) (w : World) :
  writeChecked i false w = updateEl i (setChecked false) w.
Proof.
  unfold writeChecked, updateEl, modify.
  destruct (w_doc w !! i) eqn:E; [reflexivity|].
  f_equal. rewrite alter_none by assumption. now destruct w.
Qed.

Lemma triggerChangeEvents_run (i : nat) (w : World) :
  exists w', triggerChangeEvents i w = (Ok tt, w')
             /\ w_doc w' = w_doc w /\ sameFiller w w'.
Proof.
  unfold triggerChangeEvents, dispatchEvent, emit, modify, bind, get, ret.
  cbn [w_doc setTrace].
  destruct (w_doc w !! i) as [f|]; [destruct (el_reactTracked f)|];
    eexists; (split; [reflexivity|]); split; try reflexivity; repeat split.
Qed.

Lemma bind_congr {A B} (m m' : M A) (k : A -> M B) (w : World) :
  m w = m' w -> bind m k w = bind m' k w.
Proof. intros E. unfold bind. now rewrite E. Qed.

Lemma clearAttempt_run (i : nat) (field : Element) (w : World) :
  w_doc w !! i = Some field ->
  clearSkips field = false ->
  exists w', clearAttempt i field w = (Ok tt, w')
             /\ w_doc w' = alter clearElement i (w_doc w)
             /\ sameFiller w w'.
Proof.
  intros Hl Hs.
  assert (Hdoc : forall g, g field = clearElement field ->
            exists w', (updateEl i g ;;; triggerChangeEvents i) w = (Ok tt, w')
              /\ w_doc w' = alter clearElement i (w_doc w) /\ sameFiller w w').
  { intros g Hg. unfold bind, updateEl, modify.
    destruct (triggerChangeEvents_run i (setDoc (alter g i (w_doc w)) w))
      as (w' & E & Hd & Hf).
    exists w'. rewrite E. split; [reflexivity|]. split.
    - rewrite Hd. cbn [w_doc setDoc]. apply list_alter_ext; [|reflexivity].
      intros x Hx. rewrite Hl in Hx. injection Hx as <-. assumption.
    - eapply sameFiller_trans; [|exact Hf]. repeat split. }
  assert (HwV : el_tag field <> INPUT TyFile ->
            writeValue i "" w
            = updateEl i (match el_tag field with
                          | SELECT _ => fun g => setOptions (selectByValue "" (el_options g)) g
                          | _ => setValue ""
                          end) w).
  { intros Hnf. unfold writeValue, bind, get. rewrite Hl.
    destruct (el_tag field) as [[]| |]; try reflexivity. congruence. }
  assert (Hskip : existsb (String.eqb (Str.toLowerCase (typeProp field))) skipTypes = false).
  { unfold clearSkips in Hs. now repeat (apply orb_false_iff in Hs; destruct Hs as [Hs ?]). }
  unfold clearAttempt.
  destruct (el_tag field) as [ty| |m] eqn:Et.
  - destruct ty; unfold typeProp, tagLower in *; rewrite Et in *;
      try (vm_compute in Hskip; discriminate).
    all: simpl.
    all: assert (Hnf : forall ty, ty <> INPUT TyFile -> ty <> INPUT TyFile) by auto;
      specialize (HwV ltac:(discriminate)).
    all: first
      [ rewrite (bind_congr _ _ _ _ (writeChecked_false_run i w))
      | rewrite (bind_congr _ _ _ _ HwV) ].
    all: apply Hdoc; unfold clearElement; rewrite Hs;
      unfold typeProp, tagLower; rewrite Et; reflexivity.
  - unfold typeProp, tagLower in *; rewrite Et in *. simpl.
    specialize (HwV ltac:(discriminate)).
    rewrite (bind_congr _ _ _ _ HwV).
    apply Hdoc; unfold clearElement; rewrite Hs;
      unfold typeProp, tagLower; rewrite Et; reflexivity.
  - specialize (HwV ltac:(discriminate)).
    assert (Hce : clearElement field
                  = if existsb (fun o => Str.isEmpty (opt_value o)) (el_options field)
                    then setOptions (selectByValue "" (el_options field)) field
                    else setOptions (List.map deselect (el_options field)) field).
    { unfold clearElement. rewrite Hs. unfold typeProp, tagLower. rewrite Et.
      now destruct m. }
    assert (Hca : forall k : M unit,
              ((if (Str.toLowerCase (typeProp field) =? "checkbox")%string
                   || (Str.toLowerCase (typeProp field) =? "radio")%string
                then writeChecked i false
                else if (tagLower field =? "select")%string
                     then k else writeValue i "") ;;; triggerChangeEvents i)
              = (k ;;; triggerChangeEvents i)).
    { intros k. unfold typeProp, tagLower. rewrite Et. now destruct m. }
    rewrite Hca.
    destruct (existsb (fun o => Str.isEmpty (opt_value o)) (el_options field)) eqn:Ee.
    + rewrite (bind_congr _ _ _ _ HwV). apply Hdoc. now rewrite Hce.
    + destruct (0 <? length (el_options field))%nat eqn:El.
      * unfold writeNoSelection. apply Hdoc. now rewrite Hce.
      * rewrite (bind_congr _ _ _ _ HwV). apply Hdoc. rewrite Hce.
        apply Nat.ltb_ge in El.
        destruct (el_options field); [reflexivity | simpl in El; lia].
Qed.

Lemma clearLoop_run (indices : list nat) (n : Z) (w : World) :
  exists n' w',
    clearLoop indices n w = (Ok n', w')
    /\ w_doc w' = foldl (fun d i => alter clearElement i d) (w_doc w) indices
    /\ sameFiller w w'.
Proof.
  revert n w. induction indices as [|i rest IH]; intros n w.
  - exists n, w. repeat split.
  - cbn [clearLoop foldl]. unfold bind at 1, get.
    destruct (w_doc w !! i) as [field|] eqn:Hl.
    + destruct (clearSkips field) eqn:Hs.
      * destruct (IH n w) as (n' & w' & E & Hd & Hf).
        exists n', w'. split; [assumption|]. split; [|assumption].
        rewrite Hd. f_equal. symmetry. apply (alter_fixed _ _ _ field Hl).
        unfold clearElement. now rewrite Hs.
      * destruct (clearAttempt_run i field w Hl Hs) as (w1 & E1 & Hd1 & Hf1).
        unfold bind at 1, try_catch, bind at 1. rewrite E1. cbn [ret].
        destruct (IH (n + 1) w1) as (n' & w' & E & Hd & Hf).
        exists n', w'. split; [assumption|]. split.
        -- now rewrite Hd, Hd1.
        -- eapply sameFiller_trans; eassumption.
    + destruct (IH n w) as (n' & w' & E & Hd & Hf).
      exists n', w'. split; [assumption|]. split; [|assumption].
      rewrite Hd. f_equal. symmetry. now apply alter_none.
Qed.

Lemma foldl_alter_seq {A} (f : A -> A) (n a : nat) (d : list A) (j : nat) :
  foldl (fun d i => alter f i d) d (seq a n) !! j
  = if bool_decide (a <= j < a + n)%nat then f <$> d !! j else d !! j.
Proof.
  revert a d. induction n as [|n IH]; intros a d.
  - simpl. rewrite bool_decide_eq_false_2; [reflexivity | lia].
  - cbn [seq foldl]. rewrite IH.
    destruct (decide (a = j)) as [<-|Hne].
    + rewrite bool_decide_eq_false_2 by lia.
      rewrite bool_decide_eq_true_2 by lia. apply list_lookup_alter_eq.
    + rewrite list_lookup_alter_ne by assumption.
      destruct (decide (S a <= j < S a + n)%nat).
      * rewrite !bool_decide_eq_true_2 by lia. reflexivity.
      * rewrite !bool_decide_eq_false_2 by lia. reflexivity.
Qed.

Lemma foldl_alter_all {A} (f : A -> A) (d : list A) :
  foldl (fun d i => alter f i d) d (seq 0 (length d)) = f <$> d.
Proof.
  apply list_eq. intros j. rewrite foldl_alter_seq, list_lookup_fmap.
  destruct (decide (j < length d)%nat).
  - rewrite bool_decide_eq_true_2 by lia. reflexivity.
  - rewrite bool_decide_eq_false_2 by lia.
    rewrite (lookup_ge_None_2 d j) by lia. reflexivity.
Qed.

(** The document after [clearForms]: every control cleared on its own. *)
Lemma clearForms_run (H : Host) (w : World) :
  exists n w',
    clearForms H w = (Ok (ClearSuccess n), w')
    /\ w_doc w' = clearElement <$> w_doc w.
Proof.
  unfold clearForms, try_catch, bind at 1, get.
  destruct (clearLoop_run (seq 0 (length (w_doc w))) 0 w) as (n & w1 & E & Hd & _).
  unfold bind at 1. rewrite E.
  rewrite foldl_alter_all in Hd.
  exists n. unfold bind, try_catch, fresh, emit, modify, throw, ret.
  destruct (sendFault H (w_tick w1)); eexists; (split; [reflexivity|]); exact Hd.
Qed.

Lemma selectByValue_values (v : string) (os : list SelOption) :
  List.map opt_value (selectByValue v os) = List.map opt_value os.
Proof.
  induction os as [|o os IH]; [reflexivity|]. simpl.
  destruct (opt_value o =? v)%string; simpl.
  - f_equal. rewrite List.map_map. reflexivity.
  - now rewrite IH.
Qed.

Lemma deselect_idem (os : list SelOption) :
  List.map deselect (List.map deselect os) = List.map deselect os.
Proof. rewrite List.map_map. reflexivity. Qed.

Lemma selectByValue_deselected (v : string) (os : list SelOption) :
  selectByValue v (List.map deselect os) = selectByValue v os.
Proof.
  induction os as [|o os IH]; [reflexivity|]. simpl.
  destruct (opt_value o =? v)%string; [now rewrite deselect_idem | now rewrite IH].
Qed.

Lemma selectByValue_idem (v : string) (os : list SelOption) :
  selectByValue v (selectByValue v os) = selectByValue v os.
Proof.
  induction os as [|o os IH]; [reflexivity|]. simpl.
  destruct (opt_value o =? v)%string eqn:E; simpl; rewrite E.
  - now rewrite deselect_idem.
  - now rewrite IH.
Qed.

Lemma existsb_by_values (os os' : list SelOption) :
  List.map opt_value os = List.map opt_value os' ->
  existsb (fun o => Str.isEmpty (opt_value o)) os
  = existsb (fun o => Str.isEmpty (opt_value o)) os'.
Proof.
  revert os'. induction os as [|o os IH]; intros [|o' os'] E;
    try discriminate; [reflexivity|].
  simpl in *. injection E as E1 E2. rewrite E1. f_equal. now apply IH.
Qed.

Lemma deselect_values (os : list SelOption) :
  List.map opt_value (List.map deselect os) = List.map opt_value os.
Proof. rewrite List.map_map. reflexivity. Qed.

Lemma clearSkips_state (f : Element) value checked options antBox outline bg :
  clearSkips (setState f value checked options antBox outline bg) = clearSkips f.
Proof. reflexivity. Qed.

Lemma clearElement_idem (f : Element) :
  clearElement (clearElement f) = clearElement f.
Proof.
  unfold clearElement at 2. destruct (clearSkips f) eqn:Hs.
  - unfold clearElement. now rewrite Hs.
  - cbv zeta.
    destruct ((Str.toLowerCase (typeProp f) =? "checkbox")%string
              || (Str.toLowerCase (typeProp f) =? "radio")%string) eqn:Hc.
    + unfold clearElement, setChecked. rewrite clearSkips_state, Hs.
      change (typeProp (setState _ _ _ _ _ _ _)) with (typeProp f).
      rewrite Hc. reflexivity.
    + destruct (tagLower f =? "select")%string eqn:Ht.
      * destruct (existsb _ (el_options f)) eqn:He.
        -- unfold clearElement, setOptions. rewrite clearSkips_state, Hs.
           change (typeProp (setState _ _ _ _ _ _ _)) with (typeProp f).
           change (tagLower (setState _ _ _ _ _ _ _)) with (tagLower f).
           rewrite Hc, Ht. cbn [el_options setState].
           rewrite (existsb_by_values _ (el_options f)) by apply selectByValue_values.
           rewrite He, selectByValue_idem. reflexivity.
        -- unfold clearElement, setOptions. rewrite clearSkips_state, Hs.
           change (typeProp (setState _ _ _ _ _ _ _)) with (typeProp f).
           change (tagLower (setState _ _ _ _ _ _ _)) with (tagLower f).
           rewrite Hc, Ht. cbn [el_options setState].
           rewrite (existsb_by_values _ (el_options f)) by apply deselect_values.
           rewrite He, deselect_idem. reflexivity.
      * unfold clearElement, setValue. rewrite clearSkips_state, Hs.
        change (typeProp (setState _ _ _ _ _ _ _)) with (typeProp f).
        change (tagLower (setState _ _ _ _ _ _ _)) with (tagLower f).
        rewrite Hc, Ht. reflexivity.
Qed.

Lemma selectedValue_deselected (os : list SelOption) :
  selectedValue (List.map deselect os) = "".
Proof. induction os as [|o os IH]; [reflexivity | exact IH]. Qed.

Lemma selectedValue_selectByValue_empty (os : list SelOption) :
  selectedValue (selectByValue "" os) = "".
Proof.
  induction os as [|o os IH]; [reflexivity|]. simpl.
  destruct (opt_value o =? "")%string eqn:E; simpl.
  - now apply String.eqb_eq in E.
  - exact IH.
Qed.

(** A control that [clearForms] does not pass over is empty afterwards, in
    the sense of [isFieldEmpty]: unchecked, nothing selected, or no text. *)
Lemma clearElement_empty (f : Element) :
  clearSkips f = false -> isFieldEmpty (clearElement f) = true.
Proof.
  intros Hs. unfold clearElement. rewrite Hs. cbv zeta.
  destruct ((Str.toLowerCase (typeProp f) =? "checkbox")%string
            || (Str.toLowerCase (typeProp f) =? "radio")%string) eqn:Hc.
  - unfold isFieldEmpty, setChecked.
    change (typeProp (setState _ _ _ _ _ _ _)) with (typeProp f).
    rewrite Hc. reflexivity.
  - destruct (tagLower f =? "select")%string eqn:Ht.
    + assert (Hsel : forall os,
                fieldValue (setOptions os f) = selectedValue os).
      { intros os. unfold fieldValue, setOptions. cbn [el_tag setState el_options].
        unfold tagLower in Ht. destruct (el_tag f); try discriminate. reflexivity. }
      destruct (existsb _ (el_options f)); unfold isFieldEmpty;
        change (typeProp (setOptions _ f)) with (typeProp f);
        change (tagLower (setOptions _ f)) with (tagLower f);
        rewrite Hc, Ht, Hsel, ?selectedValue_selectByValue_empty,
          ?selectedValue_deselected; reflexivity.
    + unfold isFieldEmpty.
      change (typeProp (setValue _ f)) with (typeProp f).
      change (tagLower (setValue _ f)) with (tagLower f).
      rewrite Hc, Ht.
      assert (Hv : fieldValue (setValue "" f) = "").
      { unfold fieldValue, setValue. cbn [el_tag setState el_value].
        unfold tagLower in Ht. destruct (el_tag f); try reflexivity. discriminate. }
      rewrite Hv. reflexivity.
Qed.


(** ** Progress values *)

Lemma progressOf_eq (p total : Z) :
  0 < total -> progressOf p total = (200 * p + total) / (2 * total).
Proof.
  intros Ht. destruct total as [|t|t]; try lia.
  unfold progressOf, mathRound.
  assert (E : (inject_Z p / inject_Z (Z.pos t) * inject_Z 100 + (1 # 2)
               == Qmake (200 * p + Z.pos t) (2 * t))%Q).
  { unfold Qeq, Qdiv, Qmult, Qplus, Qinv, inject_Z. simpl.
    rewrite ?Pos2Z.inj_mul. ring. }
  rewrite E. reflexivity.
Qed.

Lemma progressOf_mono (p q total : Z) :
  0 < total -> p <= q -> progressOf p total <= progressOf q total.
Proof.
  intros Ht Hpq. rewrite !progressOf_eq by assumption.
  apply Z.div_le_mono; lia.
Qed.

Lemma progressOf_full (total : Z) : 0 < total -> progressOf total total = 100.
Proof.
  intros Ht. rewrite progressOf_eq by assumption.
  symmetry. apply Z.div_unique with (r := total); lia.
Qed.

(** The emitted value is the percentage nearest to [100 * p / total]. *)
Lemma progressOf_nearest (p total : Z) :
  0 < total ->
  - total <= 2 * (100 * p - total * progressOf p total) < total.
Proof.
  intros Ht. rewrite progressOf_eq by assumption.
  pose proof (Z.div_mod (200 * p + total) (2 * total) ltac:(lia)) as Hd.
  pose proof (Z.mod_pos_bound (200 * p + total) (2 * total) ltac:(lia)) as Hm.
  lia.
Qed.

(** ** The fill loop, one field at a time *)

Lemma progressValues_app (new old : list Effect) :
  progressValues (new ++ old)
  = (progressValues old ++ progressValues new)%list.
Proof. unfold progressValues. now rewrite rev_app_distr, omap_app. Qed.

Lemma progressValues_quiet (new : list Effect) :
  Forall notProgress new -> progressValues new = [].
Proof.
  unfold progressValues. intros Hq. apply Forall_rev in Hq.
  induction Hq as [|e l He _ IH]; [reflexivity|].
  cbn [omap list_omap]. destruct e; try contradiction; exact IH.
Qed.

Lemma progressValues_cons (e : Effect) (l : list Effect) :
  progressValues (e :: l)
  = (progressValues l
       ++ match e with EProgress p => [p] | _ => [] end)%list.
Proof.
  change (e :: l) with ([e] ++ l)%list. rewrite progressValues_app.
  f_equal. now destruct e.
Qed.

Lemma updSession_run (f : FillSession -> FillSession) (w : World) (s : FillSession) :
  w_fillSession w = Some s ->
  updSession f w = (Ok tt, setSession (Some (f s)) w).
Proof. intros Hs. unfold updSession, bind, get. now rewrite Hs. Qed.

Section FillLoop.

Variable H : Host.
Variable fillOptions : FillOptions.
Variable totalFields : Z.

Lemma fillStep_spec (fieldData : FieldData) (w : World) (s : FillSession) :
  w_fillSession w = Some s ->
  exists w' s' new,
    fillStep H fillOptions totalFields fieldData w = (Ok tt, w')
    /\ w_fillSession w' = Some s'
    /\ w_settings w' = w_settings w
    /\ w_detectedFields w' = w_detectedFields w
    /\ w_trace w' = (new ++ w_trace w)%list
    /\ StepFacts (stepKindOf H fillOptions fieldData w) totalFields fieldData w w' s s' new.
Proof.
  intros Hs. unfold fillStep, stepKindOf, bind at 1, get.
  destruct (negb (fillableNow w fieldData)) eqn:Hf.
  - rewrite (updSession_run _ _ _ Hs).
    exists (setSession (Some (bumpSkipped s)) w), (bumpSkipped s), [].
    repeat split.
  - unfold try_catch, fillAttempt, bind at 1.
    pose proof (Quiet_fillField H fieldData fillOptions w) as Hq.
    destruct (fillField H fieldData fillOptions w) as [[[]|e] w1] eqn:Ef;
      cbn [snd] in Hq; destruct Hq as [Hsame (new1 & Htr & Hnp)];
      destruct Hsame as (_ & Hset & _ & Hinv & Hsess & Hproc).
    + (* the field is written *)
      unfold bind at 1, modify. unfold bind at 1.
      rewrite (updSession_run bumpProcessed _ s)
        by (cbn [w_fillSession setProcessed]; congruence).
      unfold bind at 1, get. unfold bind at 1, sendProgress, bind at 1, fresh.
      cbn [w_tick setSession setProcessed].
      destruct (sendFault H (w_tick w1)) as [e|] eqn:Esend.
      * unfold throw.
        rewrite (updSession_run _ _ (bumpProcessed s)) by reflexivity.
        eexists _, _, new1. split; [reflexivity|].
        cbn [w_fillSession w_settings w_detectedFields w_trace
             setSession setTick setProcessed w_processedFields].
        repeat split;
          cbn [w_processedFields setSession setTick setProcessed];
          try congruence.
        now apply progressValues_quiet.
      * unfold emit, modify.
        cbn [w_processedFields setSession setTick setProcessed].
        destruct (0 <? fo_fillDelay fillOptions).
        -- unfold delay, emit, modify.
           eexists _, _,
             (ESleep (fo_fillDelay fillOptions)
                :: EProgress (progressOf (w_processedFields w1 + 1) totalFields)
                :: new1).
           split; [reflexivity|].
           cbn [w_fillSession w_settings w_detectedFields w_trace
                setSession setTick setProcessed setTrace w_processedFields].
           repeat split;
             cbn [w_processedFields setSession setTick setProcessed setTrace];
             try congruence; [now rewrite Htr|].
           rewrite !progressValues_cons, (progressValues_quiet new1 Hnp), Hproc.
           reflexivity.
        -- unfold ret.
           eexists _, _,
             (EProgress (progressOf (w_processedFields w1 + 1) totalFields)
                :: new1).
           split; [reflexivity|].
           cbn [w_fillSession w_settings w_detectedFields w_trace
                setSession setTick setProcessed setTrace w_processedFields].
           repeat split;
             cbn [w_processedFields setSession setTick setProcessed setTrace];
             try congruence; [now rewrite Htr|].
           rewrite !progressValues_cons, (progressValues_quiet new1 Hnp), Hproc.
           reflexivity.
    + (* the write raised *)
      rewrite (updSession_run _ _ s) by congruence.
      eexists _, _, new1. split; [reflexivity|].
      cbn [w_fillSession w_settings w_detectedFields w_trace setSession
           w_processedFields].
      repeat split; cbn [w_processedFields setSession]; try congruence.
      now apply progressValues_quiet.
Qed.

Lemma stepKindOf_healthy (fieldData : FieldData) (w : World) (e : string) :
  (forall t, sendFault H t = None) ->
  stepKindOf H fillOptions fieldData w <> StepSendFailed e.
Proof.
  intros Hok. unfold stepKindOf.
  destruct (negb (fillableNow w fieldData)); [discriminate|].
  destruct (fillField H fieldData fillOptions w) as [[[]|e'] w1];
    [rewrite Hok|]; discriminate.
Qed.

Lemma fillLoop_spec (fields : list FieldData) (w : World) (s : FillSession) :
  w_fillSession w = Some s ->
  exists w' s' new ks ex,
    fillLoop H fillOptions totalFields fields w = (Ok tt, w')
    /\ w_fillSession w' = Some s'
    /\ w_settings w' = w_settings w
    /\ w_detectedFields w' = w_detectedFields w
    /\ w_trace w' = (new ++ w_trace w)%list
    /\ LoopFacts H totalFields fields w w' s s' new ks ex.
Proof.
  revert w s. induction fields as [|fieldData rest IH]; intros w s Hs.
  - exists w, s, [], [], [].
    do 5 (split; [first [reflexivity | assumption]|]).
    split; cbn [length]; try lia; try (now constructor).
    + now rewrite app_nil_r.
    + intros _. now rewrite Z.sub_diag.
  - destruct (fillStep_spec fieldData w s Hs)
      as (w1 & s1 & new1 & E1 & Hs1 & Hset1 & Hinv1 & Htr1 & F1).
    destruct (IH w1 s1 Hs1)
      as (w' & s' & new2 & ks2 & ex2 & E2 & Hs2 & Hset2 & Hinv2 & Htr2 & F2).
    cbn [fillLoop]. unfold bind at 1. rewrite E1.
    destruct F1 as [Hp1 Hk1 He1 Hv1].
    destruct F2 as [He2 Hv2 Hsort2 Hrange2 Hp2 Hk2 Hlo2 Hup2 Hcomp2 Hpart2].
    pose proof (stepKindOf_healthy fieldData w) as Hhealthy.
    destruct (stepKindOf H fillOptions fieldData w) as [| |e|e] eqn:K.
    + (* skipped *)
      exists w', s', (new2 ++ new1)%list, ks2, ex2.
      split; [assumption|]. split; [assumption|]. split; [congruence|].
      split; [congruence|]. split; [rewrite Htr2, Htr1; now rewrite app_assoc|].
      split; rewrite ?Hp1 in *; try assumption; try congruence;
        cbn [length] in *; try lia.
      * rewrite progressValues_app, Hv1, Hv2. reflexivity.
      * intros Hok. specialize (Hpart2 Hok). lia.
    + (* filled *)
      exists w', s', (new2 ++ new1)%list, (w_processedFields w + 1 :: ks2), ex2.
      split; [assumption|]. split; [assumption|]. split; [congruence|].
      split; [congruence|]. split; [rewrite Htr2, Htr1; now rewrite app_assoc|].
      split; rewrite ?Hp1 in *; try congruence; cbn [length] in *; try lia.
      * rewrite progressValues_app, Hv1, Hv2. reflexivity.
      * constructor; [assumption|].
        eapply Forall_impl; [exact Hrange2|]. cbv beta. intros k Hk. lia.
      * constructor; [lia|].
        eapply Forall_impl; [exact Hrange2|]. cbv beta. intros k Hk. lia.
      * intros Hex. rewrite (Hcomp2 Hex).
        rewrite (seqZ_cons (w_processedFields w + 1)) by lia.
        f_equal. f_equal; lia.
      * intros Hok. specialize (Hpart2 Hok). lia.
    + (* the write raised *)
      exists w', s', (new2 ++ new1)%list, ks2,
        ({| fe_field := fd_name fieldData; fe_error := e |} :: ex2).
      split; [assumption|]. split; [assumption|]. split; [congruence|].
      split; [congruence|]. split; [rewrite Htr2, Htr1; now rewrite app_assoc|].
      split; rewrite ?Hp1 in *; try assumption; try congruence;
        cbn [length] in *; try lia.
      * rewrite He2, He1. now rewrite <- app_assoc.
      * rewrite progressValues_app, Hv1, Hv2. reflexivity.
      * intros Hok. specialize (Hpart2 Hok). lia.
    + (* the progress message raised *)
      exists w', s', (new2 ++ new1)%list, ks2,
        ({| fe_field := fd_name fieldData; fe_error := e |} :: ex2).
      split; [assumption|]. split; [assumption|]. split; [congruence|].
      split; [congruence|]. split; [rewrite Htr2, Htr1; now rewrite app_assoc|].
      split; rewrite ?Hp1 in *; try congruence; cbn [length] in *; try lia.
      * rewrite He2, He1. now rewrite <- app_assoc.
      * rewrite progressValues_app, Hv1, Hv2. reflexivity.
      * eapply Forall_impl; [exact Hrange2|]. cbv beta. intros k Hk. lia.
      * intros Hok. exfalso. now apply (Hhealthy e Hok).
Qed.

End FillLoop.

(** ** The inventory built by the scan *)

Lemma isFieldFillable_empty (settings : Settings) (field : Element) :
  isFieldFillable settings field = true -> isFieldEmpty field = true.
Proof.
  unfold isFieldFillable. destruct (isFieldEmpty field); [reflexivity|].
  cbn [negb].
  repeat match goal with
         | |- context [if ?c then false else _] => destruct c
         end; discriminate.
Qed.

Lemma analyzeField_fillable (settings : Settings) (i : nat) (field : Element)
    (fd : FieldData) :
  analyzeField settings i field = Some fd ->
  isFieldFillable settings field = true /\ fd_element fd = i
  /\ fd_name fd = getFieldIdentifier field
  /\ fd_detectedType fd = detectFieldType field.
Proof.
  unfold analyzeField. destruct (isFieldFillable settings field); [|discriminate].
  cbn [negb]. intros E. injection E as <-. repeat split.
Qed.

Lemma analyzeAll_fillable (settings : Settings) (doc : list Element)
    (indices : list nat) (fd : FieldData) :
  fd ∈ analyzeAll settings doc indices ->
  exists field, doc !! fd_element fd = Some field
                /\ isFieldFillable settings field = true.
Proof.
  unfold analyzeAll. rewrite list_elem_of_omap. intros (i & _ & Hi).
  destruct (doc !! i) as [field|] eqn:El; [|discriminate].
  destruct (analyzeField_fillable _ _ _ _ Hi) as (Hf & <- & _).
  eauto.
Qed.

(** Every field of a fresh inventory is fillable and empty: the scan keeps
    nothing else. *)
Lemma scanPass_fillable (w : World) (fd : FieldData) :
  fd ∈ w_detectedFields (scanPass w) -> fillableNow (scanPass w) fd = true.
Proof.
  unfold scanPass. cbn [w_detectedFields setInventory].
  rewrite list_elem_of_In, in_concat. intros (fields & Hfs & Hin).
  apply in_map_iff in Hfs. destruct Hfs as (fm & <- & Hfm).
  assert (Hsrc : exists indices,
             fm_fields fm = analyzeAll (w_settings w) (w_doc w) indices).
  { apply in_app_or in Hfm. destruct Hfm as [Hfm|Hfm].
    - apply filter_In in Hfm. destruct Hfm as [Hfm _].
      apply list_elem_of_In, list_elem_of_lookup in Hfm. destruct Hfm as (k & Hk).
      rewrite list_lookup_imap in Hk.
      destruct (w_forms w !! k) as [form|]; [|discriminate].
      injection Hk as <-. eexists. reflexivity.
    - destruct (analyzeAll (w_settings w) (w_doc w) (findStandaloneFields w))
        as [|x xs] eqn:Ea; [contradiction|].
      destruct Hfm as [<-|[]]. eexists. cbn [fm_fields]. symmetry. exact Ea. }
  destruct Hsrc as (indices & Hsrc). rewrite Hsrc in Hin.
  apply list_elem_of_In, analyzeAll_fillable in Hin.
  destruct Hin as (field & Hl & Hf).
  unfold fillableNow. cbn [w_doc w_settings setInventory]. rewrite Hl, Hf.
  now rewrite (isFieldFillable_empty _ _ Hf).
Qed.

Lemma filter_all {A} (p : A -> bool) (l : list A) :
  (forall x, In x l -> p x = true) -> List.filter p l = l.
Proof.
  induction l as [|x l IH]; intros Hall; [reflexivity|]. simpl.
  rewrite (Hall x) by now left. f_equal. apply IH. intros y Hy. apply Hall. now right.
Qed.

(** ** A fill session as a whole *)

Lemma fillForms_run (H : Host) (options : Options) (w : World) :
  let w0 := fillEntry H w in
  let fillOptions := mergeOptions (w_settings w) options in
  fillForms H options w
  = if fillTotal w0 =? 0 then
      (Ok (FillSuccess {| fieldsProcessed := 0;
                          fieldsSkipped := Z.of_nat (length (w_detectedFields w0));
                          duration := now H (w_tick w0) - now H (w_tick w);
                          errors := [] |}),
       setTick (S (w_tick w0)) w0)
    else
      match fillLoop H fillOptions (fillTotal w0) (w_detectedFields w0) w0 with
      | (Ok _, w1) =>
          match w_fillSession w1 with
          | Some session =>
              (Ok (FillSuccess {| fieldsProcessed := w_processedFields w1;
                                  fieldsSkipped := fs_fieldsSkipped session;
                                  duration := now H (w_tick w1) - now H (w_tick w);
                                  errors := fs_errors session |}),
               setTick (S (w_tick w1)) w1)
          | None =>
              (Ok (FillFailure "TypeError: Cannot read properties of null"),
               setTick (S (w_tick w1)) w1)
          end
      | (Throw e, w1) => (Ok (FillFailure e), w1)
      end.
Proof.
  cbv zeta. unfold fillForms, try_catch.
  unfold bind at 1, fresh. unfold bind at 1, modify. unfold bind at 1, get.
  unfold bind at 1, scanForms, try_catch, bind at 1, modify.
  unfold bind at 1, get.
  cbn [negb andb]. rewrite andb_false_r. unfold scanCounts, bind at 1, get, ret.
  unfold bind at 1. unfold bind at 1.
  fold (fillEntry H w). fold (fillTotal (fillEntry H w)).
  destruct (fillTotal (fillEntry H w) =? 0).
  - reflexivity.
  - unfold bind at 1.
    destruct (fillLoop H _ _ _ _) as [[[]|e] w1]; [|reflexivity].
    unfold bind at 1, fresh. unfold bind at 1, get.
    destruct (w_fillSession _); reflexivity.
Qed.

Lemma fillEntry_session (H : Host) (w : World) :
  w_fillSession (fillEntry H w)
  = Some {| fs_startTime := now H (w_tick w); fs_fieldsProcessed := 0;
            fs_fieldsSkipped := 0; fs_errors := [] |}
  /\ w_processedFields (fillEntry H w) = 0
  /\ w_trace (fillEntry H w) = w_trace w
  /\ w_detectedFields (fillEntry H w) = w_detectedFields (scanPass w).
Proof. repeat split. Qed.

(** The count taken before the loop is the size of the inventory. *)
Lemma fillTotal_entry (H : Host) (w : World) :
  fillTotal (fillEntry H w)
  = Z.of_nat (length (w_detectedFields (fillEntry H w))).
Proof.
  unfold fillTotal. f_equal. f_equal. apply filter_all. intros fd Hin.
  unfold fillEntry in *.
  set (ws := setSession _ _) in *.
  change (fillableNow (setProcessed 0 (scanPass ws)) fd)
    with (fillableNow (scanPass ws) fd).
  apply scanPass_fillable. now apply list_elem_of_In.
Qed.

(** Every call of [fillForms] returns a summary; this is how it is made. *)
Lemma fillForms_summary (H : Host) (options : Options) (w : World) :
  let w0 := fillEntry H w in
  let N := Z.of_nat (length (w_detectedFields w0)) in
  exists summary w' new ks,
    fillForms H options w = (Ok (FillSuccess summary), w')
    /\ w_trace w' = (new ++ w_trace w)%list
    /\ progressValues new = List.map (fun k => progressOf k N) ks
    /\ StronglySorted Z.lt ks
    /\ Forall (fun k => 1 <= k <= fieldsProcessed summary) ks
    /\ 0 <= fieldsProcessed summary
    /\ 0 <= fieldsSkipped summary
    /\ fieldsProcessed summary + fieldsSkipped summary <= N
    /\ N <= fieldsProcessed summary + fieldsSkipped summary
            + Z.of_nat (length (errors summary))
    /\ (errors summary = [] -> ks = seqZ 1 (fieldsProcessed summary))
    /\ ((forall t, sendFault H t = None) ->
        fieldsProcessed summary + fieldsSkipped summary
        + Z.of_nat (length (errors summary)) = N)
    /\ (N = 0 -> fieldsProcessed summary = 0 /\ errors summary = []).
Proof.
  cbv zeta. rewrite fillForms_run. cbv zeta. rewrite fillTotal_entry.
  destruct (fillEntry_session H w) as (Hs & Hp & Htr & _).
  set (w0 := fillEntry H w) in *.
  set (N := Z.of_nat (length (w_detectedFields w0))).
  destruct (N =? 0) eqn:EN.
  - apply Z.eqb_eq in EN.
    eexists _, _, [], []. split; [reflexivity|].
    cbn [w_trace setTick fieldsProcessed fieldsSkipped errors length].
    repeat split; try assumption; try constructor; try lia.
  - apply Z.eqb_neq in EN.
    destruct (fillLoop_spec H (mergeOptions (w_settings w) options) N
                (w_detectedFields w0) w0 _ Hs)
      as (w1 & s1 & new & ks & ex & E & Hs1 & _ & _ & Htr1 & F).
    rewrite E, Hs1. destruct F as [He Hv Hsort Hrange Hp1 Hk1 Hlo Hup Hcomp Hpart].
    rewrite Hp in *. cbn [fs_errors fs_fieldsSkipped app] in *.
    eexists _, _, new, ks. split; [reflexivity|].
    cbn [w_trace setTick fieldsProcessed fieldsSkipped errors].
    rewrite He. fold N in Hlo, Hup, Hpart.
    repeat split; try assumption; try lia.
    all: try (rewrite Htr1, Htr; reflexivity).
    all: try (eapply Forall_impl; [exact Hrange|]; cbv beta; intros k Hk; lia).
    all: try (intros Hex; rewrite (Hcomp Hex); f_equal; lia).
    all: try (intros Hok; specialize (Hpart Hok); lia).
Qed.

Lemma sorted_map_mono (f : Z -> Z) (ks : list Z) :
  (forall a b, a <= b -> f a <= f b) ->
  StronglySorted Z.lt ks -> StronglySorted Z.le (List.map f ks).
Proof.
  intros Hf Hs. induction Hs as [|k ks Hs IH Hall]; [constructor|].
  simpl. constructor; [assumption|].
  apply Forall_map. eapply Forall_impl; [exact Hall|].
  cbv beta. intros b Hb. apply Hf. lia.
Qed.

Lemma last_map_seqZ (f : Z -> Z) (n : Z) :
  0 < n -> last (List.map f (seqZ 1 n)) = Some (f n).
Proof.
  intros Hn. replace n with ((n - 1) + 1) at 1 by lia.
  rewrite seqZ_app by lia. rewrite List.map_app. simpl.
  replace (1 + (n - 1)) with n by lia.
  change (List.map f (seqZ n 1)) with [f n]. apply last_snoc.
Qed.




(** Why the last value is promised only when nothing was skipped: a control
    listed twice is counted twice, filled at its first turn and skipped at
    its second, and the session ends at 50 with no error. *)
Example fill_progress_listed_twice :
  fillTotal (fillEntry Ref.host nestedForms) = 2
  /\ fst (fillForms Ref.host noOptions nestedForms)
     = Ok (FillSuccess {| fieldsProcessed := 1; fieldsSkipped := 1;
                          duration := 0; errors := [] |})
  /\ progressValues (w_trace (snd (fillForms Ref.host noOptions nestedForms)))
     = [50].
Proof. repeat split; vm_compute; reflexivity. Qed.




Lemma fillLoop_app (H : Host) (fo : FillOptions) (total : Z)
    (pre post : list FieldData) (w w1 : World) :
  fillLoop H fo total pre w = (Ok tt, w1) ->
  fillLoop H fo total (pre ++ post)%list w = fillLoop H fo total post w1.
Proof.
  revert w. induction pre as [|fd pre IH]; intros w E.
  - cbn in E. unfold ret in E. now injection E as <-.
  - cbn [fillLoop app] in *. unfold bind in *.
    destruct (fillStep H fo total fd w) as [[[]|e] w2]; [|discriminate].
    now apply IH.
Qed.

(** C5.  A fill session always returns a summary with success true.  A
    field whose fill step raises is recorded in the error list under its
    identifier with the message, the counters of processed and skipped
    fields stay as they were, and the loop goes on with the remaining
    fields.  With an empty set of fillable fields the summary reports zero
    processed fields and no errors. *)
Theorem fill_partial_failure (H : Host) (options : Options) (w : World) :
  let w0 := fillEntry H w in
  let fillOptions := mergeOptions (w_settings w) options in
  let N := fillTotal w0 in
  exists summary w',
    fillForms H options w = (Ok (FillSuccess summary), w')
    /\ (N = 0 -> fieldsProcessed summary = 0 /\ errors summary = [])
    /\ (forall pre fieldData post e w1 w2,
          w_detectedFields w0 = (pre ++ fieldData :: post)%list ->
          fillLoop H fillOptions N pre w0 = (Ok tt, w1) ->
          fillableNow w1 fieldData = true ->
          fillField H fieldData fillOptions w1 = (Throw e, w2) ->
          exists w3 wEnd s1 s3 sEnd,
            fillStep H fillOptions N fieldData w1 = (Ok tt, w3)
            /\ w_fillSession w1 = Some s1
            /\ w_fillSession w3 = Some s3
            /\ fs_errors s3
               = (fs_errors s1
                    ++ [{| fe_field := fd_name fieldData; fe_error := e |}])%list
            /\ w_processedFields w3 = w_processedFields w1
            /\ fs_fieldsSkipped s3 = fs_fieldsSkipped s1
            /\ fillLoop H fillOptions N post w3 = (Ok tt, wEnd)
            /\ fillLoop H fillOptions N (w_detectedFields w0) w0 = (Ok tt, wEnd)
            /\ w_fillSession wEnd = Some sEnd
            /\ errors summary = fs_errors sEnd
            /\ In {| fe_field := fd_name fieldData; fe_error := e |}
                  (errors summary)).
Proof.
  cbv zeta.
  destruct (fillForms_summary H options w)
    as (summary & w' & new & ks & E & _ & _ & _ & _ & _ & _ & _ & _ & _ & _ & Hzero).
  cbv zeta in *.
  exists summary, w'. split; [assumption|].
  split; [rewrite fillTotal_entry; assumption|].
  intros pre fieldData post e w1 w2 Hinv Hpre Hfill Hthrow.
  destruct (fillEntry_session H w) as (Hs0 & _).
  set (w0 := fillEntry H w) in *.
  set (fo := mergeOptions (w_settings w) options) in *.
  set (N := fillTotal w0) in *.
  (* the state when the field is reached *)
  destruct (fillLoop_spec H fo N pre w0 _ Hs0)
    as (w1' & s1 & new1 & ks1 & ex1 & E1 & Hs1 & _).
  rewrite Hpre in E1. injection E1 as <-.
  (* the step on the field *)
  destruct (fillStep_spec H fo N fieldData w1 s1 Hs1)
    as (w3 & s3 & new3 & E3 & Hs3 & _ & _ & _ & F3).
  assert (K : stepKindOf H fo fieldData w1 = StepFillFailed e).
  { unfold stepKindOf. now rewrite Hfill, Hthrow. }
  rewrite K in F3. destruct F3 as [Hp3 Hk3 He3 _].
  (* the rest of the loop *)
  destruct (fillLoop_spec H fo N post w3 s3 Hs3)
    as (wEnd & sEnd & newEnd & ksEnd & ex & EEnd & HsEnd & _ & _ & _ & FEnd).
  assert (Hall : fillLoop H fo N (w_detectedFields w0) w0 = (Ok tt, wEnd)).
  { rewrite Hinv, (fillLoop_app _ _ _ _ _ _ _ Hpre).
    cbn [fillLoop]. unfold bind. now rewrite E3. }
  assert (Hsum : errors summary = fs_errors sEnd).
  { rewrite fillForms_run in E. cbv zeta in E. fold w0 fo N in E.
    assert (HN : N <> 0).
    { unfold N, w0. rewrite fillTotal_entry. fold w0. rewrite Hinv, length_app.
      cbn [length]. lia. }
    apply Z.eqb_neq in HN. rewrite HN, Hall, HsEnd in E.
    injection E as Esum Ew. rewrite <- Esum. reflexivity. }
  exists w3, wEnd, s1, s3, sEnd.
  repeat split; try assumption.
  destruct FEnd as [HeEnd _ _ _ _ _ _ _ _ _].
  rewrite Hsum, HeEnd, He3.
  apply in_or_app. left. apply in_or_app. right. now left.
Qed.

Lemma fill_partial_failure_witness :
  exists summary,
    fst (fillForms Ref.host noOptions withUpload) = Ok (FillSuccess summary)
    /\ In {| fe_field := "resume"; fe_error := fileValueError |}
          (errors summary).
Proof.
  destruct (fill_partial_failure Ref.host noOptions withUpload)
    as (summary & w' & E & _ & Hrec).
  exists summary. split; [rewrite E; reflexivity|].
  pose (w0 := fillEntry Ref.host withUpload).
  pose (fo := mergeOptions (w_settings withUpload) noOptions).
  pose (inventory := w_detectedFields w0).
  pose (w1 := snd (fillLoop Ref.host fo (fillTotal w0) (firstn 1 inventory) w0)).
  destruct (inventory !! 1%nat) as [fieldData|] eqn:Efd; [|vm_compute in Efd; discriminate].
  destruct (Hrec (firstn 1 inventory) fieldData [] fileValueError w1
              (snd (fillField Ref.host fieldData fo w1)))
    as (w3 & wEnd & s1 & s3 & sEnd & _ & _ & _ & _ & _ & _ & _ & _ & _ & _ & Hin).
  - vm_compute in Efd. injection Efd as <-. vm_compute. reflexivity.
  - vm_compute. reflexivity.
  - vm_compute in Efd. injection Efd as <-. vm_compute. reflexivity.
  - vm_compute in Efd. injection Efd as <-. vm_compute. reflexivity.
  - vm_compute in Efd. injection Efd as <-. exact Hin.
Defined.

(** ** The skipHidden option *)

Lemma fillLoop_skipHidden (H : Host) (settings : Settings) (o : Options)
    (b : option bool) (total : Z) (fields : list FieldData) (w : World) :
  fillLoop H (mergeOptions settings (withSkipHidden b o)) total fields w
  = fillLoop H (mergeOptions settings o) total fields w.
Proof.
  revert w. induction fields as [|fd rest IH]; intros w; [reflexivity|].
  cbn [fillLoop]. unfold bind.
  change (fillStep H (mergeOptions settings (withSkipHidden b o)) total fd w)
    with (fillStep H (mergeOptions settings o) total fd w).
  destruct (fillStep H (mergeOptions settings o) total fd w) as [[[]|e] w1];
    [apply IH | reflexivity].
Qed.

(** The [skipHidden] entry of the options has no effect on a fill: the
    fillability predicate reads [this.settings.skipHiddenFields], and the
    merged options are consulted for the highlight and the delay only. *)
Lemma fillForms_ignores_skipHidden (H : Host) (o : Options) (b : option bool)
    (w : World) :
  fillForms H (withSkipHidden b o) w = fillForms H o w.
Proof.
  rewrite !fillForms_run. cbv zeta.
  destruct (fillTotal (fillEntry H w) =? 0); [reflexivity|].
  now rewrite fillLoop_skipHidden.
Qed.

(** C3, where the code departs from it.  With the stored setting
    skipHiddenFields on, a fill called with skipHidden false still leaves
    the hidden field out; with the stored setting off, a fill called with
    skipHidden true still fills the hidden field. *)
Theorem fill_skipHidden_option_ignored :
  (skipHiddenFields defaultSettings = true
   /\ fst (fillForms Ref.host (withSkipHidden (Some false) noOptions)
             (Ref.page defaultSettings [hiddenNick]))
      = Ok (FillSuccess {| fieldsProcessed := 0; fieldsSkipped := 0;
                           duration := 0; errors := [] |})
   /\ List.map fieldValue
        (w_doc (snd (fillForms Ref.host (withSkipHidden (Some false) noOptions)
                       (Ref.page defaultSettings [hiddenNick]))))
      = [""])
  /\ (skipHiddenFields showHiddenSettings = false
      /\ fst (fillForms Ref.host (withSkipHidden (Some true) noOptions)
                (Ref.page showHiddenSettings [hiddenNick]))
         = Ok (FillSuccess {| fieldsProcessed := 1; fieldsSkipped := 0;
                              duration := 0; errors := [] |})
      /\ List.map fieldValue
           (w_doc (snd (fillForms Ref.host (withSkipHidden (Some true) noOptions)
                          (Ref.page showHiddenSettings [hiddenNick]))))
         = ["Sample Text"]).
Proof. repeat split; vm_compute; reflexivity. Qed.

(** ** Classification: defaults and ranges *)

(** X1.  A control none of whose signals (name, id, placeholder,
    autocomplete, class, labels) contains a keyword of a rule is classified
    by its tag and type alone: the explicit types as in the first six rules,
    a textarea as a paragraph, a select, a checkbox and a radio button as
    themselves, and everything else as text. *)
Theorem detect_without_keywords (f : Element) :
  Str.testAny ruleKeywords (allTextOf f) = false ->
  detectFieldType f = structuralKind f.
Proof.
  unfold ruleKeywords. intros Hk. split_tests.
  unfold detectFieldType, structuralKind, typeProp, tagLower.
  repeat match goal with
         | E : Str.testAny _ _ = false |- _ => rewrite E; clear E
         end.
  destruct (el_tag f) as [[]| |[]];
    try match goal with
        | |- context [Str.testAny ?l ?s] =>
            generalize (Str.testAny l s); intros []
        end;
    vm_compute; reflexivity.
Qed.

Lemma detect_without_keywords_witness :
  detectFieldType (blankInput TyCheckbox) = "checkbox".
Proof.
  apply (detect_without_keywords (blankInput TyCheckbox)). reflexivity.
Defined.

Lemma In_if {A} (c : bool) (a b : A) (l : list A) :
  In a l -> In b l -> In (if c then a else b) l.
Proof. now destruct c. Qed.

(** X2.  Whatever the control, its classification is one of the
    twenty-three semantic kinds. *)
Theorem detectFieldType_range (f : Element) :
  In (detectFieldType f) semanticKinds.
Proof.
  unfold detectFieldType. cbv zeta.
  repeat (apply In_if); unfold semanticKinds; cbn [In]; tauto.
Qed.

Lemma semanticToBase_values (kind base : string) :
  semanticToBase !! kind = Some base ->
  base = "text" \/ base = "textarea" \/ base = "tel".
Proof.
  intros E. apply elem_of_list_to_map_2 in E.
  repeat (apply elem_of_cons in E; destruct E as [E|E];
          [injection E as _ ->; tauto|]).
  now apply elem_of_nil in E.
Qed.


(** ** The inventory of a scan *)

Lemma isFieldFillable_facts (settings : Settings) (field : Element) :
  isFieldFillable settings field = true ->
  detectFieldType field <> "date"
  /\ default false (enabledFieldTypes settings
                      !! getBaseType field (detectFieldType field)) = true
  /\ (skipHiddenFields settings = true -> isHidden field = false)
  /\ isCaptcha field = false
  /\ el_disabled field = false
  /\ propReadOnly field = false
  /\ el_noAutofill field = false
  /\ isFieldEmpty field = true.
Proof.
  unfold isFieldFillable. cbv zeta.
  destruct (String.eqb_spec (detectFieldType field) "date") as [|Hd];
    [discriminate|].
  destruct (default false _); [|discriminate].
  destruct (skipHiddenFields settings), (isHidden field); try discriminate;
    destruct (isCaptcha field); try discriminate;
    destruct (el_disabled field); try discriminate;
    destruct (propReadOnly field); try discriminate;
    destruct (el_noAutofill field); try discriminate;
    destruct (isFieldEmpty field); try discriminate;
    intros _; repeat split; congruence.
Qed.

Lemma getFieldIdentifier_nonempty (field : Element) :
  getFieldIdentifier field <> "".
Proof.
  unfold getFieldIdentifier.
  destruct (Str.isEmpty (el_name field)) eqn:E1; cbn [negb].
  - destruct (Str.isEmpty (el_id field)) eqn:E2; cbn [negb].
    + destruct (Str.isEmpty (el_placeholder field)) eqn:E3; cbn [negb].
      * discriminate.
      * intros E. now rewrite E in E3.
    + intros E. now rewrite E in E2.
  - intros E. now rewrite E in E1.
Qed.

(** The fields of a listed form or group come from [analyzeAll]. *)
Lemma scanPass_source (w : World) (fm : FormData) :
  fm ∈ w_detectedForms (scanPass w) ->
  fm_fields fm <> []
  /\ exists indices,
       fm_fields fm = analyzeAll (w_settings w) (w_doc w) indices.
Proof.
  unfold scanPass. cbn [w_detectedForms setInventory].
  rewrite elem_of_app. intros [Hfm|Hfm].
  - apply list_elem_of_In, filter_In in Hfm. destruct Hfm as [Hfm Hne].
    split; [destruct (fm_fields fm); [discriminate|discriminate]|].
    apply list_elem_of_In, list_elem_of_lookup in Hfm. destruct Hfm as (k & Hk).
    rewrite list_lookup_imap in Hk.
    destruct (w_forms w !! k) as [form|]; [|discriminate].
    injection Hk as <-. eexists. reflexivity.
  - destruct (analyzeAll (w_settings w) (w_doc w) (findStandaloneFields w))
      as [|x xs] eqn:Ea; [now apply elem_of_nil in Hfm|].
    apply list_elem_of_singleton in Hfm. subst fm. cbn [fm_fields].
    split; [discriminate|]. eexists. symmetry. exact Ea.
Qed.

Lemma scanPass_fields (w : World) (fd : FieldData) :
  fd ∈ w_detectedFields (scanPass w) <->
  exists fm, fm ∈ w_detectedForms (scanPass w) /\ fd ∈ fm_fields fm.
Proof.
  unfold scanPass. cbn [w_detectedFields w_detectedForms setInventory].
  rewrite list_elem_of_In, in_concat. split.
  - intros (fields & Hfs & Hin). apply in_map_iff in Hfs.
    destruct Hfs as (fm & <- & Hfm). exists fm.
    split; now apply list_elem_of_In.
  - intros (fm & Hfm & Hin). exists (fm_fields fm). split.
    + apply in_map. now apply list_elem_of_In.
    + now apply list_elem_of_In.
Qed.

(** A listed field is the analysis of the control it points at. *)
Lemma scanPass_listed (w : World) (fd : FieldData) :
  fd ∈ w_detectedFields (scanPass w) ->
  exists field,
    w_doc w !! fd_element fd = Some field
    /\ analyzeField (w_settings w) (fd_element fd) field = Some fd
    /\ isFieldFillable (w_settings w) field = true.
Proof.
  rewrite scanPass_fields. intros (fm & Hfm & Hin).
  destruct (scanPass_source w fm Hfm) as (_ & indices & Hsrc).
  rewrite Hsrc in Hin. unfold analyzeAll in Hin.
  apply list_elem_of_omap in Hin. destruct Hin as (i & _ & Hi).
  destruct (w_doc w !! i) as [field|] eqn:El; [|discriminate].
  destruct (analyzeField_fillable _ _ _ _ Hi) as (Hf & <- & _).
  exists field. now repeat split.
Qed.

(** X4.  A scan lists nothing but controls of the document that pass
    [isFieldFillable]: each record points at an existing control that is
    empty, enabled, writable, not a captcha, not opted out, not of the date
    kind and, when hidden controls are to be skipped, visible; the record
    carries the control's identifier, which is never empty, and its
    classification. *)
Theorem scan_inventory_sound (w : World) (fd : FieldData) :
  fd ∈ w_detectedFields (scanPass w) ->
  exists field,
    w_doc w !! fd_element fd = Some field
    /\ isFieldFillable (w_settings w) field = true
    /\ fd_name fd = getFieldIdentifier field /\ fd_name fd <> ""
    /\ fd_detectedType fd = detectFieldType field
    /\ fd_detectedType fd <> "date"
    /\ isFieldEmpty field = true
    /\ el_disabled field = false /\ propReadOnly field = false
    /\ isCaptcha field = false /\ el_noAutofill field = false
    /\ (skipHiddenFields (w_settings w) = true -> isHidden field = false).
Proof.
  intros Hin. destruct (scanPass_listed w fd Hin) as (field & Hl & Ha & Hf).
  destruct (analyzeField_fillable _ _ _ _ Ha) as (_ & _ & Hn & Ht).
  destruct (isFieldFillable_facts _ _ Hf)
    as (Hd & _ & Hh & Hc & Hdis & Hro & Hno & He).
  exists field. rewrite Hn, Ht.
  repeat split; try assumption. apply getFieldIdentifier_nonempty.
Qed.

Lemma scan_inventory_sound_witness :
  exists field,
    w_doc twoFields !! fd_element cityRecord = Some field
    /\ isFieldFillable (w_settings twoFields) field = true
    /\ fd_name cityRecord = getFieldIdentifier field /\ fd_name cityRecord <> ""
    /\ fd_detectedType cityRecord = detectFieldType field
    /\ fd_detectedType cityRecord <> "date"
    /\ isFieldEmpty field = true
    /\ el_disabled field = false /\ propReadOnly field = false
    /\ isCaptcha field = false /\ el_noAutofill field = false
    /\ (skipHiddenFields (w_settings twoFields) = true -> isHidden field = false).
Proof.
  apply (scan_inventory_sound twoFields cityRecord).
  apply list_elem_of_In. vm_compute. left. reflexivity.
Defined.

Lemma analyzeAll_complete (settings : Settings) (doc : list Element)
    (indices : list nat) (i : nat) (field : Element) :
  In i indices -> doc !! i = Some field ->
  isFieldFillable settings field = true ->
  exists fd, fd ∈ analyzeAll settings doc indices /\ fd_element fd = i.
Proof.
  intros Hi Hl Hf.
  destruct (analyzeField settings i field) as [fd|] eqn:Ea.
  - exists fd. split.
    + unfold analyzeAll. apply list_elem_of_omap. exists i.
      split; [now apply list_elem_of_In|]. now rewrite Hl.
    + now destruct (analyzeField_fillable _ _ _ _ Ea) as (_ & He & _).
  - unfold analyzeField in Ea. rewrite Hf in Ea. discriminate.
Qed.

(** A fillable control is a field of a listed form or group. *)
Lemma scanPass_lists (w : World) (i : nat) (field : Element) :
  w_doc w !! i = Some field ->
  isFieldFillable (w_settings w) field = true ->
  exists fm fd, fm ∈ w_detectedForms (scanPass w)
                /\ fd ∈ fm_fields fm /\ fd_element fd = i.
Proof.
  intros Hl Hf.
  unfold scanPass. cbn [w_detectedForms setInventory].
  destruct (insideForm (w_forms w) i) eqn:Hin.
  - unfold insideForm in Hin. apply existsb_exists in Hin.
    destruct Hin as (form & Hform & Hc).
    apply existsb_exists in Hc. destruct Hc as (j & Hj & Hij).
    apply Nat.eqb_eq in Hij. subst j.
    apply list_elem_of_In, list_elem_of_lookup in Hform.
    destruct Hform as (k & Hk).
    destruct (analyzeAll_complete (w_settings w) (w_doc w) (form_controls form)
                i field Hj Hl Hf) as (fd & Hfd & He).
    exists (analyzeForm (w_settings w) (w_doc w) form k), fd.
    split; [|split; [exact Hfd|exact He]].
    apply elem_of_app. left. apply list_elem_of_In, filter_In. split.
    + apply list_elem_of_In, list_elem_of_lookup. exists k.
      rewrite list_lookup_imap, Hk. reflexivity.
    + cbn [fm_fields analyzeForm].
      destruct (analyzeAll _ _ _); [now apply elem_of_nil in Hfd|reflexivity].
  - assert (Hs : In i (findStandaloneFields w)).
    { unfold findStandaloneFields. apply filter_In. split.
      - apply in_seq. apply lookup_lt_Some in Hl. lia.
      - now rewrite Hin. }
    destruct (analyzeAll_complete (w_settings w) (w_doc w) _ i field Hs Hl Hf)
      as (fd & Hfd & He).
    destruct (analyzeAll (w_settings w) (w_doc w) (findStandaloneFields w))
      as [|x xs] eqn:Ea; [now apply elem_of_nil in Hfd|].
    eexists _, fd. split; [|split; [|exact He]].
    + apply elem_of_app. right. apply list_elem_of_singleton. reflexivity.
    + exact Hfd.
Qed.



Lemma scanPass_inputs (w1 w2 : World) :
  w_doc w1 = w_doc w2 -> w_forms w1 = w_forms w2 ->
  w_settings w1 = w_settings w2 ->
  w_detectedForms (scanPass w1) = w_detectedForms (scanPass w2)
  /\ w_detectedFields (scanPass w1) = w_detectedFields (scanPass w2).
Proof.
  intros Ed Ef Es. unfold scanPass, findStandaloneFields.
  cbn [w_detectedForms w_detectedFields setInventory].
  now rewrite Ed, Ef, Es.
Qed.

Lemma scanPass_frame (w : World) :
  w_doc (scanPass w) = w_doc w /\ w_forms (scanPass w) = w_forms w
  /\ w_settings (scanPass w) = w_settings w
  /\ w_trace (scanPass w) = w_trace w /\ w_tick (scanPass w) = w_tick w.
Proof. repeat split. Qed.

(** What [scanForms] returns and the state it leaves, by cases on the
    retry. *)
Lemma scanForms_run (silent : bool) (w : World) :
  let retry := (length (w_detectedForms (scanPass w)) =? 0)%nat && negb silent in
  let w' := if retry
            then scanPass (setTrace (ESleep 1000 :: w_trace w) (scanPass w))
            else scanPass w in
  scanForms silent w
  = (Ok {| sr_forms := Z.of_nat (length (w_detectedForms w'));
           sr_fields := Z.of_nat (length (w_detectedFields w'));
           sr_error := None |}, w').
Proof.
  cbv zeta. unfold scanForms, try_catch, bind at 1, modify.
  unfold bind at 1, get.
  destruct ((length (w_detectedForms (scanPass w)) =? 0)%nat && negb silent).
  - reflexivity.
  - reflexivity.
Qed.

(** The answer of [scanForms] and the inventory it leaves: those of one
    pass over the document. *)
Lemma scanForms_state (silent : bool) (w : World) :
  exists w',
    scanForms silent w
    = (Ok {| sr_forms := Z.of_nat (length (w_detectedForms (scanPass w)));
             sr_fields := Z.of_nat (length (w_detectedFields (scanPass w)));
             sr_error := None |}, w')
    /\ w_detectedForms w' = w_detectedForms (scanPass w)
    /\ w_detectedFields w' = w_detectedFields (scanPass w)
    /\ w_doc w' = w_doc w /\ w_forms w' = w_forms w
    /\ w_settings w' = w_settings w.
Proof.
  rewrite scanForms_run. cbv zeta.
  destruct (_ && _).
  - destruct (scanPass_inputs
                (setTrace (ESleep 1000 :: w_trace w) (scanPass w)) w)
      as (E1 & E2); try reflexivity.
    eexists. rewrite E1, E2. repeat split; assumption.
  - eexists. repeat split.
Qed.


(** X7.  A silent scan never waits.  A scan that is not silent waits once,
    for one second, exactly when its first pass lists no form, and then
    scans once more; there is no further retry. *)
Theorem scanForms_waits (silent : bool) (w : World) :
  w_trace (snd (scanForms silent w))
  = if (length (w_detectedForms (scanPass w)) =? 0)%nat && negb silent
    then ESleep 1000 :: w_trace w
    else w_trace w.
Proof.
  rewrite scanForms_run. cbv zeta. cbn [snd].
  destruct (_ && _); reflexivity.
Qed.

(** X8.  A scan replaces the inventory: what it lists depends on the
    document, the forms and the settings only, never on what was listed
    before, so scanning twice in a row lists the same as scanning once. *)
Theorem scan_replaces_inventory (silent silent' : bool) (w1 w2 : World) :
  w_doc w1 = w_doc w2 -> w_forms w1 = w_forms w2 ->
  w_settings w1 = w_settings w2 ->
  let after1 := snd (scanForms silent w1) in
  let after2 := snd (scanForms silent' w2) in
  w_detectedForms after1 = w_detectedForms after2
  /\ w_detectedFields after1 = w_detectedFields after2
  /\ w_detectedFields (snd (scanForms silent' after1)) = w_detectedFields after1.
Proof.
  intros Ed Ef Es. cbv zeta.
  assert (Hgen : forall s w,
             let a := snd (scanForms s w) in
             w_detectedForms a = w_detectedForms (scanPass w)
             /\ w_detectedFields a = w_detectedFields (scanPass w)
             /\ w_doc a = w_doc w /\ w_forms a = w_forms w
             /\ w_settings a = w_settings w).
  { intros s w. cbv zeta.
    destruct (scanForms_state s w) as (w' & E & Hrest). now rewrite E. }
  destruct (Hgen silent w1) as (A1 & A2 & A3 & A4 & A5).
  destruct (Hgen silent' w2) as (B1 & B2 & _).
  destruct (Hgen silent' (snd (scanForms silent w1))) as (_ & C2 & _).
  destruct (scanPass_inputs w1 w2 Ed Ef Es) as (D1 & D2).
  destruct (scanPass_inputs (snd (scanForms silent w1)) w1 A3 A4 A5) as (_ & D3).
  rewrite A1, A2, B1, B2, C2, D3. now rewrite D1, D2.
Qed.

Lemma scan_replaces_inventory_witness :
  let after1 := snd (scanForms true twoFields) in
  let after2 := snd (scanForms false (scanPass twoFields)) in
  w_detectedForms after1 = w_detectedForms after2
  /\ w_detectedFields after1 = w_detectedFields after2
  /\ w_detectedFields (snd (scanForms false after1)) = w_detectedFields after1.
Proof.
  apply (scan_replaces_inventory true false twoFields (scanPass twoFields));
    reflexivity.
Defined.

(** ** Whole numbers as values *)

Lemma num_min_numZ (a b : Z) :
  num_min (numZ a) (numZ b) = numZ (Z.min a b).
Proof.
  unfold num_min, numZ, num_lt.
  destruct (Qle_bool (inject_Z a) (inject_Z b)) eqn:E; cbn [negb].
  - apply Qle_bool_iff in E. rewrite <- Zle_Qle in E.
    now rewrite Z.min_l by lia.
  - assert (Hlt : b < a).
    { destruct (Z_lt_le_dec b a) as [|Hle]; [assumption|].
      rewrite Zle_Qle in Hle. apply Qle_bool_iff in Hle. congruence. }
    now rewrite Z.min_r by lia.
Qed.

Lemma num_gt_numZ (a b : Z) : num_gt (numZ a) (numZ b) = (b <? a).
Proof.
  unfold num_gt, num_lt, numZ.
  destruct (Qle_bool (inject_Z a) (inject_Z b)) eqn:E; cbn [negb]; symmetry.
  - apply Qle_bool_iff in E. rewrite <- Zle_Qle in E. apply Z.ltb_ge. lia.
  - apply Z.ltb_lt. destruct (Z_lt_le_dec b a) as [|Hle]; [assumption|].
    rewrite Zle_Qle in Hle. apply Qle_bool_iff in Hle. congruence.
Qed.

Lemma truthy_numZ (a : Z) : truthy (VNum (numZ a)) = negb (a =? 0).
Proof.
  cbn. unfold Qeq_bool. cbn. now rewrite Z.mul_1_r.
Qed.

(** ** Invariants of the effectful code *)

Lemma bind_ok {A B} (m : M A) (k : A -> M B) (w : World) (a : A) (w1 : World) :
  m w = (Ok a, w1) -> bind m k w = k a w1.
Proof. intros E. unfold bind. now rewrite E. Qed.

Section Invariant.

Variable R : World -> World -> Prop.
Hypothesis R_refl : forall w, R w w.
Hypothesis R_trans : forall w1 w2 w3, R w1 w2 -> R w2 w3 -> R w1 w3.

Lemma Keeps_ret {A} (a : A) : Keeps R (ret a).
Proof. intros w. apply R_refl. Qed.

Lemma Keeps_throw {A} (e : string) : Keeps R (@throw A e).
Proof. intros w. apply R_refl. Qed.

Lemma Keeps_get : Keeps R get.
Proof. intros w. apply R_refl. Qed.

Lemma Keeps_bind {A B} (m : M A) (k : A -> M B) :
  Keeps R m -> (forall a, Keeps R (k a)) -> Keeps R (bind m k).
Proof.
  intros Hm Hk w. unfold bind. specialize (Hm w).
  destruct (m w) as [[a|e] w1]; simpl in *; [|assumption].
  eapply R_trans; [eassumption | apply Hk].
Qed.

Lemma Keeps_try_catch {A} (m : M A) (h : string -> M A) :
  Keeps R m -> (forall e, Keeps R (h e)) -> Keeps R (try_catch m h).
Proof.
  intros Hm Hh w. unfold try_catch. specialize (Hm w).
  destruct (m w) as [[a|e] w1]; simpl in *; [assumption|].
  eapply R_trans; [eassumption | apply Hh].
Qed.

Lemma Keeps_if {A} (c : bool) (a b : M A) :
  Keeps R a -> Keeps R b -> Keeps R (if c then a else b).
Proof. now destruct c. Qed.

(** *** Value generation: its only effect is drawing instants *)

Hypothesis R_fresh : Keeps R fresh.

Ltac keeps :=
  repeat first
    [ apply Keeps_ret | apply Keeps_throw | apply Keeps_get
    | apply R_fresh
    | apply Keeps_bind; [|intros]
    | apply Keeps_try_catch; [|intros]
    | match goal with
      | |- Keeps R (if ?c then _ else _) => destruct c
      | |- Keeps R (match ?x with _ => _ end) => destruct x
      | |- Keeps R (let _ := _ in _) => cbv zeta
      end ].

Lemma Keeps_floorRandom (H : Host) (n : Z) : Keeps R (floorRandom H n).
Proof. unfold floorRandom, mathRandom. keeps. Qed.

Lemma Keeps_randomDigits (H : Host) (n : nat) : Keeps R (randomDigits H n).
Proof.
  induction n as [|n IH]; simpl; [apply Keeps_ret|].
  apply Keeps_bind; [apply Keeps_floorRandom | intros].
  apply Keeps_bind; [apply IH | intros; apply Keeps_ret].
Qed.

Lemma Keeps_firstOf ms (otherwise : M Value) :
  Keeps R otherwise -> Keeps R (firstOf ms otherwise).
Proof.
  intros Ho. induction ms as [|[f|] ms IH]; simpl.
  - exact Ho.
  - unfold callS. keeps.
  - exact IH.
Qed.

Lemma Keeps_numberInt (fk : Faker) (a b : num) : Keeps R (numberInt fk a b).
Proof. unfold numberInt. keeps. Qed.

Lemma Keeps_randomInt (H : Host) (a b : Z) : Keeps R (randomInt H a b).
Proof.
  unfold randomInt.
  assert (Hm : Keeps R (k <- floorRandom H (b - a + 1) ;; ret (VNum (numZ (k + a))))).
  { apply Keeps_bind; [apply Keeps_floorRandom | intros; apply Keeps_ret]. }
  destruct (faker H) as [fk|]; [|exact Hm].
  destruct (fk_number_int fk) eqn:E; [|exact Hm].
  apply Keeps_try_catch; [apply Keeps_numberInt | intros; exact Hm].
Qed.

Lemma Keeps_handleSelectField (H : Host) (field : option Element) :
  Keeps R (handleSelectField H field).
Proof.
  unfold handleSelectField.
  destruct field as [f|]; [|apply Keeps_ret].
  destruct (propOptions f) as [[|o os]|]; try apply Keeps_ret.
  destruct (List.filter validOption (o :: os)); [apply Keeps_ret|].
  apply Keeps_bind; [apply Keeps_floorRandom | intros]. keeps.
Qed.

Lemma Keeps_getFallbackData (H : Host) (ty : string) (field : option Element) :
  Keeps R (getFallbackData H ty field).
Proof.
  unfold getFallbackData.
  apply Keeps_bind; [apply R_fresh | intros].
  apply Keeps_bind; [apply Keeps_floorRandom | intros]. apply Keeps_ret.
Qed.

Lemma Keeps_genNumberFor (H : Host) (fk : Faker) (field : Element) :
  Keeps R (genNumberFor H fk field).
Proof.
  unfold genNumberFor.
  destruct (Str.includes "aadhaarNumber" (el_name field)).
  - destruct (fk_string_numeric fk);
      [keeps | apply Keeps_bind; [apply Keeps_randomDigits | intros; keeps]].
  - destruct (Str.includes "yearsAttended" (el_name field));
      apply Keeps_numberInt.
Qed.

Lemma Keeps_genParagraph (H : Host) (fk : Faker) (field : option Element) :
  Keeps R (genParagraph H fk field).
Proof. unfold genParagraph. keeps. Qed.

Lemma Keeps_generateFakeData (H : Host) (ty : string) (field : option Element) :
  Keeps R (generateFakeData H ty field).
Proof.
  unfold generateFakeData.
  destruct (faker H) as [fk|]; [|apply Keeps_getFallbackData].
  apply Keeps_try_catch; [|intros; apply Keeps_ret].
  assert (Hdraw : forall n (k : Z -> M Value),
            (forall z, Keeps R (k z)) -> Keeps R (bind (floorRandom H n) k)).
  { intros n k Hk. apply Keeps_bind; [apply Keeps_floorRandom | exact Hk]. }
  assert (Hfirst : Keeps R (genFirstName fk))
    by (apply Keeps_firstOf, Keeps_ret).
  assert (Hlast : Keeps R (genLastName fk))
    by (apply Keeps_firstOf, Keeps_ret).
  assert (Hcoin : Keeps R (coin H)).
  { unfold coin, mathRandom.
    apply Keeps_bind; [apply Keeps_bind; [apply R_fresh | intros; apply Keeps_ret]
                      | intros; apply Keeps_ret]. }
  repeat (apply Keeps_if;
          [ first
              [ apply Keeps_ret
              | exact Hfirst | exact Hlast
              | apply Keeps_genParagraph
              | apply Keeps_handleSelectField
              | apply Keeps_bind; [exact Hcoin | intros; apply Keeps_ret]
              | destruct field; [apply Keeps_genNumberFor | apply Keeps_numberInt]
              | apply Keeps_firstOf;
                first
                  [ apply Keeps_ret
                  | apply Hdraw; intros;
                    first [ apply Keeps_ret
                          | apply Hdraw; intros; apply Hdraw; intros; apply Keeps_ret ]
                  | apply Keeps_bind;
                    [ apply Keeps_randomDigits | intros; apply Keeps_ret ]
                  | apply Keeps_bind;
                    [ apply Keeps_bind; [apply R_fresh | intros; apply Keeps_ret]
                    | intros; apply Keeps_ret ]
                  | apply Keeps_bind;
                    [ apply Keeps_try_catch; [exact Hfirst | intros; apply Keeps_ret]
                    | intros;
                      apply Keeps_bind;
                      [ apply Keeps_try_catch; [exact Hlast | intros; apply Keeps_ret]
                      | intros; apply Keeps_ret ] ] ] ]
          | ]).
  apply Keeps_if; [|apply Keeps_if].
  - apply Keeps_firstOf.
    apply Keeps_bind; [apply Keeps_randomInt | intros; apply Keeps_ret].
  - apply Keeps_randomInt.
  - destruct (fk_lorem_words fk); [|apply Keeps_ret].
    apply Keeps_bind; [apply R_fresh | intros; apply Keeps_ret].
Qed.

End Invariant.

(** *** Writes to the document *)

Section DocInvariant.

Variable H : Host.
Variable r : list Element -> list Element -> Prop.
Hypothesis r_refl : forall d, r d d.
Hypothesis r_trans : forall d1 d2 d3, r d1 d2 -> r d2 d3 -> r d1 d3.

(** The indices at which the filler may write. *)
Variable ok : nat -> Prop.
Hypothesis r_style :
  forall i d, ok i -> r d (alter (setStyle "2px solid #4CAF50" "#e8f5e8") i d).
Hypothesis r_value :
  forall i v d, ok i -> r d (alter (setValue v) i d).
Hypothesis r_select :
  forall i v d, ok i ->
    r d (alter (fun g => setOptions (selectByValue v (el_options g)) g) i d).
Hypothesis r_antBox :
  forall i b d, ok i ->
    r d (alter (fun g => setAntBox (option_map (fun _ => b) (el_antBoxChecked g)) g)
               i d).
Hypothesis r_checked :
  forall i b w, ok i -> r (w_doc w) (w_doc (snd (writeChecked i b w))).

Lemma onDoc_refl (w : World) : onDoc r w w.
Proof. apply r_refl. Qed.

Lemma onDoc_trans (w1 w2 w3 : World) :
  onDoc r w1 w2 -> onDoc r w2 w3 -> onDoc r w1 w3.
Proof. apply r_trans. Qed.

Lemma Keeps_same_doc {A} (m : M A) :
  (forall w, w_doc (snd (m w)) = w_doc w) -> Keeps (onDoc r) m.
Proof. intros E w. unfold onDoc. rewrite E. apply r_refl. Qed.

Lemma Keeps_doc_fresh : Keeps (onDoc r) fresh.
Proof. now apply Keeps_same_doc. Qed.

Lemma Keeps_doc_emit (e : Effect) : Keeps (onDoc r) (emit e).
Proof. now apply Keeps_same_doc. Qed.

Lemma Keeps_doc_writeValue (i : nat) (v : string) :
  ok i -> Keeps (onDoc r) (writeValue i v).
Proof.
  intros Hi w. unfold writeValue, bind, get.
  destruct (w_doc w !! i) as [f|]; [|apply r_refl].
  destruct (el_tag f) as [[]| |m];
    first [ now apply r_value | now apply r_select
          | destruct (Str.isEmpty v); apply r_refl ].
Qed.

Lemma Keeps_doc_triggerChangeEvents (i : nat) :
  Keeps (onDoc r) (triggerChangeEvents i).
Proof.
  apply Keeps_same_doc. intros w.
  destruct (triggerChangeEvents_run i w) as (w' & E & Hd & _).
  now rewrite E.
Qed.

Lemma Keeps_doc_fillField (fieldData : FieldData) (options : FillOptions) :
  ok (fd_element fieldData) ->
  Keeps (onDoc r) (fillField H fieldData options).
Proof.
  intros Hi. unfold fillField.
  pose proof onDoc_refl as Rr. pose proof onDoc_trans as Rt.
  apply Keeps_bind; [assumption | apply Keeps_get; assumption | intros w0].
  destruct (w_doc w0 !! fd_element fieldData) as [field|];
    [|now apply Keeps_throw].
  apply Keeps_bind;
    [assumption
    |apply Keeps_generateFakeData; first [assumption | apply Keeps_doc_fresh]
    |intros fakeData].
  assert (Hev : forall ty, Keeps (onDoc r) (dispatchEvent (fd_element fieldData) ty))
    by (intros; apply Keeps_doc_emit).
  assert (Hck : forall b, Keeps (onDoc r) (writeChecked (fd_element fieldData) b))
    by (intros b w; now apply r_checked).
  assert (Hret : Keeps (onDoc r) (ret tt)) by now apply Keeps_ret.
  apply Keeps_bind; [assumption| |intros _].
  { apply Keeps_if; [|exact Hret]. intros w. now apply r_style. }
  apply Keeps_bind; [assumption| |intros _].
  - cbv zeta. apply Keeps_if; [apply Keeps_if|].
    + repeat (apply Keeps_bind;
              [assumption
              |first [apply Hck | apply Hev | intros w; now apply r_antBox]
              |intros _]).
      apply Hev.
    + apply Hck.
    + apply Keeps_if; [apply Keeps_if; [apply Hck | exact Hret]|].
      apply Keeps_if;
        [apply Keeps_if; [now apply Keeps_doc_writeValue | exact Hret]|].
      destruct (applyConstraints H field fakeData (fd_detectedType fieldData));
        first [now apply Keeps_doc_writeValue | exact Hret].
  - apply Keeps_bind;
      [assumption | apply Keeps_doc_triggerChangeEvents | intros _].
    apply Keeps_if; [apply Keeps_doc_emit | exact Hret].
Qed.

Lemma Keeps_doc_updSession (f : FillSession -> FillSession) :
  Keeps (onDoc r) (updSession f).
Proof.
  apply Keeps_same_doc. intros w. unfold updSession, bind, get.
  now destruct (w_fillSession w).
Qed.

Lemma Keeps_doc_sendProgress (p : Z) : Keeps (onDoc r) (sendProgress H p).
Proof.
  apply Keeps_same_doc. intros w. unfold sendProgress, bind, fresh.
  now destruct (sendFault H (w_tick w)).
Qed.

Lemma Keeps_doc_fillStep (fillOptions : FillOptions) (totalFields : Z)
    (fieldData : FieldData) :
  ok (fd_element fieldData) ->
  Keeps (onDoc r) (fillStep H fillOptions totalFields fieldData).
Proof.
  intros Hi. unfold fillStep, fillAttempt.
  pose proof onDoc_refl as Rr. pose proof onDoc_trans as Rt.
  apply Keeps_bind; [assumption | now apply Keeps_get | intros w0].
  apply Keeps_if; [apply Keeps_doc_updSession|].
  apply Keeps_try_catch;
    [assumption | | intros; apply Keeps_doc_updSession].
  apply Keeps_bind; [assumption | now apply Keeps_doc_fillField | intros _].
  apply Keeps_bind; [assumption | now apply Keeps_same_doc | intros _].
  apply Keeps_bind; [assumption | apply Keeps_doc_updSession | intros _].
  apply Keeps_bind; [assumption | now apply Keeps_get | intros w1].
  apply Keeps_bind; [assumption | apply Keeps_doc_sendProgress | intros _].
  apply Keeps_if; [apply Keeps_doc_emit | now apply Keeps_ret].
Qed.

Lemma Keeps_doc_fillLoop (fillOptions : FillOptions) (totalFields : Z)
    (fields : list FieldData) :
  Forall (fun fd => ok (fd_element fd)) fields ->
  Keeps (onDoc r) (fillLoop H fillOptions totalFields fields).
Proof.
  induction 1 as [|fd rest Hfd _ IH]; cbn [fillLoop].
  - apply Keeps_ret, onDoc_refl.
  - apply Keeps_bind;
      [apply onDoc_trans | now apply Keeps_doc_fillStep | intros _; exact IH].
Qed.

Lemma fillForms_doc (options : Options) (w : World) :
  (forall fd, fd ∈ w_detectedFields (scanPass w) -> ok (fd_element fd)) ->
  r (w_doc w) (w_doc (snd (fillForms H options w))).
Proof.
  intros Hok. rewrite fillForms_run. cbv zeta.
  destruct (fillTotal (fillEntry H w) =? 0); [apply r_refl|].
  assert (Hloop := Keeps_doc_fillLoop (mergeOptions (w_settings w) options)
                     (fillTotal (fillEntry H w))
                     (w_detectedFields (fillEntry H w))).
  specialize (Hloop ltac:(apply Forall_forall; exact Hok) (fillEntry H w)).
  unfold onDoc in Hloop. change (w_doc (fillEntry H w)) with (w_doc w) in Hloop.
  destruct (fillLoop H _ _ _ _) as [[[]|e] w1]; cbn [snd] in *;
    [destruct (w_fillSession w1)|]; exact Hloop.
Qed.

End DocInvariant.

(** ** What a fill leaves alone *)

Lemma untouched_refl (ok : nat -> Prop) (d : list Element) : untouched ok d d.
Proof. split; auto. Qed.

Lemma untouched_trans (ok : nat -> Prop) (d1 d2 d3 : list Element) :
  untouched ok d1 d2 -> untouched ok d2 d3 -> untouched ok d1 d3.
Proof.
  intros [L1 K1] [L2 K2]. split; [congruence|]. intros j g Hj Hr Hl. eauto.
Qed.

Lemma untouched_alter (ok : nat -> Prop) (g : Element -> Element) (i : nat)
    (d : list Element) :
  ok i -> untouched ok d (alter g i d).
Proof.
  intros Hi. split; [apply length_alter|]. intros j x Hj _ Hl.
  rewrite list_lookup_alter_ne; [exact Hl|]. intros ->. contradiction.
Qed.

Lemma untouched_writeChecked (ok : nat -> Prop) (i : nat) (b : bool)
    (w : World) :
  ok i -> untouched ok (w_doc w) (w_doc (snd (writeChecked i b w))).
Proof.
  intros Hi. unfold writeChecked, modify. cbn [snd].
  destruct (w_doc w !! i) as [f|]; [|apply untouched_refl].
  cbn [w_doc setDoc]. eapply untouched_trans; [|now apply untouched_alter].
  destruct (b && isRadio f); [|apply untouched_refl].
  split; [apply length_imap|]. intros j g _ Hr Hl.
  rewrite list_lookup_imap, Hl. cbn. f_equal.
  destruct (negb (j =? i)%nat && sameRadioGroup f g) eqn:Eg; [|reflexivity].
  apply andb_prop in Eg. destruct Eg as [_ Eg]. unfold sameRadioGroup in Eg.
  assert (Hrg : isRadio g = true).
  { destruct (isRadio g); [reflexivity|].
    now rewrite andb_false_r, !andb_false_l in Eg. }
  unfold checkedRadio in Hr. rewrite Hrg in Hr. cbn in Hr.
  destruct g. cbn in *. now subst.
Qed.

(** X9.  A fill writes only to the controls that its own scan lists: a
    control that does not pass [isFieldFillable] when the fill starts (it
    has a value, is disabled or read-only, is a captcha, opted out, of the
    date kind or of a disabled kind) and is not a checked radio button is
    exactly the same after the fill, and no control is added or removed. *)
Theorem fill_leaves_unfillable_alone (H : Host) (options : Options) (w : World)
    (j : nat) (g : Element) :
  w_doc w !! j = Some g ->
  isFieldFillable (w_settings w) g = false ->
  checkedRadio g = false ->
  let w' := snd (fillForms H options w) in
  w_doc w' !! j = Some g /\ length (w_doc w') = length (w_doc w).
Proof.
  intros Hl Hf Hr. cbv zeta.
  set (ok := fun i => exists field,
                 w_doc w !! i = Some field
                 /\ isFieldFillable (w_settings w) field = true).
  destruct (fillForms_doc H (untouched ok) (untouched_refl ok)
              (untouched_trans ok) ok) with (options := options) (w := w)
    as [Hlen Hkeep].
  - intros. now apply untouched_alter.
  - intros. now apply untouched_alter.
  - intros. now apply untouched_alter.
  - intros. now apply untouched_alter.
  - intros. now apply untouched_writeChecked.
  - intros fd Hfd. destruct (scanPass_listed w fd Hfd) as (field & E & _ & F).
    exists field. now split.
  - split; [|exact Hlen]. apply Hkeep; [|exact Hr|exact Hl].
    intros (field & E & F). congruence.
Qed.

Lemma fill_leaves_unfillable_alone_witness :
  let w := Ref.page defaultSettings [emailCounter; birthday] in
  let w' := snd (fillForms Ref.host noOptions w) in
  w_doc w' !! 1%nat = Some birthday /\ length (w_doc w') = length (w_doc w).
Proof.
  apply (fill_leaves_unfillable_alone Ref.host noOptions
           (Ref.page defaultSettings [emailCounter; birthday]) 1 birthday);
    reflexivity.
Defined.

(** The hypothesis on checked radio buttons is needed: checking one button of a
    group unchecks the others, so a fill can replace a choice made
    before. *)
Example fill_replaces_radio_choice :
  let a := withName "plan" (blankInput TyRadio) in
  let w := Ref.page defaultSettings [setChecked true a; a] in
  el_checked <$> w_doc (snd (fillForms Ref.host noOptions w)) = [false; true].
Proof. vm_compute. reflexivity. Qed.

Lemma deselect_selectByValue (v : string) (os : list SelOption) :
  List.map deselect (selectByValue v os) = List.map deselect os.
Proof.
  induction os as [|o os IH]; [reflexivity|]. simpl.
  destruct (opt_value o =? v)%string; simpl.
  - f_equal. apply deselect_idem.
  - f_equal. exact IH.
Qed.

Lemma sameControls_refl (d : list Element) : sameControls d d.
Proof. reflexivity. Qed.

Lemma sameControls_trans (d1 d2 d3 : list Element) :
  sameControls d1 d2 -> sameControls d2 d3 -> sameControls d1 d3.
Proof. unfold sameControls. congruence. Qed.

Lemma sameControls_alter (g : Element -> Element) (i : nat) (d : list Element) :
  (forall x, identityOf (g x) = identityOf x) -> sameControls d (alter g i d).
Proof.
  intros Hg. unfold sameControls. apply list_eq. intros j.
  rewrite !list_lookup_fmap.
  destruct (decide (i = j)) as [<-|Hne].
  - rewrite list_lookup_alter_eq. destruct (d !! i); cbn; [|reflexivity].
    now rewrite Hg.
  - now rewrite list_lookup_alter_ne.
Qed.

Lemma sameControls_writeChecked (i : nat) (b : bool) (w : World) :
  sameControls (w_doc w) (w_doc (snd (writeChecked i b w))).
Proof.
  unfold writeChecked, modify. cbn [snd].
  destruct (w_doc w !! i) as [f|]; [|apply sameControls_refl].
  cbn [w_doc setDoc].
  eapply sameControls_trans; [|now apply sameControls_alter].
  destruct (b && isRadio f); [|apply sameControls_refl].
  unfold sameControls. apply list_eq. intros j.
  rewrite !list_lookup_fmap, list_lookup_imap.
  destruct (w_doc w !! j) as [g|]; cbn; [|reflexivity].
  now destruct (negb (j =? i)%nat && sameRadioGroup f g).
Qed.

Lemma identityOf_setState (f : Element) value checked options antBox outline bg :
  List.map deselect options = List.map deselect (el_options f) ->
  identityOf (setState f value checked options antBox outline bg) = identityOf f.
Proof. intros E. unfold identityOf. cbn. now rewrite E. Qed.

Lemma identityOf_clearElement (f : Element) :
  identityOf (clearElement f) = identityOf f.
Proof.
  unfold clearElement. destruct (clearSkips f); [reflexivity|]. cbv zeta.
  repeat match goal with
         | |- context [if ?c then _ else _] => destruct c
         end;
    apply identityOf_setState;
    first [reflexivity | apply deselect_selectByValue | apply deselect_idem].
Qed.

(** X10.  Neither a fill nor a clear changes what a control is: the
    document has the same controls afterwards, equal to the ones before up
    to their state (value, checked flag, selected options, the mirror box
    of a styled checkbox, outline and background colour).  Tag, type, name,
    id, constraints, labels and the values and texts of options are never
    written. *)
Theorem fill_and_clear_keep_controls (H : Host) (options : Options) (w : World) :
  sameControls (w_doc w) (w_doc (snd (fillForms H options w)))
  /\ sameControls (w_doc w) (w_doc (snd (clearForms H w))).
Proof.
  split.
  - apply (fillForms_doc H sameControls sameControls_refl sameControls_trans
             (fun _ => True)); intros;
      first [ apply sameControls_writeChecked
            | exact I
            | apply sameControls_alter; intros x; apply identityOf_setState;
              first [reflexivity | apply deselect_selectByValue] ].
  - destruct (clearForms_run H w) as (n & w' & E & Hd).
    rewrite E. cbn [snd]. rewrite Hd. unfold sameControls.
    rewrite <- list_fmap_compose. apply list_fmap_ext.
    intros i x _. apply identityOf_clearElement.
Qed.

(** ** Fields that are skipped *)

Lemma isFieldEmpty_unchecked (g : Element) :
  isFieldEmpty g = true -> checkedRadio g = false.
Proof.
  unfold isFieldEmpty, checkedRadio, isRadio, typeProp.
  destruct (el_tag g) as [[]| |m]; try reflexivity.
  cbn. now destruct (el_checked g).
Qed.

Lemma fillLoop_no_skip (H : Host) (fillOptions : FillOptions) (totalFields : Z)
    (fields : list FieldData) (w : World) (s : FillSession) :
  w_fillSession w = Some s ->
  NoDup (fd_element <$> fields) ->
  (forall fd, fd ∈ fields -> fillableNow w fd = true) ->
  exists w' s',
    fillLoop H fillOptions totalFields fields w = (Ok tt, w')
    /\ w_fillSession w' = Some s'
    /\ fs_fieldsSkipped s' = fs_fieldsSkipped s.
Proof.
  revert w s. induction fields as [|fd rest IH]; intros w s Hs Hnd Hfill.
  - exists w, s. now repeat split.
  - cbn [fillLoop]. rewrite fmap_cons in Hnd. apply NoDup_cons in Hnd.
    destruct Hnd as [Hfresh Hnd].
    destruct (fillStep_spec H fillOptions totalFields fd w s Hs)
      as (w1 & s1 & new & E1 & Hs1 & Hset & _ & _ & Facts).
    assert (Hdoc := Keeps_doc_fillStep H (untouched (eq (fd_element fd)))
                      (untouched_refl _) (untouched_trans _)
                      (eq (fd_element fd))
                      ltac:(intros; now apply untouched_alter)
                      ltac:(intros; now apply untouched_alter)
                      ltac:(intros; now apply untouched_alter)
                      ltac:(intros; now apply untouched_alter)
                      ltac:(intros; now apply untouched_writeChecked)
                      fillOptions totalFields fd eq_refl w).
    unfold onDoc in Hdoc. rewrite E1 in Hdoc. cbn [snd] in Hdoc.
    destruct Hdoc as [_ Hkeep].
    assert (Hskip : fs_fieldsSkipped s1 = fs_fieldsSkipped s).
    { destruct Facts as [_ Hsk _ _]. rewrite Hsk.
      unfold stepKindOf. rewrite (Hfill fd) by apply list_elem_of_here.
      cbn [negb]. destruct (fillField H fd fillOptions w) as [[[]|e] w2];
        [destruct (sendFault H (w_tick w2))|]; reflexivity. }
    destruct (IH w1 s1 Hs1 Hnd) as (w' & s' & E & Hs' & Hsk').
    + intros fd' Hin.
      assert (Hne : fd_element fd <> fd_element fd').
      { intros Heq. apply Hfresh. rewrite Heq.
        apply list_elem_of_fmap. eauto. }
      specialize (Hfill fd' ltac:(now apply list_elem_of_further)).
      unfold fillableNow in Hfill |- *. rewrite Hset.
      destruct (w_doc w !! fd_element fd') as [g|] eqn:Hl; [|discriminate].
      assert (Hg : w_doc w1 !! fd_element fd' = Some g).
      { apply Hkeep; [exact Hne| |exact Hl].
        apply isFieldEmpty_unchecked. now apply andb_prop in Hfill. }
      rewrite Hg. exact Hfill.
    + exists w', s'. unfold bind. rewrite E1. split; [exact E|].
      split; [exact Hs' | congruence].
Qed.

(** X11.  When the scan lists no control twice (no control sits in two
    forms), a fill skips nothing: every listed field is still fillable when
    its turn comes, whatever was written to the fields before it, and
    [fieldsSkipped] is 0. *)
Theorem fill_skips_nothing (H : Host) (options : Options) (w : World) :
  NoDup (fd_element <$> w_detectedFields (scanPass w)) ->
  exists summary w',
    fillForms H options w = (Ok (FillSuccess summary), w')
    /\ fieldsSkipped summary = 0.
Proof.
  intros Hnd. rewrite fillForms_run. cbv zeta.
  destruct (fillEntry_session H w) as (Hs & _ & _ & Hfields).
  destruct (fillTotal (fillEntry H w) =? 0) eqn:E0.
  - eexists _, _. split; [reflexivity|]. cbn [fieldsSkipped].
    apply Z.eqb_eq in E0. rewrite fillTotal_entry in E0. exact E0.
  - destruct (fillLoop_no_skip H (mergeOptions (w_settings w) options)
                (fillTotal (fillEntry H w)) (w_detectedFields (fillEntry H w))
                (fillEntry H w) _ Hs) as (w1 & s1 & E & Hs1 & Hsk).
    + now rewrite Hfields.
    + intros fd Hin. unfold fillEntry in *.
      set (ws := setSession _ _) in *.
      change (fillableNow (setProcessed 0 (scanPass ws)) fd)
        with (fillableNow (scanPass ws) fd).
      now apply scanPass_fillable.
    + rewrite E, Hs1. eexists _, _. split; [reflexivity|]. exact Hsk.
Qed.

Lemma fill_skips_nothing_witness :
  exists summary w',
    fillForms Ref.host noOptions twoFields = (Ok (FillSuccess summary), w')
    /\ fieldsSkipped summary = 0.
Proof.
  apply (fill_skips_nothing Ref.host noOptions twoFields).
  apply (bool_decide_unpack _). vm_compute. exact I.
Defined.

(** ** Value generation *)

Lemma tickOnly_refl (w : World) : tickOnly w w.
Proof. split; [now destruct w | lia]. Qed.

Lemma tickOnly_trans (w1 w2 w3 : World) :
  tickOnly w1 w2 -> tickOnly w2 w3 -> tickOnly w1 w3.
Proof.
  intros [E1 L1] [E2 L2]. split; [|lia].
  rewrite E2 at 1. rewrite E1 at 1. reflexivity.
Qed.

Lemma tickOnly_fresh : Keeps tickOnly fresh.
Proof. intros w. split; cbn; [reflexivity | lia]. Qed.

(** X12.  Generation never fails, whatever the kind, the control and the
    faker object: an error raised inside is answered by "Sample Data".  It
    changes neither the document nor the filler; its only trace is the
    host calls it has made. *)
Theorem generateFakeData_total (H : Host) (fieldType : string)
    (field : option Element) (w : World) :
  (exists v, fst (generateFakeData H fieldType field w) = Ok v)
  /\ tickOnly w (snd (generateFakeData H fieldType field w)).
Proof.
  split.
  - unfold generateFakeData. destruct (faker H) as [fk|].
    + unfold try_catch. destruct (_ w) as [[v|e] w1]; eexists; reflexivity.
    + unfold getFallbackData, bind, fresh, floorRandom, mathRandom, ret.
      eexists. reflexivity.
  - apply Keeps_generateFakeData;
      [exact tickOnly_refl | exact tickOnly_trans | exact tickOnly_fresh].
Qed.

Lemma pick_truthy (table : gmap string Value) (ty : string) :
  truthy match table !! ty with
         | Some v => if truthy v then v else VStr "Sample Data"
         | None => VStr "Sample Data"
         end = true.
Proof.
  destruct (table !! ty) as [v|]; [|reflexivity].
  destruct (truthy v) eqn:E; [exact E | reflexivity].
Qed.

Lemma pick_missing (table : gmap string Value) (ty : string) :
  table !! ty = None ->
  match table !! ty with
  | Some v => if truthy v then v else VStr "Sample Data"
  | None => VStr "Sample Data"
  end = VStr "Sample Data".
Proof. now intros ->. Qed.





Lemma ofZ_digit (d : Z) :
  0 <= d < 10 ->
  exists c, Str.ofZ d = String c EmptyString /\ Str.isDigit c = true.
Proof.
  intros Hd.
  assert (d = 0 \/ d = 1 \/ d = 2 \/ d = 3 \/ d = 4 \/ d = 5 \/ d = 6
          \/ d = 7 \/ d = 8 \/ d = 9) as Hcases by lia.
  repeat destruct Hcases as [-> | Hcases]; try subst d;
    eexists; split; reflexivity.
Qed.

Lemma randomDigits_run (H : Host) (n : nat) (w : World) :
  exists s w',
    randomDigits H n w = (Ok s, w')
    /\ String.length s = n /\ allDigits s = true.
Proof.
  revert w. induction n as [|n IH]; intros w.
  - exists EmptyString, w. repeat split.
  - cbn [randomDigits]. unfold bind at 1. rewrite floorRandom_run.
    pose proof (randomAt_range H (w_tick w)) as [Hr0 Hr1].
    pose proof (floor_scaled_range _ 10 Hr0 Hr1 eq_refl) as Hd.
    destruct (ofZ_digit _ Hd) as (c & Ec & Hc). rewrite Ec.
    destruct (IH (setTick (S (w_tick w)) w)) as (s & w' & E & Hl & Ha).
    unfold bind. rewrite E. exists (String c s), w'.
    split; [reflexivity|]. split; [cbn; now rewrite Hl|].
    unfold allDigits in *. cbn. now rewrite Hc, Ha.
Qed.

(** X15.  When the credit-card method of the faker is missing, or the
    faker itself, the card number generated is a string of exactly sixteen
    decimal digits. *)
Theorem creditCard_sixteen_digits (H : Host) (field : option Element) (w : World) :
  (forall fk, faker H = Some fk -> fk_finance_creditCardNumber fk = None) ->
  exists s,
    fst (generateFakeData H "creditCard" field w) = Ok (VStr s)
    /\ String.length s = 16%nat /\ allDigits s = true.
Proof.
  intros Hno. unfold generateFakeData.
  destruct (faker H) as [fk|] eqn:Hfk.
  - cbn [String.eqb Ascii.eqb Bool.eqb]. rewrite (Hno fk eq_refl).
    cbn [firstOf]. unfold try_catch, bind.
    destruct (randomDigits_run H 16 w) as (s & w' & E & Hl & Ha).
    rewrite E. exists s. now repeat split.
  - exists "4111111111111111". split; [|split; reflexivity].
    unfold getFallbackData. unfold bind at 1, fresh. unfold bind at 1.
    rewrite floorRandom_run. unfold ret. cbv zeta. cbn [fst].
    generalize (Qfloor (randomAt H (w_tick (setTick (S (w_tick w)) w))
                        * inject_Z 100) + 1).
    generalize (Str.beforeChar "T" (IsoDate.toISOString (now H (w_tick w)))).
    intros today n. vm_compute. reflexivity.
Qed.

Lemma creditCard_sixteen_digits_witness :
  exists s,
    fst (generateFakeData Ref.fakerHost "creditCard" None
           (Ref.page defaultSettings [])) = Ok (VStr s)
    /\ String.length s = 16%nat /\ allDigits s = true.
Proof.
  apply (creditCard_sixteen_digits Ref.fakerHost None
           (Ref.page defaultSettings [])).
  intros fk E. injection E as <-. reflexivity.
Defined.

Lemma parseIntNum_text (H : Host) (ds : string) :
  parseIntNum H (VStr ds) = NaN \/ exists z, parseIntNum H (VStr ds) = numZ z.
Proof.
  unfold parseIntNum. destruct (Str.parseInt10 _); eauto.
Qed.

(** The limit that the paragraph branch works with, for a control whose
    [maxLength] is [L]: [L] itself, lowered by a hint in the surrounding
    text when [L] is positive. *)
Lemma paragraph_limit (H : Host) (f : Element) (L : Z) :
  L <> 0 ->
  let maxLength := VNum (numZ L) in
  let actualLimit :=
    match CharLimit.firstMatch (default "" (el_parentText f)) with
    | Some ds =>
        let textLimit := parseIntNum H (VStr ds) in
        if negb (num_isNaN textLimit) && num_gt textLimit (numZ 0)
        then VNum (num_min (if truthy maxLength
                            then valueToNumber H maxLength else PosInf)
                           textLimit)
        else maxLength
    | None => maxLength
    end in
  exists M, actualLimit = VNum (numZ M)
            /\ (0 < L -> 0 < M <= L) /\ (L < 0 -> M = L).
Proof.
  intros HL. cbv zeta.
  destruct (CharLimit.firstMatch _) as [ds|]; [|exists L; split; [reflexivity|lia]].
  destruct (parseIntNum_text H ds) as [->|(z & ->)];
    [exists L; split; [reflexivity|lia]|].
  cbn [num_isNaN numZ negb andb]. fold (numZ z). fold (numZ 0).
  rewrite num_gt_numZ. destruct (0 <? z) eqn:Ez;
    [|exists L; split; [reflexivity|lia]].
  apply Z.ltb_lt in Ez. rewrite truthy_numZ.
  destruct (L =? 0) eqn:E0; [apply Z.eqb_eq in E0; contradiction|].
  cbn [negb valueToNumber]. rewrite num_min_numZ.
  exists (Z.min L z). split; [reflexivity|lia].
Qed.

Lemma try_catch_sample (m : M Value) (w : World) (P : Value -> Prop) :
  match fst (m w) with Ok v => P v | Throw _ => True end ->
  P (VStr "Sample Data") ->
  exists v, fst (try_catch m (fun _ => ret (VStr "Sample Data")) w) = Ok v
            /\ P v.
Proof.
  unfold try_catch. destruct (m w) as [[v|e] w1]; cbn [fst ret]; eauto.
Qed.

(** The last step of the paragraph branch: whatever text was made, what
    is returned fits. *)
Lemma paragraph_cut (m : M string) (maxLen : Z) (w : World) :
  0 <= maxLen ->
  match fst ((paragraph <- m ;;
              if maxLen <? Z.of_nat (String.length paragraph)
              then ret (VStr (Str.slice0 (Z.max 0 maxLen) paragraph))
              else ret (VStr paragraph)) w) with
  | Ok (VStr s) => Z.of_nat (String.length s) <= maxLen
  | Ok _ => False
  | Throw _ => True
  end.
Proof.
  intros Hm. unfold bind. destruct (m w) as [[q|e] w1]; [|exact I].
  destruct (maxLen <? Z.of_nat (String.length q)) eqn:Elen; cbn [ret fst].
  - unfold Str.slice0.
    pose proof (substring0_length (Z.to_nat (Z.max 0 maxLen)) q). lia.
  - apply Z.ltb_ge in Elen. lia.
Qed.



(** X17.  A control without a [maxlength] reads -1 as its [maxLength], and
    then the hint "max N characters" in the surrounding text is not
    honoured: the smaller of -1 and N is not positive, so the paragraph is
    returned at its full length. *)
Theorem paragraph_hint_needs_maxlength (H : Host) (fk : Faker) (f : Element)
    (L : Z) (w : World) :
  faker H = Some fk ->
  propMaxLength f = Some L ->
  L < 0 ->
  fst (generateFakeData H "paragraph" (Some f) w)
  = Ok (VStr match fk_lorem_paragraph fk with
             | Some g => g (w_tick w)
             | None => "Lorem ipsum dolor sit amet, consectetur adipiscing elit."
             end).
Proof.
  intros Hfk Hprop HL.
  destruct (paragraph_limit H f L ltac:(lia)) as (M & EM & _ & HM).
  cbv zeta in EM. specialize (HM HL). subst M.
  unfold generateFakeData. rewrite Hfk.
  cbn [String.eqb Ascii.eqb Bool.eqb]. unfold try_catch, genParagraph.
  unfold bind at 1.
  destruct (fk_lorem_paragraph fk) as [g|];
    [unfold bind at 1, fresh | unfold ret at 1];
    rewrite Hprop;
    replace (L =? 0) with false by (symmetry; apply Z.eqb_neq; lia);
    cbv zeta; rewrite EM; rewrite truthy_numZ;
    replace (L =? 0) with false by (symmetry; apply Z.eqb_neq; lia);
    cbn [negb andb valueToNumber]; rewrite num_gt_numZ;
    replace (0 <? L) with false by (symmetry; apply Z.ltb_ge; lia);
    reflexivity.
Qed.

(** [<textarea>] with no [maxlength], under the text "max 10 characters". *)
Lemma paragraph_hint_needs_maxlength_witness :
  fst (generateFakeData Ref.fakerHost "paragraph" (Some hintedTextarea)
         (Ref.page defaultSettings [hintedTextarea]))
  = Ok (VStr "Lorem ipsum dolor sit amet, consectetur adipiscing elit.").
Proof.
  apply (paragraph_hint_needs_maxlength Ref.fakerHost Ref.emptyFaker
           hintedTextarea (-1) (Ref.page defaultSettings [hintedTextarea]));
    [reflexivity | reflexivity | lia].
Defined.

(** ** Constraints that change nothing *)

Lemma prefix_substring0 (n : nat) (s : string) :
  String.prefix (String.substring 0 n s) s = true.
Proof.
  revert s. induction n as [|n IH]; intros [|c s]; cbn; try reflexivity.
  rewrite IH. now destruct (ascii_dec c c).
Qed.

Lemma prefix_refl (s : string) : String.prefix s s = true.
Proof.
  induction s as [|c s IH]; cbn; [reflexivity|].
  now destruct (ascii_dec c c).
Qed.

(** X18.  On a control that is neither a number nor a date input,
    [applyConstraints] only ever cuts: a string comes back as one of its
    own prefixes, the whole string when the control is not text-like or
    the string is no longer than its [maxlength]; and a value that is not a
    string (the boolean of a checkbox, a number) comes back as it is. *)
Theorem applyConstraints_only_cuts (H : Host) (field : Element) (v : Value)
    (kind : string) :
  typeProp field <> "number" ->
  typeProp field <> "date" ->
  match v with
  | VStr s =>
      exists s',
        applyConstraints H field v kind = VStr s'
        /\ String.prefix s' s = true
        /\ (isTextLike field = false -> s' = s)
        /\ (forall L, constraintMaxLength field = Some L ->
                      Z.of_nat (String.length s) <= L -> s' = s)
  | _ => applyConstraints H field v kind = v
  end.
Proof.
  intros Hn Hd.
  assert (En : String.eqb (typeProp field) "number" = false)
    by now apply String.eqb_neq.
  assert (Ed : String.eqb (typeProp field) "date" = false)
    by now apply String.eqb_neq.
  unfold applyConstraints, dateStep, clampStep. rewrite En.
  destruct v as [|s|n|b|xs]; cbn [truncateStep]; try reflexivity.
  unfold truncateStep.
  destruct (isTextLike field).
  - destruct (constraintMaxLength field) as [L|].
    + destruct ((0 <? L) && (L <? Z.of_nat (String.length s))) eqn:Ecut.
      * cbv beta iota. rewrite Ed. eexists. split; [reflexivity|].
        split; [apply prefix_substring0|]. split; [discriminate|].
        intros L' E Hle. injection E as <-.
        apply andb_prop in Ecut. destruct Ecut as [_ Hlt].
        apply Z.ltb_lt in Hlt. lia.
      * cbv beta iota. cbv beta iota. rewrite Ed. exists s. split; [reflexivity|].
        split; [apply prefix_refl|]. now split.
    + cbv beta iota. rewrite Ed. exists s. split; [reflexivity|].
      split; [apply prefix_refl|]. now split.
  - cbv beta iota. rewrite Ed. exists s. split; [reflexivity|].
    split; [apply prefix_refl|]. now split.
Qed.

Lemma applyConstraints_only_cuts_witness :
  exists s',
    applyConstraints Ref.host shortNote (VStr "Lorem ipsum") "paragraph" = VStr s'
    /\ String.prefix s' "Lorem ipsum" = true
    /\ (isTextLike shortNote = false -> s' = "Lorem ipsum")
    /\ (forall L, constraintMaxLength shortNote = Some L ->
                  Z.of_nat (String.length "Lorem ipsum") <= L -> s' = "Lorem ipsum").
Proof.
  apply (applyConstraints_only_cuts Ref.host shortNote (VStr "Lorem ipsum")
           "paragraph"); discriminate.
Defined.

(** ** One field, filled *)

Lemma writeValue_plain (i : nat) (v : string) (w : World) (f : Element) :
  w_doc w !! i = Some f ->
  plainValued f = true ->
  writeValue i v w = (Ok tt, setDoc (alter (setValue v) i (w_doc w)) w).
Proof.
  intros Hl Hp. unfold writeValue, bind, get. rewrite Hl.
  unfold plainValued in Hp.
  destruct (el_tag f) as [[]| |m]; try discriminate; reflexivity.
Qed.

Lemma triggerChangeEvents_trace (i : nat) (w : World) (f : Element) :
  w_doc w !! i = Some f ->
  triggerChangeEvents i w
  = (Ok tt,
     setTrace ((if el_reactTracked f then [EDomEvent i "input"] else [])
               ++ [EDomEvent i "blur"; EDomEvent i "change"; EDomEvent i "input"]
               ++ w_trace w)%list w).
Proof.
  intros Hl.
  unfold triggerChangeEvents, dispatchEvent, emit, modify, bind, get, ret.
  cbn [w_doc setTrace]. rewrite Hl.
  destruct (el_reactTracked f); reflexivity.
Qed.



(** ** The clear session, counted *)

Lemma domOnly_refl (w : World) : domOnly w w.
Proof. split; [reflexivity|]. exists []. split; [reflexivity | constructor]. Qed.

Lemma domOnly_trans (w1 w2 w3 : World) :
  domOnly w1 w2 -> domOnly w2 w3 -> domOnly w1 w3.
Proof.
  intros [T1 (e1 & E1 & F1)] [T2 (e2 & E2 & F2)]. split; [congruence|].
  exists (e2 ++ e1)%list. split.
  - rewrite E2, E1. now rewrite app_assoc.
  - now apply Forall_app.
Qed.

Lemma domOnly_doc (g : World -> list Element) :
  Keeps domOnly (modify (fun w => setDoc (g w) w)).
Proof.
  intros w. split; [reflexivity|]. exists []. split; [reflexivity | constructor].
Qed.

Lemma domOnly_writeChecked (i : nat) (b : bool) : Keeps domOnly (writeChecked i b).
Proof.
  intros w. unfold writeChecked, modify. cbn [snd].
  destruct (w_doc w !! i); [|apply domOnly_refl].
  split; [reflexivity|]. exists []. split; [reflexivity | constructor].
Qed.

Lemma domOnly_writeValue (i : nat) (v : string) : Keeps domOnly (writeValue i v).
Proof.
  intros w. unfold writeValue, bind, get.
  destruct (w_doc w !! i) as [f|]; [|apply domOnly_refl].
  destruct (el_tag f) as [[]| |m];
    first [ apply (domOnly_doc (fun w => alter _ i (w_doc w)))
          | destruct (Str.isEmpty v); apply domOnly_refl ].
Qed.

Lemma domOnly_dispatchEvent (i : nat) (type : string) :
  Keeps domOnly (dispatchEvent i type).
Proof.
  intros w. split; [reflexivity|]. exists [EDomEvent i type].
  split; [reflexivity|]. constructor; [eauto | constructor].
Qed.

Lemma domOnly_triggerChangeEvents (i : nat) :
  Keeps domOnly (triggerChangeEvents i).
Proof.
  pose proof domOnly_refl as Rr. pose proof domOnly_trans as Rt.
  unfold triggerChangeEvents.
  repeat (apply Keeps_bind; [assumption | apply domOnly_dispatchEvent | intros _]).
  apply Keeps_bind; [assumption | now apply Keeps_get | intros w0].
  destruct (w_doc w0 !! i) as [f|]; [|now apply Keeps_ret].
  apply Keeps_if; [apply domOnly_dispatchEvent | now apply Keeps_ret].
Qed.

Lemma domOnly_clearAttempt (i : nat) (field : Element) :
  Keeps domOnly (clearAttempt i field).
Proof.
  pose proof domOnly_refl as Rr. pose proof domOnly_trans as Rt.
  unfold clearAttempt. cbv zeta.
  apply Keeps_bind; [assumption | | intros _; apply domOnly_triggerChangeEvents].
  repeat (apply Keeps_if);
    first [ apply domOnly_writeChecked | apply domOnly_writeValue
          | apply (domOnly_doc (fun w => alter _ i (w_doc w))) ].
Qed.

Lemma clearSkips_clearElement (f : Element) :
  clearSkips (clearElement f) = clearSkips f.
Proof.
  unfold clearElement. destruct (clearSkips f) eqn:E; [exact E|]. cbv zeta.
  repeat match goal with
         | |- context [if ?c then _ else _] => destruct c
         end; exact E.
Qed.

Lemma clearable_alter (d : list Element) (i j : nat) :
  clearable (alter clearElement i d) j = clearable d j.
Proof.
  unfold clearable. destruct (decide (i = j)) as [<-|Hne].
  - rewrite list_lookup_alter_eq. destruct (d !! i); cbn; [|reflexivity].
    now rewrite clearSkips_clearElement.
  - now rewrite list_lookup_alter_ne.
Qed.

Lemma clearLoop_count (indices : list nat) (n : Z) (w : World) :
  exists w',
    clearLoop indices n w
    = (Ok (n + Z.of_nat (length (List.filter (clearable (w_doc w)) indices))), w')
    /\ sameFiller w w' /\ domOnly w w'.
Proof.
  revert n w. induction indices as [|i rest IH]; intros n w.
  - exists w. cbn. rewrite Z.add_0_r.
    split; [reflexivity|]. split; [apply sameFiller_refl | apply domOnly_refl].
  - cbn [clearLoop List.filter]. unfold bind at 1, get.
    unfold clearable at 1.
    destruct (w_doc w !! i) as [field|] eqn:Hl; [|exact (IH n w)].
    destruct (clearSkips field) eqn:Hs; cbn [negb]; [exact (IH n w)|].
    destruct (clearAttempt_run i field w Hl Hs) as (w1 & E1 & Hd1 & Hf1).
    pose proof (domOnly_clearAttempt i field w) as Hdom. rewrite E1 in Hdom.
    unfold bind at 1, try_catch, bind at 1. rewrite E1. cbn [ret].
    destruct (IH (n + 1) w1) as (w' & E & Hf & Hd).
    exists w'. split; [|split].
    + rewrite E. f_equal. f_equal. cbn [length]. rewrite Hd1.
      rewrite (filter_ext _ _ (clearable_alter (w_doc w) i)). lia.
    + eapply sameFiller_trans; eassumption.
    + eapply domOnly_trans; eassumption.
Qed.

Lemma filter_clearable (d : list Element) :
  length (List.filter (clearable d) (seq 0 (length d)))
  = length (List.filter (fun f => negb (clearSkips f)) d).
Proof.
  induction d as [|f d IH] using rev_ind; [reflexivity|].
  rewrite length_app, Nat.add_comm. cbn [length Nat.add].
  rewrite seq_S, !List.filter_app, !length_app. cbn [Nat.add List.filter].
  f_equal.
  - rewrite <- IH. f_equal. apply filter_ext_in. intros i Hi.
    apply in_seq in Hi. unfold clearable.
    rewrite lookup_app_l by lia. reflexivity.
  - unfold clearable. rewrite list_lookup_middle by reflexivity.
    now destruct (negb (clearSkips f)).
Qed.

(** X20.  [clearForms] always succeeds.  The number it reports is the
    number of controls it does not pass over (disabled, read-only, captcha,
    button-like and file controls are passed over), whether they held
    anything or not.  It announces that number in one CLEAR_COMPLETE
    message, sent last, and succeeds all the same when the message cannot
    be sent; before it come DOM events only.  The inventory, the settings
    and the session of the filler are left as they were. *)
Theorem clearForms_report (H : Host) (w : World) :
  let n := Z.of_nat (length (List.filter (fun f => negb (clearSkips f)) (w_doc w))) in
  exists w' events,
    clearForms H w = (Ok (ClearSuccess n), w')
    /\ sameFiller w w'
    /\ w_trace w'
       = ((match sendFault H (w_tick w) with
           | None => [EClearComplete n]
           | Some _ => []
           end) ++ events ++ w_trace w)%list
    /\ Forall (fun e => exists i type, e = EDomEvent i type) events.
Proof.
  cbv zeta. unfold clearForms, try_catch, bind at 1, get.
  destruct (clearLoop_count (seq 0 (length (w_doc w))) 0 w)
    as (w1 & E & Hf & (Ht & events & Htr & Hev)).
  unfold bind at 1. rewrite E. rewrite filter_clearable. cbn [Z.add].
  unfold bind, try_catch, fresh, emit, modify, throw, ret. rewrite Ht.
  destruct Hf as (a1 & a2 & a3 & a4 & a5 & a6).
  destruct (sendFault H (w_tick w));
    eexists _, events; (split; [reflexivity|]);
    cbn [w_trace setTrace setTick app];
    (split; [repeat split; assumption|]);
    (split; [now rewrite Htr | exact Hev]).
Qed.

(** ** Progress messages, bounded *)

Lemma sorted_length_bound (ks : list Z) (lo hi : Z) :
  StronglySorted Z.lt ks ->
  Forall (fun k => lo < k <= hi) ks ->
  lo <= hi ->
  Z.of_nat (length ks) <= hi - lo.
Proof.
  intros Hs. revert lo. induction Hs as [|k ks Hs IH Hall]; intros lo Hr Hle.
  - cbn. lia.
  - apply Forall_cons in Hr. destruct Hr as [Hk Hr].
    cbn [length]. rewrite Nat2Z.inj_succ.
    assert (Hr' : Forall (fun x => k < x <= hi) ks).
    { rewrite Forall_forall in *. intros x Hx.
      specialize (Hr x Hx). specialize (Hall x Hx). lia. }
    specialize (IH k Hr' ltac:(lia)). lia.
Qed.

Lemma progressOf_bounds (k total : Z) :
  1 <= k <= total -> 0 <= progressOf k total <= 100.
Proof.
  intros Hk. split.
  - rewrite progressOf_eq by lia. apply Z.div_pos; lia.
  - rewrite <- (progressOf_full total) by lia. apply progressOf_mono; lia.
Qed.

(** X21.  The progress values that a fill sends are whole percentages
    from 0 to 100, and there is at most one of them for each field it
    reports as processed. *)
Theorem fill_progress_bounds (H : Host) (options : Options) (w : World) :
  exists summary w' new,
    fillForms H options w = (Ok (FillSuccess summary), w')
    /\ w_trace w' = (new ++ w_trace w)%list
    /\ Forall (fun p => 0 <= p <= 100) (progressValues new)
    /\ Z.of_nat (length (progressValues new)) <= fieldsProcessed summary.
Proof.
  destruct (fillForms_summary H options w)
    as (summary & w' & new & ks & E & Htr & Hv & Hsort & Hrange & Hp & Hs
        & Hle & _).
  exists summary, w', new. split; [exact E|]. split; [exact Htr|].
  rewrite Hv. split.
  - apply Forall_map. eapply Forall_impl; [exact Hrange|].
    cbv beta. intros k Hk. apply progressOf_bounds. lia.
  - rewrite length_map.
    pose proof (sorted_length_bound ks 0 (fieldsProcessed summary) Hsort) as Hb.
    rewrite <- (Z.sub_0_r (fieldsProcessed summary)). apply Hb; [|lia].
    eapply Forall_impl; [exact Hrange|]. cbv beta. intros k Hk. lia.
Qed.

(** ** The settings, from the store to the content script *)

(** X22.  After a first install the content script reads exactly its own
    defaults, whatever the store held before: the defaults of the
    background script and of the content script agree on every key that
    the content script reads. *)
Theorem settings_after_install (area : StorageArea) :
  sa_fault area = None ->
  requestSettings (Background.handleFirstInstall area) = defaultSettings.
Proof.
  intros Hok. unfold requestSettings, Background.handleFirstInstall,
    Background.handleMessage, storageSet, storageGet.
  rewrite Hok. reflexivity.
Qed.

Lemma settings_after_install_witness :
  requestSettings
    (Background.handleFirstInstall {| sa_items := emptyStored; sa_fault := None |})
  = defaultSettings.
Proof.
  apply (settings_after_install {| sa_items := emptyStored; sa_fault := None |}).
  reflexivity.
Defined.

(** X23.  The merge of [getSettings] is key by key.  A stored value wins;
    a key that the store does not hold keeps the default, also inside
    [enabledFieldTypes]: a stored map that names one kind leaves the other
    kinds as the defaults have them.  With no answer, or an answer that is
    not a success, the defaults are used whole. *)
Theorem getSettings_merge (stored : Stored) (kind : string) :
  let answer := {| Background.rs_success := true;
                   Background.rs_settings := Some stored;
                   Background.rs_tabInfo := None;
                   Background.rs_error := None |} in
  let types := default ∅ (st_enabledFieldTypes stored) in
  let merged := getSettings (Some answer) in
  enabledFieldTypes merged !! kind
  = match types !! kind with
    | Some enabled => Some enabled
    | None => defaultEnabledFieldTypes !! kind
    end
  /\ fillDelay merged = default 100 (st_fillDelay stored)
  /\ skipHiddenFields merged = default true (st_skipHiddenFields stored)
  /\ getSettings None = defaultSettings
  /\ (forall e, getSettings (Some (Background.failed e)) = defaultSettings).
Proof.
  cbv zeta. cbn [getSettings Background.rs_success Background.rs_settings
                 default enabledFieldTypes fillDelay skipHiddenFields].
  change (id stored) with stored. split; [|repeat split].
  rewrite lookup_union.
  change (enabledFieldTypes defaultSettings) with defaultEnabledFieldTypes.
  destruct (default ∅ (st_enabledFieldTypes stored) !! kind);
    [|now destruct (defaultEnabledFieldTypes !! kind)].
  now destruct (defaultEnabledFieldTypes !! kind).
Qed.

(** X24.  Saving from the popup and reading back.  After [saveSettings]
    on a healthy store, the popup loads the three check boxes as they were
    saved, the content script reads the same three values, and the keys
    that the popup does not show (the fill delay, the enabled kinds) are
    what they were before. *)
Theorem popup_settings_round_trip (boxes other : Popup.Checkboxes)
    (area : StorageArea) :
  sa_fault area = None ->
  let area' := Popup.saveSettings boxes area in
  Popup.loadSettings other area' = boxes
  /\ autoFillEnabled (requestSettings area') = Popup.cb_autoFillEnabled boxes
  /\ visualFeedbackEnabled (requestSettings area')
     = Popup.cb_visualFeedbackEnabled boxes
  /\ skipHiddenFields (requestSettings area') = Popup.cb_skipHiddenFields boxes
  /\ fillDelay (requestSettings area') = fillDelay (requestSettings area)
  /\ enabledFieldTypes (requestSettings area')
     = enabledFieldTypes (requestSettings area).
Proof.
  intros Hok. cbv zeta.
  unfold Popup.loadSettings, Popup.saveSettings, requestSettings,
    Background.handleMessage, storageSet, storageGet.
  rewrite Hok. cbn. destruct boxes. repeat split.
Qed.

Lemma popup_settings_round_trip_witness :
  let boxes := {| Popup.cb_autoFillEnabled := false;
                  Popup.cb_visualFeedbackEnabled := true;
                  Popup.cb_skipHiddenFields := false |} in
  let area := Background.handleFirstInstall
                {| sa_items := emptyStored; sa_fault := None |} in
  let area' := Popup.saveSettings boxes area in
  Popup.loadSettings boxes area' = boxes
  /\ autoFillEnabled (requestSettings area') = Popup.cb_autoFillEnabled boxes
  /\ visualFeedbackEnabled (requestSettings area')
     = Popup.cb_visualFeedbackEnabled boxes
  /\ skipHiddenFields (requestSettings area') = Popup.cb_skipHiddenFields boxes
  /\ fillDelay (requestSettings area') = fillDelay (requestSettings area)
  /\ enabledFieldTypes (requestSettings area')
     = enabledFieldTypes (requestSettings area).
Proof.
  apply (popup_settings_round_trip
           {| Popup.cb_autoFillEnabled := false;
              Popup.cb_visualFeedbackEnabled := true;
              Popup.cb_skipHiddenFields := false |}
           {| Popup.cb_autoFillEnabled := false;
              Popup.cb_visualFeedbackEnabled := true;
              Popup.cb_skipHiddenFields := false |}
           (Background.handleFirstInstall
              {| sa_items := emptyStored; sa_fault := None |})).
  reflexivity.
Defined.

(** X25.  The migration on update adds [fillDelay] and [dataLocale] where
    they are missing and writes nothing else: a value that is there is
    never replaced, running it again changes nothing, and the content
    script reads the same settings before and after it. *)
Theorem handleUpdate_migration (area : StorageArea) :
  sa_fault area = None ->
  let before := sa_items area in
  let area' := Background.handleUpdate area in
  let after := sa_items area' in
  st_fillDelay after = Some (default 100 (st_fillDelay before))
  /\ st_dataLocale after = Some (default "en" (st_dataLocale before))
  /\ st_autoFillEnabled after = st_autoFillEnabled before
  /\ st_visualFeedbackEnabled after = st_visualFeedbackEnabled before
  /\ st_skipHiddenFields after = st_skipHiddenFields before
  /\ st_enabledFieldTypes after = st_enabledFieldTypes before
  /\ Background.handleUpdate area' = area'
  /\ requestSettings area' = requestSettings area.
Proof.
  intros Hok. cbv zeta.
  destruct area as [[a v s d l t] fault]. cbn in Hok. subst fault.
  destruct d, l; repeat split.
Qed.

Lemma handleUpdate_migration_witness :
  let area := {| sa_items := emptyStored; sa_fault := None |} in
  let before := sa_items area in
  let area' := Background.handleUpdate area in
  let after := sa_items area' in
  st_fillDelay after = Some (default 100 (st_fillDelay before))
  /\ st_dataLocale after = Some (default "en" (st_dataLocale before))
  /\ st_autoFillEnabled after = st_autoFillEnabled before
  /\ st_visualFeedbackEnabled after = st_visualFeedbackEnabled before
  /\ st_skipHiddenFields after = st_skipHiddenFields before
  /\ st_enabledFieldTypes after = st_enabledFieldTypes before
  /\ Background.handleUpdate area' = area'
  /\ requestSettings area' = requestSettings area.
Proof.
  apply (handleUpdate_migration {| sa_items := emptyStored; sa_fault := None |}).
  reflexivity.
Defined.

(** ** Waiting for the page *)

Lemma setTrace_same (w : World) : setTrace (w_trace w) w = w.
Proof. now destruct w. Qed.

Lemma waitLoop_run (hasForms : nat -> bool) (remaining attempts : nat)
    (w : World) :
  exists k,
    (k <= remaining)%nat
    /\ waitLoop hasForms remaining attempts w
       = (Ok tt, setTrace (repeat (ESleep 200) k ++ w_trace w)%list w)
    /\ (forall j, (j < k)%nat -> hasForms (attempts + j)%nat = false)
    /\ ((k < remaining)%nat -> hasForms (attempts + k)%nat = true).
Proof.
  revert attempts w. induction remaining as [|r IH]; intros a w.
  - exists 0%nat. cbn. rewrite setTrace_same. repeat split; intros; lia.
  - cbn [waitLoop]. destruct (hasForms a) eqn:Ea.
    + exists 0%nat. cbn [repeat app]. rewrite setTrace_same, Nat.add_0_r.
      split; [lia|]. split; [reflexivity|]. split; [intros; lia|].
      intros _. exact Ea.
    + unfold bind, delay, emit, modify.
      destruct (IH (S a) (setTrace (ESleep 200 :: w_trace w) w))
        as (k & Hk & E & Hno & Hyes).
      exists (S k). split; [lia|]. split; [|split].
      * rewrite E. cbn [w_trace setTrace]. f_equal.
        change (ESleep 200 :: w_trace w) with ([ESleep 200] ++ w_trace w)%list.
        rewrite app_assoc, <- repeat_cons. reflexivity.
      * intros [|j] Hj; [now rewrite Nat.add_0_r|].
        replace (a + S j)%nat with (S a + j)%nat by lia. apply Hno. lia.
      * intros Hlt. replace (a + S k)%nat with (S a + k)%nat by lia.
        apply Hyes. lia.
Qed.

(** X26.  [waitForContent] polls the page at most ten times, 200 ms
    apart, stops at the first poll that finds a form or a control, and
    then waits 500 ms more: it sleeps 200 k + 500 ms for the number k of
    polls that found nothing, at most 2.5 s, and goes on whether the page
    has content or not.  It changes nothing else. *)
Theorem waitForContent_bound (hasForms : nat -> bool) (w : World) :
  exists k,
    (k <= 10)%nat
    /\ waitForContent hasForms w
       = (Ok tt,
          setTrace (ESleep 500 :: repeat (ESleep 200) k ++ w_trace w)%list w)
    /\ (forall j, (j < k)%nat -> hasForms j = false)
    /\ ((k < 10)%nat -> hasForms k = true).
Proof.
  destruct (waitLoop_run hasForms 10 0 w) as (k & Hk & E & Hno & Hyes).
  exists k. split; [exact Hk|]. split; [|split; assumption].
  unfold waitForContent. cbv zeta. unfold bind. rewrite E. reflexivity.
Qed.

(** ** Starting up *)


(** ** The observer *)

(** X28.  What the observer reacts to.  A batch of mutations that holds
    an added element with a form or a control inside it schedules a silent
    rescan 300 ms later, replacing the one that was pending.  A batch that
    only adds nodes directly under the body, none of them a form and none
    with a form or a control inside, schedules nothing, even when the nodes
    added are controls themselves. *)
Theorem observer_reacts (instant : Z) (mutations : list Observer.Mutation)
    (pending : option Z) :
  ((exists m node,
      In m mutations /\ In node (Observer.mu_addedNodes m)
      /\ Observer.isElement node = true
      /\ (Observer.containsForm node = true
          \/ Observer.containsControl node = true)) ->
   Observer.onMutations instant mutations pending = Some (instant + 300))
  /\ (Forall (fun m =>
                Observer.mu_type m = "childList"
                /\ Observer.mu_targetIsBody m = true
                /\ Forall (fun node =>
                             Observer.tagName node <> "FORM"
                             /\ Observer.containsForm node = false
                             /\ Observer.containsControl node = false)
                          (Observer.mu_addedNodes m)) mutations ->
      Observer.onMutations instant mutations pending = pending).
Proof.
  unfold Observer.onMutations, Observer.shouldRescan. split.
  - intros (m & node & Hm & Hn & He & Hc).
    assert (Hs : existsb Observer.mutationRelevant mutations = true).
    { apply existsb_exists. exists m. split; [exact Hm|].
      unfold Observer.mutationRelevant.
      assert (Ha : existsb Observer.addedNodeRelevant (Observer.mu_addedNodes m)
                   = true).
      { apply existsb_exists. exists node. split; [exact Hn|].
        unfold Observer.addedNodeRelevant. rewrite He.
        destruct Hc as [-> | ->]; cbn; now rewrite ?orb_true_r. }
      now rewrite Ha. }
    now rewrite Hs.
  - intros Hall.
    assert (Hs : existsb Observer.mutationRelevant mutations = false).
    { apply not_true_is_false. intros Hex. apply existsb_exists in Hex.
      destruct Hex as (m & Hm & Hr).
      rewrite List.Forall_forall in Hall. destruct (Hall m Hm) as (Ht & Hb & Hnodes).
      unfold Observer.mutationRelevant in Hr. rewrite Ht, Hb in Hr.
      cbn [String.eqb Ascii.eqb Bool.eqb negb andb orb] in Hr.
      rewrite ?andb_false_r, ?orb_false_r in Hr.
      apply existsb_exists in Hr. destruct Hr as (node & Hn & Hrel).
      rewrite List.Forall_forall in Hnodes. destruct (Hnodes node Hn) as (Hf & Hcf & Hcc).
      unfold Observer.addedNodeRelevant in Hrel. rewrite Hcf, Hcc in Hrel.
      apply String.eqb_neq in Hf. rewrite Hf in Hrel.
      now rewrite andb_false_r in Hrel. }
    now rewrite Hs.
Qed.

Lemma observer_reacts_witness :
  let input := {| Observer.isElement := true; Observer.tagName := "INPUT";
                  Observer.containsForm := false;
                  Observer.containsControl := false |} in
  let wrapper := {| Observer.isElement := true; Observer.tagName := "DIV";
                    Observer.containsForm := false;
                    Observer.containsControl := true |} in
  let body := {| Observer.isElement := true; Observer.tagName := "BODY";
                 Observer.containsForm := false;
                 Observer.containsControl := true |} in
  Observer.onMutations 1000
    [{| Observer.mu_type := "childList"; Observer.mu_target := body;
        Observer.mu_targetIsBody := true;
        Observer.mu_addedNodes := [wrapper] |}] (Some 1100) = Some 1300
  /\ Observer.onMutations 1000
       [{| Observer.mu_type := "childList"; Observer.mu_target := body;
           Observer.mu_targetIsBody := true;
           Observer.mu_addedNodes := [input] |}] (Some 1100) = Some 1100.
Proof.
  split.
  - apply (proj1 (observer_reacts 1000 _ (Some 1100))).
    eexists _, _. split; [left; reflexivity|]. split; [left; reflexivity|].
    split; [reflexivity | right; reflexivity].
  - apply (proj2 (observer_reacts 1000 _ (Some 1100))).
    repeat constructor; discriminate.
Defined.

(** ** The popup after a scan *)

Lemma scan_lists_form_iff (w : World) :
  w_detectedForms (scanPass w) <> []
  <-> exists i field,
        w_doc w !! i = Some field
        /\ isFieldFillable (w_settings w) field = true.
Proof.
  split.
  - destruct (w_detectedForms (scanPass w)) as [|fm fms] eqn:E;
      [congruence|]. intros _.
    assert (Hfm : fm ∈ w_detectedForms (scanPass w))
      by (rewrite E; apply list_elem_of_here).
    destruct (scanPass_source w fm Hfm) as (Hne & _).
    destruct (fm_fields fm) as [|fd fds] eqn:Ef; [congruence|].
    assert (Hfd : fd ∈ w_detectedFields (scanPass w)).
    { apply scanPass_fields. exists fm. split; [exact Hfm|].
      rewrite Ef. apply list_elem_of_here. }
    destruct (scanPass_listed w fd Hfd) as (field & Hl & _ & Hf).
    eauto.
  - intros (i & field & Hl & Hf).
    destruct (scanPass_lists w i field Hl Hf) as (fm & fd & Hfm & _).
    intros E. rewrite E in Hfm. now apply elem_of_nil in Hfm.
Qed.


